(** * The box model of the formatting structure

    A shallow embedding of [weasy/formatting_structure/boxes.py]: the box
    classes with their slots and method resolution order, the object store
    the boxes live in, the geometry queries, containing-block resolution and
    the tree operations (copy, translate, descendants, reset_spacing),
    followed by the properties the specification states about them.

    Numbers are Python's: integers of any size ([Z]) and floats, the
    binary64 numbers of IEEE 754 with their rounded operations (the
    Standard Library's [SpecFloat]); the store is a finite map from
    references to objects, so that two attributes holding the same reference
    alias the same object, exactly as in the source. *)

From Stdlib Require Import ZArith String List Lia SpecFloat.
From stdpp Require Import base gmap strings list fin_maps.
Open Scope Z_scope.
#[local] Set Warnings "-register-all".

(** ** Values *)

Abbreviation loc := positive.

#[global] Instance spec_float_eq_dec : EqDecision spec_float.
Proof. solve_decision. Defined.

(** A Python value as this module handles it: [None], an integer ([int] or
    [long], which Python 2 adds without overflow), a float, a string, a
    reference to an object of the store, or a value owned by a collaborator
    (a document, an element, a list of CSS tokens, a replacement) that this
    module only passes around. *)
Inductive pyval :=
| VNone
| VNum (z : Z)
| VFloat (f : spec_float)
| VStr (s : string)
| VRef (l : loc)
| VExt (n : positive).

#[global] Instance pyval_eq_dec : EqDecision pyval.
Proof. solve_decision. Defined.

(** ** Classes *)

Inductive cls :=
| Box
| PageBox
| ParentBox
| BlockLevelBox
| BlockContainerBox
| BlockBox
| AnonymousBox
| AnonymousBlockBox
| LineBox
| InlineLevelBox
| InlineBox
| TextBox
| AtomicInlineLevelBox
| InlineBlockBox
| ReplacedBox
| BlockLevelReplacedBox
| InlineLevelReplacedBox
| ImageMarkerBox.

#[global] Instance cls_eq_dec : EqDecision cls.
Proof. solve_decision. Defined.

(** The bases of each class statement, [object] left out. *)
Definition bases (c : cls) : list cls :=
  match c with
  | Box => []
  | PageBox => [Box]
  | ParentBox => [Box]
  | BlockLevelBox => [Box]
  | BlockContainerBox => [ParentBox]
  | BlockBox => [BlockContainerBox; BlockLevelBox]
  | AnonymousBox => [Box]
  | AnonymousBlockBox => [AnonymousBox; BlockBox]
  | LineBox => [AnonymousBox; ParentBox]
  | InlineLevelBox => [Box]
  | InlineBox => [InlineLevelBox; ParentBox]
  | TextBox => [AnonymousBox; InlineLevelBox]
  | AtomicInlineLevelBox => [InlineLevelBox]
  | InlineBlockBox => [AtomicInlineLevelBox; BlockContainerBox]
  | ReplacedBox => [Box]
  | BlockLevelReplacedBox => [ReplacedBox; BlockLevelBox]
  | InlineLevelReplacedBox => [ReplacedBox; AtomicInlineLevelBox]
  | ImageMarkerBox => [InlineLevelReplacedBox; AnonymousBox]
  end.

Definition sides : list string := ["top"; "right"; "bottom"; "left"].

(** A template such as ['border_%s_width'], as the text before and after
    the [%s]. *)
Definition fmt (template : string * string) (side : string) : string :=
  template.1 +:+ side +:+ template.2.

Definition padding_ : string * string := ("padding_", "").
Definition border__width : string * string := ("border_", "_width").
Definition margin_ : string * string := ("margin_", "").

(** [Box.__slots__]. *)
Definition Box_slots : list string :=
  ["document"; "element"; "parent"; "width"; "height";
   "position_x"; "position_y"; "style"; "text_indent";
   "min_width"; "max_width"; "min_height"; "max_height";
   "background_drawn";
   "children"; "baseline"]
  ++ flat_map (fun template => map (fmt template) sides)
       [padding_; border__width; margin_].

(** The [__slots__] of each class statement. *)
Definition own_slots (c : cls) : list string :=
  match c with
  | Box => Box_slots
  | PageBox => ["page_number"; "root_box"; "outer_width"; "outer_height"]
  | BlockBox => ["outside_list_marker"]
  | TextBox => ["text"; "extents"; "logical_extents"]
  | ReplacedBox => ["replacement"]
  | _ => []
  end.

(** The metaclass: [_all_slots] is the concatenation of the bases'
    [_all_slots] followed by the class's own [__slots__].  The recursion
    follows the class hierarchy, which is six levels deep at most. *)
Fixpoint all_slots_upto (depth : nat) (c : cls) : list string :=
  match depth with
  | O => []
  | S d => concat (map (all_slots_upto d) (bases c)) ++ own_slots c
  end.

Definition all_slots (c : cls) : list string := all_slots_upto 6 c.

(** *** Method resolution order (C3 linearisation) *)

Definition in_tail (k : cls) (s : list cls) : bool :=
  bool_decide (k ∈ tail s).

Definition good_head (seqs : list (list cls)) (k : cls) : bool :=
  forallb (fun s => negb (in_tail k s)) seqs.

Definition drop_head (k : cls) (s : list cls) : list cls :=
  match s with
  | k' :: s' => if bool_decide (k' = k) then s' else s
  | [] => []
  end.

Definition nonempty {A} (s : list A) : bool :=
  match s with [] => false | _ => true end.

Fixpoint c3_merge (fuel : nat) (seqs : list (list cls)) : option (list cls) :=
  match fuel with
  | O => None
  | S n =>
      match List.filter nonempty seqs with
      | [] => Some []
      | live =>
          match List.find (good_head live) (flat_map (take 1) live) with
          | Some k => option_map (cons k) (c3_merge n (map (drop_head k) live))
          | None => None
          end
      end
  end.

Fixpoint mro_upto (depth : nat) (c : cls) : option (list cls) :=
  match depth with
  | O => None
  | S d =>
      match mapM (mro_upto d) (bases c) with
      | Some ls => option_map (cons c) (c3_merge 64 (ls ++ [bases c]))
      | None => None
      end
  end.

Definition mro (c : cls) : list cls := default [] (mro_upto 6 c).

Definition issubclass (c k : cls) : bool := bool_decide (k ∈ mro c).

(** The methods each class statement defines. *)
Definition defines (c : cls) (meth : string) : bool :=
  match c with
  | Box =>
      bool_decide (meth ∈
        ["__init__"; "_init_style"; "__repr__"; "ancestors";
         "containing_block_size"; "copy"; "translate";
         "padding_width"; "padding_height"; "border_width"; "border_height";
         "margin_width"; "margin_height";
         "horizontal_surroundings"; "vertical_surroundings";
         "content_box_x"; "content_box_y"; "padding_box_x"; "padding_box_y";
         "border_box_x"; "border_box_y"; "reset_spacing";
         "is_floated"; "is_absolutely_positioned"; "is_in_normal_flow"])
  | PageBox =>
      bool_decide (meth ∈
        ["__init__"; "__repr__"; "_init_style"; "containing_block_size"])
  | ParentBox =>
      bool_decide (meth ∈
        ["__init__"; "empty"; "add_child"; "descendants"; "translate"])
  | AnonymousBox => bool_decide (meth = "_init_style")
  | TextBox => bool_decide (meth = "__init__")
  | ReplacedBox => bool_decide (meth = "__init__")
  | _ => false
  end.

(** The class whose definition of [meth] an instance of [c] runs. *)
Definition resolve (c : cls) (meth : string) : option cls :=
  List.find (fun k => defines k meth) (mro c).

(** The classes that follow [k] in an order. *)
Fixpoint after (k : cls) (order : list cls) : list cls :=
  match order with
  | [] => []
  | k' :: rest => if bool_decide (k' = k) then rest else after k rest
  end.

(** [super(k, self).meth]: the next definition after [k] in the order. *)
Definition resolve_super (c k : cls) (meth : string) : option cls :=
  List.find (fun k' => defines k' meth) (after k (mro c)).

(** ** The object store *)

Inductive obj :=
| OBox (c : cls) (slots : gmap string pyval)
| ODeque (items : list pyval)
| OStyle (entries : gmap string pyval).

#[global] Instance obj_eq_dec : EqDecision obj.
Proof. solve_decision. Defined.

Abbreviation heap := (gmap loc obj).

(** ** Outcomes *)

Inductive exn :=
| AttributeError
| TypeError
| KeyError
| OverflowError
| AssertionError (msg : string).

(** What running a piece of code gives: a value, a raised exception, a step
    this model does not cover, or a recursion cut off by its fuel. *)
Inductive outcome (A : Type) :=
| Ok (a : A)
| Raise (e : exn)
| Unmodelled
| OutOfFuel.
Arguments Ok {A} a.
Arguments Raise {A} e.
Arguments Unmodelled {A}.
Arguments OutOfFuel {A}.

Definition obind {A B} (m : outcome A) (k : A → outcome B) : outcome B :=
  match m with
  | Ok a => k a
  | Raise e => Raise e
  | Unmodelled => Unmodelled
  | OutOfFuel => OutOfFuel
  end.

Notation "x <- m ;; k" := (obind m (fun x => k))
  (at level 100, m at next level, right associativity).

(** Code that mutates the store: the store reached is kept when an
    exception is raised, as the assignments already made stay made. *)
Definition M (A : Type) : Type := heap → outcome A * heap.

Definition ret {A} (a : A) : M A := fun h => (Ok a, h).

Definition bind {A B} (m : M A) (k : A → M B) : M B :=
  fun h =>
    match m h with
    | (Ok a, h') => k a h'
    | (Raise e, h') => (Raise e, h')
    | (Unmodelled, h') => (Unmodelled, h')
    | (OutOfFuel, h') => (OutOfFuel, h')
    end.

Definition read {A} (f : heap → outcome A) : M A := fun h => (f h, h).

Notation "x <~ m ;; k" := (bind m (fun x => k))
  (at level 100, m at next level, right associativity).

(** [for x in xs: body(x)] *)
Fixpoint for_each {A} (xs : list A) (body : A → M unit) : M unit :=
  match xs with
  | [] => ret tt
  | x :: xs' => _ <~ body x ;; for_each xs' body
  end.

(** The same loop in code that only reads, collecting what each turn yields. *)
Fixpoint collect {A B} (xs : list A) (body : A → outcome (list B))
  : outcome (list B) :=
  match xs with
  | [] => Ok []
  | x :: xs' => ys <- body x ;; zs <- collect xs' body ;; Ok (ys ++ zs)
  end.

(** ** Primitive operations *)

(** Floats are binary64: 53 bits of precision, exponents below 1024. *)
Definition float_add : spec_float → spec_float → spec_float := SFadd 53 1024.
Definition float_sub : spec_float → spec_float → spec_float := SFsub 53 1024.
Definition float_div : spec_float → spec_float → spec_float := SFdiv 53 1024.

(** [x == y] on floats. *)
Definition float_eqb : spec_float → spec_float → bool := SFeqb.

Definition is_zero (f : spec_float) : bool :=
  match f with
  | S754_zero _ => true
  | _ => false
  end.

(** The float nearest to an integer (ties to even), which is what the
    conversion of an [int] or [long] operand gives; an integer beyond the
    range of the floats has none ([OverflowError]). *)
Definition nearest_float (z : Z) : spec_float :=
  binary_normalize 53 1024 z 0 false.

Definition float_of_int (z : Z) : outcome spec_float :=
  match nearest_float z with
  | S754_infinity _ => Raise OverflowError
  | f => Ok f
  end.

(** Truth value of a value, as [while x:] and [x or y] test it.  The box
    classes define neither [__nonzero__] nor [__len__], so a box is true; a
    deque is true when it has items. *)
Definition truthy (h : heap) (v : pyval) : outcome bool :=
  match v with
  | VNone => Ok false
  | VNum z => Ok (negb (bool_decide (z = 0)))
  | VFloat f => Ok (negb (is_zero f))
  | VStr s => Ok (negb (bool_decide (s = "")))
  | VRef l =>
      match h !! l with
      | Some (OBox _ _) => Ok true
      | Some (ODeque items) => Ok (nonempty items)
      | _ => Unmodelled
      end
  | VExt _ => Unmodelled
  end.

(** [a + b] on numbers and strings; [None] has no addition.  Two integers
    add exactly; two floats add with one rounding; an integer that meets a
    float is converted first. *)
Definition py_add (a b : pyval) : outcome pyval :=
  match a, b with
  | VNum x, VNum y => Ok (VNum (x + y))
  | VFloat x, VFloat y => Ok (VFloat (float_add x y))
  | VNum x, VFloat y => fx <- float_of_int x ;; Ok (VFloat (float_add fx y))
  | VFloat x, VNum y => fy <- float_of_int y ;; Ok (VFloat (float_add x fy))
  | VStr x, VStr y => Ok (VStr (x +:+ y))
  | VNone, (VNone | VNum _ | VFloat _ | VStr _) => Raise TypeError
  | VNum _, (VNone | VStr _) => Raise TypeError
  | VFloat _, (VNone | VStr _) => Raise TypeError
  | VStr _, (VNone | VNum _ | VFloat _) => Raise TypeError
  | _, _ => Unmodelled
  end.

(** Modelled from the spec: the style bag, whose class is not part of this
    module, is "a mapping of resolved CSS property values"; reading a
    property as an attribute ([style.position]) reads the entry of that
    name.  What the class does for a name that has no entry is not stated,
    and is not modelled. *)
Definition style_getattr (entries : gmap string pyval) (name : string)
  : outcome pyval :=
  match entries !! name with
  | Some x => Ok x
  | None => Unmodelled
  end.

(** Modelled from the spec: assigning an item of the style bag
    ([style[key] = x]) sets the entry of that name in the mapping. *)
Definition style_setitem (entries : gmap string pyval) (key : string)
    (x : pyval) : gmap string pyval :=
  <[key := x]> entries.

(** Reading a data attribute: a slot of a box (an unset slot raises), or a
    property of a style bag.  Methods are looked up by [lookup_method]; the
    operations below read slot names only. *)
Definition getattr (h : heap) (v : pyval) (name : string) : outcome pyval :=
  match v with
  | VNone => Raise AttributeError
  | VRef l =>
      match h !! l with
      | Some (OBox _ slots) =>
          match slots !! name with
          | Some x => Ok x
          | None => Raise AttributeError
          end
      | Some (OStyle entries) => style_getattr entries name
      | Some (ODeque _) => Raise AttributeError
      | None => Unmodelled
      end
  | _ => Unmodelled
  end.

(** Assigning a data attribute of a box: only the names of [_all_slots]
    exist, as every class declares [__slots__]. *)
Definition setattr (v : pyval) (name : string) (x : pyval) : M unit :=
  fun h =>
    match v with
    | VNone => (Raise AttributeError, h)
    | VRef l =>
        match h !! l with
        | Some (OBox c slots) =>
            if bool_decide (name ∈ all_slots c)
            then (Ok tt, <[l := OBox c (<[name := x]> slots)]> h)
            else (Raise AttributeError, h)
        | _ => (Unmodelled, h)
        end
    | _ => (Unmodelled, h)
    end.

(** [bag[key] = x] on a style bag. *)
Definition setitem (v : pyval) (key : string) (x : pyval) : M unit :=
  fun h =>
    match v with
    | VNone => (Raise TypeError, h)
    | VRef l =>
        match h !! l with
        | Some (OStyle entries) =>
            (Ok tt, <[l := OStyle (style_setitem entries key x)]> h)
        | Some (OBox _ _) => (Raise TypeError, h)
        | _ => (Unmodelled, h)
        end
    | _ => (Unmodelled, h)
    end.

(** A new object at a reference no object has. *)
Definition alloc (o : obj) : M pyval :=
  fun h => let l := fresh (dom h) in (Ok (VRef l), <[l := o]> h).

(** Modelled from the spec: the style bag is "a mapping of resolved CSS
    property values", and its [copy()], which is not part of this module,
    gives "a fresh, independent copy of the style bag": a new object with
    the same entries. *)
Definition style_copy (v : pyval) : M pyval :=
  fun h =>
    match v with
    | VNone => (Raise AttributeError, h)
    | VRef l =>
        match h !! l with
        | Some (OStyle entries) => alloc (OStyle entries) h
        | _ => (Unmodelled, h)
        end
    | _ => (Unmodelled, h)
    end.

(** [type(v)] for a box. *)
Definition type_of (h : heap) (v : pyval) : outcome cls :=
  match v with
  | VRef l =>
      match h !! l with
      | Some (OBox c _) => Ok c
      | _ => Unmodelled
      end
  | _ => Unmodelled
  end.

(** [isinstance(v, k)] for a box class [k]. *)
Definition isinstance (h : heap) (v : pyval) (k : cls) : outcome bool :=
  match v with
  | VRef l =>
      match h !! l with
      | Some (OBox c _) => Ok (issubclass c k)
      | Some _ => Ok false
      | None => Unmodelled
      end
  | VExt _ => Unmodelled
  | _ => Ok false
  end.

(** [hasattr(v, name)]: a method of the class, or a slot of the class that
    is set. *)
Definition hasattr (h : heap) (v : pyval) (name : string) : outcome bool :=
  match v with
  | VRef l =>
      match h !! l with
      | Some (OBox c slots) =>
          Ok (bool_decide (is_Some (resolve c name))
              || (bool_decide (name ∈ all_slots c)
                  && bool_decide (is_Some (slots !! name))))
      | _ => Unmodelled
      end
  | VNone => Ok false
  | _ => Unmodelled
  end.

(** The class whose [meth] the call [v.meth(...)] runs. *)
Definition lookup_method (h : heap) (v : pyval) (meth : string) : outcome cls :=
  match v with
  | VNone => Raise AttributeError
  | VRef l =>
      match h !! l with
      | Some (OBox c _) =>
          match resolve c meth with
          | Some k => Ok k
          | None => Raise AttributeError
          end
      | _ => Unmodelled
      end
  | _ => Unmodelled
  end.

(** The items a [for] loop over [v] visits. *)
Definition iter (h : heap) (v : pyval) : outcome (list pyval) :=
  match v with
  | VNone | VNum _ | VFloat _ => Raise TypeError
  | VRef l =>
      match h !! l with
      | Some (ODeque items) => Ok items
      | Some (OBox _ _) => Raise TypeError
      | _ => Unmodelled
      end
  | _ => Unmodelled
  end.

(** ** Geometry model *)

(** [self.a + self.b + self.c + ...], evaluated left to right. *)
Fixpoint add_attrs (h : heap) (self : pyval) (acc : pyval) (names : list string)
  : outcome pyval :=
  match names with
  | [] => Ok acc
  | name :: rest =>
      x <- getattr h self name ;;
      acc' <- py_add acc x ;;
      add_attrs h self acc' rest
  end.

Definition padding_width (h : heap) (self : pyval) : outcome pyval :=
  w <- getattr h self "width" ;;
  add_attrs h self w ["padding_left"; "padding_right"].

Definition padding_height (h : heap) (self : pyval) : outcome pyval :=
  x <- getattr h self "height" ;;
  add_attrs h self x ["padding_top"; "padding_bottom"].

Definition border_width (h : heap) (self : pyval) : outcome pyval :=
  x <- padding_width h self ;;
  add_attrs h self x ["border_left_width"; "border_right_width"].

Definition border_height (h : heap) (self : pyval) : outcome pyval :=
  x <- padding_height h self ;;
  add_attrs h self x ["border_top_width"; "border_bottom_width"].

Definition margin_width (h : heap) (self : pyval) : outcome pyval :=
  x <- border_width h self ;;
  add_attrs h self x ["margin_left"; "margin_right"].

Definition margin_height (h : heap) (self : pyval) : outcome pyval :=
  x <- border_height h self ;;
  add_attrs h self x ["margin_top"; "margin_bottom"].

Definition horizontal_surroundings (h : heap) (self : pyval) : outcome pyval :=
  x <- getattr h self "margin_left" ;;
  add_attrs h self x
    ["margin_right"; "padding_left"; "padding_right";
     "border_left_width"; "border_right_width"].

Definition vertical_surroundings (h : heap) (self : pyval) : outcome pyval :=
  x <- getattr h self "margin_top" ;;
  add_attrs h self x
    ["margin_bottom"; "padding_top"; "padding_bottom";
     "border_top_width"; "border_bottom_width"].

Definition content_box_x (h : heap) (self : pyval) : outcome pyval :=
  x <- getattr h self "position_x" ;;
  add_attrs h self x ["margin_left"; "padding_left"; "border_left_width"].

Definition content_box_y (h : heap) (self : pyval) : outcome pyval :=
  x <- getattr h self "position_y" ;;
  add_attrs h self x ["margin_top"; "padding_top"; "border_top_width"].

Definition padding_box_x (h : heap) (self : pyval) : outcome pyval :=
  x <- getattr h self "position_x" ;;
  add_attrs h self x ["margin_left"; "border_left_width"].

Definition padding_box_y (h : heap) (self : pyval) : outcome pyval :=
  x <- getattr h self "position_y" ;;
  add_attrs h self x ["margin_top"; "border_top_width"].

Definition border_box_x (h : heap) (self : pyval) : outcome pyval :=
  x <- getattr h self "position_x" ;;
  add_attrs h self x ["margin_left"].

Definition border_box_y (h : heap) (self : pyval) : outcome pyval :=
  x <- getattr h self "position_y" ;;
  add_attrs h self x ["margin_top"].

Definition margin_dash : string * string := ("margin-", "").
Definition padding_dash : string * string := ("padding-", "").
Definition border_dash_width : string * string := ("border-", "-width").

(** [self.style[key] = None] *)
Definition clear_style (self : pyval) (key : string) : M unit :=
  st <~ read (fun h => getattr h self "style") ;;
  setitem st key VNone.

Definition reset_spacing (self : pyval) (side : string) : M unit :=
  _ <~ setattr self (fmt margin_ side) (VNum 0) ;;
  _ <~ setattr self (fmt padding_ side) (VNum 0) ;;
  _ <~ setattr self (fmt border__width side) (VNum 0) ;;
  _ <~ clear_style self (fmt margin_dash side) ;;
  _ <~ clear_style self (fmt padding_dash side) ;;
  clear_style self (fmt border_dash_width side).

(** [Box.translate]: [self.position_x += x; self.position_y += y]. *)
Definition Box_translate (self x y : pyval) : M unit :=
  px <~ read (fun h => getattr h self "position_x") ;;
  px' <~ read (fun _ => py_add px x) ;;
  _ <~ setattr self "position_x" px' ;;
  py <~ read (fun h => getattr h self "position_y") ;;
  py' <~ read (fun _ => py_add py y) ;;
  setattr self "position_y" py'.

(** Method dispatch of [box.translate(x, y)]: [ParentBox.translate] runs
    [Box.translate] through [super] and then translates every child;
    every other box runs [Box.translate].  The fuel bounds the depth of the
    recursion through the store. *)
Fixpoint translate (fuel : nat) (self x y : pyval) : M unit :=
  match fuel with
  | O => fun h => (OutOfFuel, h)
  | S n =>
      k <~ read (fun h => lookup_method h self "translate") ;;
      match k with
      | ParentBox =>
          _ <~ Box_translate self x y ;;
          ch <~ read (fun h => getattr h self "children") ;;
          items <~ read (fun h => iter h ch) ;;
          for_each items (fun child => translate n child x y)
      | _ => Box_translate self x y
      end
  end.

(** Method dispatch of [box.descendants()], as the list of boxes the
    generator yields.  Only [ParentBox] defines the method. *)
Fixpoint descendants (fuel : nat) (h : heap) (self : pyval)
  : outcome (list pyval) :=
  match fuel with
  | O => OutOfFuel
  | S n =>
      _ <- lookup_method h self "descendants" ;;
      ch <- getattr h self "children" ;;
      t <- truthy h ch ;;
      items <- (if t then iter h ch else Ok []) ;;
      rest <- collect items (fun child =>
                b <- hasattr h child "descendants" ;;
                if b then descendants n h child else Ok [child]) ;;
      Ok (self :: rest)
  end.

(** [Box.copy]: a new instance of the same class made without [__init__],
    every slot that is set copied over, and the style bag copied. *)
Definition copy_slot (self new_box : pyval) (name : string) : M unit :=
  fun h =>
    match getattr h self name with
    | Ok value => setattr new_box name value h
    | Raise AttributeError => (Ok tt, h)
    | Raise e => (Raise e, h)
    | Unmodelled => (Unmodelled, h)
    | OutOfFuel => (OutOfFuel, h)
    end.

Definition copy (self : pyval) : M pyval :=
  c <~ read (fun h => type_of h self) ;;
  new_box <~ alloc (OBox c ∅) ;;
  _ <~ for_each (all_slots c) (copy_slot self new_box) ;;
  st <~ read (fun h => getattr h self "style") ;;
  st' <~ style_copy st ;;
  _ <~ setattr new_box "style" st' ;;
  ret new_box.

(** ** Operations that call the style collaborators *)

Section Collaborators.

(** [get_single_keyword] of [weasy.css.values], which is not part of this
    module: the keyword a style value consists of, or [None]. *)
Variable get_single_keyword : pyval → outcome (option string).

(** [document.style_for(element)]: the entries of the bag returned. *)
Variable style_for : pyval → pyval → gmap string pyval.

(** [computed_from_cascaded(element, cascaded, parent_style)] of
    [weasy.css]: the entries of the bag returned. *)
Variable computed_from_cascaded :
  pyval → gmap string pyval → gmap string pyval → gmap string pyval.

(** [document.computed_styles['@page', page_type]], when the key is
    there. *)
Variable computed_styles : pyval → string → option (gmap string pyval).

(** [get_single_keyword(self.style.<prop>)] *)
Definition keyword_of (h : heap) (self : pyval) (prop : string)
  : outcome (option string) :=
  st <- getattr h self "style" ;;
  v <- getattr h st prop ;;
  get_single_keyword v.

(** *** Positioning schemes *)

Definition is_floated (h : heap) (self : pyval) : outcome bool :=
  k <- keyword_of h self "float" ;;
  Ok (negb (bool_decide (k = Some "none"))).

Definition is_absolutely_positioned (h : heap) (self : pyval) : outcome bool :=
  k <- keyword_of h self "position" ;;
  Ok (bool_decide (k ∈ [Some "absolute"; Some "fixed"])).

(** [not (self.is_floated() or self.is_absolutely_positioned())]: the
    second call is made only when the first is false. *)
Definition is_in_normal_flow (h : heap) (self : pyval) : outcome bool :=
  f <- is_floated h self ;;
  if f then Ok (negb f)
  else a <- is_absolutely_positioned h self ;; Ok (negb a).

(** *** Containing block *)

(** [for ancestor in self.ancestors(): body], where [body] may return
    from the enclosing function ([Some]) or fall through to the next turn
    ([None]).  The generator is consumed lazily: no parent link beyond the
    turn that returns is read. *)
Fixpoint for_ancestors {A} (fuel : nat) (h : heap) (parent : pyval)
    (body : pyval → outcome (option A)) : outcome (option A) :=
  match fuel with
  | O => OutOfFuel
  | S n =>
      p <- getattr h parent "parent" ;;
      t <- truthy h p ;;
      if t then
        r <- body p ;;
        match r with
        | Some a => Ok (Some a)
        | None => for_ancestors n h p body
        end
      else Ok None
  end.

(** [b.width, b.height] *)
Definition size_of (h : heap) (b : pyval) : outcome (pyval * pyval) :=
  w <- getattr h b "width" ;;
  x <- getattr h b "height" ;;
  Ok (w, x).

Definition Box_containing_block_size (fuel : nat) (h : heap) (self : pyval)
  : outcome (pyval * pyval) :=
  parent <- getattr h self "parent" ;;
  is_page <- isinstance h parent PageBox ;;
  if is_page then size_of h parent
  else
    position <- keyword_of h self "position" ;;
    if bool_decide (position ∈ [Some "relative"; Some "static"]) then
      size_of h parent
    else if bool_decide (position = Some "fixed") then
      r <- for_ancestors fuel h self (fun ancestor =>
             is_page <- isinstance h ancestor PageBox ;;
             if is_page then s <- size_of h ancestor ;; Ok (Some s)
             else Ok None) ;;
      match r with
      | Some s => Ok s
      | None => Raise (AssertionError "Page not found")
      end
    else if bool_decide (position = Some "absolute") then
      r <- for_ancestors fuel h self (fun ancestor =>
             position <- keyword_of h ancestor "position" ;;
             if bool_decide
                  (position ∈ [Some "absolute"; Some "relative"; Some "fixed"])
             then
               display <- keyword_of h ancestor "display" ;;
               if bool_decide (display = Some "inline") then
                 s <- size_of h ancestor ;; Ok (Some s)
               else
                 s <- size_of h ancestor ;; Ok (Some s)
             else
               is_page <- isinstance h ancestor PageBox ;;
               if is_page then s <- size_of h ancestor ;; Ok (Some s)
               else Ok None) ;;
      match r with
      | Some s => Ok s
      | None => Raise (AssertionError "Containing block not found")
      end
    else Raise (AssertionError "Containing block not found").

Definition PageBox_containing_block_size (h : heap) (self : pyval)
  : outcome (pyval * pyval) :=
  w <- getattr h self "outer_width" ;;
  x <- getattr h self "outer_height" ;;
  Ok (w, x).

(** Method dispatch of [box.containing_block_size()]. *)
Definition containing_block_size (fuel : nat) (h : heap) (self : pyval)
  : outcome (pyval * pyval) :=
  k <- lookup_method h self "containing_block_size" ;;
  match k with
  | PageBox => PageBox_containing_block_size h self
  | _ => Box_containing_block_size fuel h self
  end.

(** *** Construction *)

(** [Box._init_style]: the box gets its own copy of the bag the document
    holds for the element. *)
Definition Box_init_style (self : pyval) : M unit :=
  document <~ read (fun h => getattr h self "document") ;;
  element <~ read (fun h => getattr h self "element") ;;
  st <~ alloc (OStyle (style_for document element)) ;;
  setattr self "style" st.

Definition AnonymousBox_init_style (self : pyval) : M unit :=
  document <~ read (fun h => getattr h self "document") ;;
  element <~ read (fun h => getattr h self "element") ;;
  st <~ alloc (OStyle (computed_from_cascaded element ∅
                         (style_for document element))) ;;
  _ <~ setattr self "style" st ;;
  _ <~ setattr self "margin_top" (VNum 0) ;;
  _ <~ setattr self "margin_bottom" (VNum 0) ;;
  _ <~ setattr self "margin_left" (VNum 0) ;;
  _ <~ setattr self "margin_right" (VNum 0) ;;
  _ <~ setattr self "padding_top" (VNum 0) ;;
  _ <~ setattr self "padding_bottom" (VNum 0) ;;
  _ <~ setattr self "padding_left" (VNum 0) ;;
  _ <~ setattr self "padding_right" (VNum 0) ;;
  _ <~ setattr self "border_top_width" (VNum 0) ;;
  _ <~ setattr self "border_bottom_width" (VNum 0) ;;
  _ <~ setattr self "border_left_width" (VNum 0) ;;
  setattr self "border_right_width" (VNum 0).

Definition PageBox_init_style (self : pyval) : M unit :=
  page_number <~ read (fun h => getattr h self "page_number") ;;
  match page_number with
  | VNum n =>
      let is_right := bool_decide (n `mod` 2 = 1) in
      let page_type := if is_right then "right" else "left" in
      let page_type :=
        if bool_decide (n = 1) then "first_" +:+ page_type else page_type in
      document <~ read (fun h => getattr h self "document") ;;
      match computed_styles document page_type with
      | Some style =>
          st <~ alloc (OStyle style) ;;
          setattr self "style" st
      | None => fun h => (Raise KeyError, h)
      end
  | VNone => fun h => (Raise TypeError, h)
  | _ => fun h => (Unmodelled, h)
  end.

(** Method dispatch of [self._init_style()]. *)
Definition init_style (self : pyval) : M unit :=
  k <~ read (fun h => lookup_method h self "_init_style") ;;
  match k with
  | AnonymousBox => AnonymousBox_init_style self
  | PageBox => PageBox_init_style self
  | _ => Box_init_style self
  end.

Definition Box_init (self document element : pyval) : M unit :=
  _ <~ setattr self "document" document ;;
  _ <~ setattr self "element" element ;;
  _ <~ setattr self "parent" VNone ;;
  _ <~ init_style self ;;
  _ <~ setattr self "width" VNone ;;
  _ <~ setattr self "height" VNone ;;
  _ <~ setattr self "position_x" (VNum 0) ;;
  setattr self "position_y" (VNum 0).

(** [super(k, self).__init__(document, element)]: in every order of this
    module the next [__init__] after [k] is that of [Box]. *)
Definition super_init (k : cls) (self document element : pyval) : M unit :=
  c <~ read (fun h => type_of h self) ;;
  match resolve_super c k "__init__" with
  | Some Box => Box_init self document element
  | _ => fun h => (Unmodelled, h)
  end.

(** [ParentBox.empty] *)
Definition empty (self : pyval) : M unit :=
  d <~ alloc (ODeque []) ;;
  setattr self "children" d.

(** [ParentBox.add_child] *)
Definition add_child (self child : pyval) : M unit :=
  _ <~ setattr child "parent" self ;;
  ch <~ read (fun h => getattr h self "children") ;;
  fun h =>
    match ch with
    | VNone => (Raise AttributeError, h)
    | VRef d =>
        match h !! d with
        | Some (ODeque items) => (Ok tt, <[d := ODeque (items ++ [child])]> h)
        | _ => (Unmodelled, h)
        end
    | _ => (Unmodelled, h)
    end.

(** The call [c(args...)]: a new instance, then the [__init__] the class
    resolves to, with the arguments its signature takes. *)
Definition construct (c : cls) (args : list pyval) : M pyval :=
  self <~ alloc (OBox c ∅) ;;
  _ <~ match resolve c "__init__", args with
       | Some PageBox, [document; page_number] =>
           _ <~ setattr self "page_number" page_number ;;
           super_init PageBox self document VNone
       | Some ParentBox, [document; element] =>
           _ <~ super_init ParentBox self document element ;;
           empty self
       | Some TextBox, [document; element; text] =>
           _ <~ super_init TextBox self document element ;;
           setattr self "text" text
       | Some ReplacedBox, [document; element; replacement] =>
           _ <~ super_init ReplacedBox self document element ;;
           setattr self "replacement" replacement
       | Some Box, [document; element] => Box_init self document element
       | _, _ => fun h => (Raise TypeError, h)
       end ;;
  ret self.

End Collaborators.

(** ** Box trees in the store *)

(** The tree of boxes below a box, through the [children] deques. *)
Inductive tree := Node (l : loc) (kids : list tree).

Definition root (t : tree) : loc :=
  match t with Node l _ => l end.

Fixpoint preorder (t : tree) : list loc :=
  match t with
  | Node l kids => l :: concat (map preorder kids)
  end.

Fixpoint depth (t : tree) : nat :=
  match t with
  | Node _ kids => S (foldr (fun k d => Nat.max (depth k) d) O kids)
  end.

(** The store holds the tree [t] at [root t]: a box of a [ParentBox] class
    lists the roots of its subtrees, in order, in the deque its [children]
    slot names; any other box is a leaf. *)
Inductive shape (h : heap) : tree → Prop :=
| shape_leaf l c s :
    h !! l = Some (OBox c s) →
    issubclass c ParentBox = false →
    shape h (Node l [])
| shape_parent l c s d kids :
    h !! l = Some (OBox c s) →
    issubclass c ParentBox = true →
    s !! "children" = Some (VRef d) →
    h !! d = Some (ODeque (map (fun k => VRef (root k)) kids)) →
    Forall (shape h) kids →
    shape h (Node l kids).

(** A box whose position is a pair of integers. *)
Definition placed (h : heap) (l : loc) : Prop :=
  ∃ c s x y, h !! l = Some (OBox c s)
    ∧ s !! "position_x" = Some (VNum x) ∧ s !! "position_y" = Some (VNum y).

(** A placed box moved by [(dx, dy)]; any other object as it is. *)
Definition moved (dx dy : Z) (o : obj) : obj :=
  match o with
  | OBox c s =>
      match s !! "position_x", s !! "position_y" with
      | Some (VNum x), Some (VNum y) =>
          OBox c (<["position_y" := VNum (y + dy)]>
                    (<["position_x" := VNum (x + dx)]> s))
      | _, _ => o
      end
  | _ => o
  end.

Definition move_all (dx dy : Z) (ls : list loc) (h : heap) : heap :=
  foldl (fun h l => alter (moved dx dy) l h) h ls.

(** ** Ancestor chains *)

(** [p] is the box the [parent] slot of box [l] names. *)
Definition parent_of (h : heap) (l p : loc) : Prop :=
  ∃ c s c' s', h !! l = Some (OBox c s) ∧ s !! "parent" = Some (VRef p)
    ∧ h !! p = Some (OBox c' s').

(** [a] is an ancestor of [l], and every ancestor between them is passed
    over ([skip]).  The index counts the parent links followed. *)
Inductive walks_to (h : heap) (skip : loc → Prop) : nat → loc → loc → Prop :=
| walk_here l a :
    parent_of h l a → walks_to h skip 1 l a
| walk_step n l p a :
    parent_of h l p → skip p → walks_to h skip n p a →
    walks_to h skip (S n) l a.

(** The chain of ancestors of [l] ends at a box without parent, every
    ancestor passed over. *)
Inductive walks_off (h : heap) (skip : loc → Prop) : nat → loc → Prop :=
| off_here l c s :
    h !! l = Some (OBox c s) → s !! "parent" = Some VNone →
    walks_off h skip 1 l
| off_step n l p :
    parent_of h l p → skip p → walks_off h skip n p →
    walks_off h skip (S n) l.

Definition is_page (h : heap) (l : loc) : Prop :=
  ∃ c s, h !! l = Some (OBox c s) ∧ issubclass c PageBox = true.

Definition not_page (h : heap) (l : loc) : Prop :=
  ∃ c s, h !! l = Some (OBox c s) ∧ issubclass c PageBox = false.

(** The content size [(w, x)] of box [l]. *)
Definition has_size (h : heap) (l : loc) (w x : pyval) : Prop :=
  ∃ c s, h !! l = Some (OBox c s)
    ∧ s !! "width" = Some w ∧ s !! "height" = Some x.

(** ** Geometry queries and the fields each one reads *)

Inductive query :=
| Qpadding_width | Qpadding_height
| Qborder_width | Qborder_height
| Qmargin_width | Qmargin_height
| Qhorizontal_surroundings | Qvertical_surroundings
| Qcontent_box_x | Qcontent_box_y
| Qpadding_box_x | Qpadding_box_y
| Qborder_box_x | Qborder_box_y.

Definition run_query (q : query) : heap → pyval → outcome pyval :=
  match q with
  | Qpadding_width => padding_width
  | Qpadding_height => padding_height
  | Qborder_width => border_width
  | Qborder_height => border_height
  | Qmargin_width => margin_width
  | Qmargin_height => margin_height
  | Qhorizontal_surroundings => horizontal_surroundings
  | Qvertical_surroundings => vertical_surroundings
  | Qcontent_box_x => content_box_x
  | Qcontent_box_y => content_box_y
  | Qpadding_box_x => padding_box_x
  | Qpadding_box_y => padding_box_y
  | Qborder_box_x => border_box_x
  | Qborder_box_y => border_box_y
  end.

(** The attributes a query reads, in the order it reads them. *)
Definition reads (q : query) : list string :=
  match q with
  | Qpadding_width => ["width"; "padding_left"; "padding_right"]
  | Qpadding_height => ["height"; "padding_top"; "padding_bottom"]
  | Qborder_width =>
      ["width"; "padding_left"; "padding_right";
       "border_left_width"; "border_right_width"]
  | Qborder_height =>
      ["height"; "padding_top"; "padding_bottom";
       "border_top_width"; "border_bottom_width"]
  | Qmargin_width =>
      ["width"; "padding_left"; "padding_right";
       "border_left_width"; "border_right_width";
       "margin_left"; "margin_right"]
  | Qmargin_height =>
      ["height"; "padding_top"; "padding_bottom";
       "border_top_width"; "border_bottom_width";
       "margin_top"; "margin_bottom"]
  | Qhorizontal_surroundings =>
      ["margin_left"; "margin_right"; "padding_left"; "padding_right";
       "border_left_width"; "border_right_width"]
  | Qvertical_surroundings =>
      ["margin_top"; "margin_bottom"; "padding_top"; "padding_bottom";
       "border_top_width"; "border_bottom_width"]
  | Qcontent_box_x =>
      ["position_x"; "margin_left"; "padding_left"; "border_left_width"]
  | Qcontent_box_y =>
      ["position_y"; "margin_top"; "padding_top"; "border_top_width"]
  | Qpadding_box_x => ["position_x"; "margin_left"; "border_left_width"]
  | Qpadding_box_y => ["position_y"; "margin_top"; "border_top_width"]
  | Qborder_box_x => ["position_x"; "margin_left"]
  | Qborder_box_y => ["position_y"; "margin_top"]
  end.

(** A slot that holds an integer. *)
Definition resolved (s : gmap string pyval) (name : string) : Prop :=
  ∃ z, s !! name = Some (VNum z).

(** A slot that was never assigned, or holds [None]. *)
Definition unresolved (s : gmap string pyval) (name : string) : Prop :=
  s !! name = None ∨ s !! name = Some VNone.

(** The integer in a slot (for slots that are resolved). *)
Definition num (s : gmap string pyval) (name : string) : Z :=
  match s !! name with
  | Some (VNum z) => z
  | _ => 0
  end.

(** The twelve edge fields. *)
Definition edge_fields : list string :=
  flat_map (fun template => map (fmt template) sides)
    [margin_; padding_; border__width].

(** [self.a + self.b + ...] over the attributes [names], read in order. *)
Definition sum_fields (h : heap) (self : pyval) (names : list string)
  : outcome pyval :=
  match names with
  | [] => Unmodelled
  | name :: rest => x <- getattr h self name ;; add_attrs h self x rest
  end.

(** The sum of the integers in the slots [names]. *)
Definition total (s : gmap string pyval) (names : list string) : Z :=
  foldl (fun acc n => acc + num s n) 0 names.

(** *** Stops of the ancestor walk *)

Section Stops.

Variable get_single_keyword : pyval → outcome (option string).

Definition positioned_keywords : list (option string) :=
  [Some "absolute"; Some "relative"; Some "fixed"].

(** An ancestor whose position keyword is [absolute], [relative] or
    [fixed]; its display keyword is read, whatever it is. *)
Definition positioned (h : heap) (a : loc) : Prop :=
  ∃ k d, keyword_of get_single_keyword h (VRef a) "position" = Ok k
    ∧ k ∈ positioned_keywords
    ∧ keyword_of get_single_keyword h (VRef a) "display" = Ok d.

(** A page box that is not positioned. *)
Definition page_stop (h : heap) (a : loc) : Prop :=
  is_page h a
  ∧ ∃ k, keyword_of get_single_keyword h (VRef a) "position" = Ok k
         ∧ k ∉ positioned_keywords.

(** An ancestor that is neither positioned nor a page box. *)
Definition passed_over (h : heap) (p : loc) : Prop :=
  not_page h p
  ∧ ∃ k, keyword_of get_single_keyword h (VRef p) "position" = Ok k
         ∧ k ∉ positioned_keywords.

End Stops.

(** Every margin, padding and border-width slot holds zero. *)
Definition zero_edges (s : gmap string pyval) : Prop :=
  Forall (fun n => s !! n = Some (VNum 0)) edge_fields.

(** A constructor call returned a new box of class [c] whose edges are all
    zero. *)
Definition built_with_zero_edges (c : cls) (r : outcome pyval * heap) : Prop :=
  ∃ l s, r.1 = Ok (VRef l) ∧ r.2 !! l = Some (OBox c s) ∧ zero_edges s.

(** The slots of the new box after the copy loop went over [names],
    starting from the slots [t]. *)
Definition copy_slots (s : gmap string pyval) (names : list string)
    (t : gmap string pyval) : gmap string pyval :=
  foldl (fun t n => match s !! n with Some v => <[n := v]> t | None => t end)
    t names.

(** A box that holds no attribute outside the slots of its class. *)
Definition slots_declared (c : cls) (s : gmap string pyval) : Prop :=
  ∀ name, is_Some (s !! name) → name ∈ all_slots c.

(** ** Sample stores *)

(** A stand-in for [get_single_keyword] on stores whose style entries hold
    the keyword itself. *)
Definition sample_keyword (v : pyval) : outcome (option string) :=
  match v with
  | VStr s => Ok (Some s)
  | _ => Ok None
  end.

Definition sample_style (position display : string) : obj :=
  OStyle (list_to_map
    [("position", VStr position); ("display", VStr display);
     ("float", VStr "none")]).

(** The slots [Box.__init__] assigns, then the size and the twelve edges
    (all [edge]) as layout assigns them. *)
Definition sample_slots (parent style width height : pyval) (x y : Z)
    (edge : pyval) (more : list (string * pyval)) : gmap string pyval :=
  list_to_map
    ([("document", VExt 1); ("element", VExt 2); ("parent", parent);
      ("style", style); ("width", width); ("height", height);
      ("position_x", VNum x); ("position_y", VNum y)]
     ++ map (fun name => (name, edge)) edge_fields ++ more).

(** A page holding a block (relative) that holds a block (static) with two
    children: an inline box (fixed) holding a text box, and a text box
    (absolute).  The page's content box is 500 by 700 inside an outer size
    of 595 by 842. *)
Definition page_store : heap :=
  list_to_map
    [(1%positive,
      OBox PageBox
        (sample_slots VNone (VRef 21) (VNum 500) (VNum 700) 0 0 (VNum 0)
           [("page_number", VNum 1); ("root_box", VRef 2);
            ("outer_width", VNum 595); ("outer_height", VNum 842)]));
     (2%positive,
      OBox BlockBox
        (sample_slots (VRef 1) (VRef 22) (VNum 400) (VNum 600) 50 70 (VNum 5)
           [("children", VRef 12)]));
     (3%positive,
      OBox BlockBox
        (sample_slots (VRef 2) (VRef 23) (VNum 300) (VNum 900) 60 80 (VNum 5)
           [("children", VRef 13)]));
     (4%positive,
      OBox InlineBox
        (sample_slots (VRef 3) (VRef 24) (VNum 200) (VNum 20) 65 85 (VNum 0)
           [("children", VRef 14)]));
     (5%positive,
      OBox TextBox
        (sample_slots (VRef 3) (VRef 25) (VNum 100) (VNum 20) 65 105 (VNum 0)
           [("text", VStr "b")]));
     (6%positive,
      OBox TextBox
        (sample_slots (VRef 4) (VRef 26) (VNum 90) (VNum 20) 65 85 (VNum 0)
           [("text", VStr "a")]));
     (12%positive, ODeque [VRef 3]);
     (13%positive, ODeque [VRef 4; VRef 5]);
     (14%positive, ODeque [VRef 6]);
     (21%positive, sample_style "static" "block");
     (22%positive, sample_style "relative" "block");
     (23%positive, sample_style "static" "block");
     (24%positive, sample_style "fixed" "inline");
     (25%positive, sample_style "absolute" "inline");
     (26%positive, sample_style "static" "inline")].

(** The tree below the root block of [page_store]. *)
Definition page_tree : tree :=
  Node 2 [Node 3 [Node 4 [Node 6 []]; Node 5 []]].

(** A block box with every measurement resolved, each edge its own value,
    and its style bag. *)
Definition resolved_slots : gmap string pyval :=
  list_to_map
    [("document", VExt 1); ("element", VExt 2); ("parent", VNone);
     ("style", VRef 2); ("width", VNum 100); ("height", VNum 50);
     ("position_x", VNum 10); ("position_y", VNum 20);
     ("margin_top", VNum 1); ("margin_right", VNum 2);
     ("margin_bottom", VNum 3); ("margin_left", VNum 4);
     ("padding_top", VNum 5); ("padding_right", VNum 6);
     ("padding_bottom", VNum 7); ("padding_left", VNum 8);
     ("border_top_width", VNum 9); ("border_right_width", VNum 10);
     ("border_bottom_width", VNum 11); ("border_left_width", VNum 12);
     ("children", VRef 3)].

Definition resolved_style : gmap string pyval :=
  list_to_map
    [("position", VStr "absolute"); ("display", VStr "block");
     ("float", VStr "left"); ("margin-left", VExt 7);
     ("padding-left", VExt 8); ("border-left-width", VExt 9)].

Definition resolved_store : heap :=
  list_to_map
    [(1%positive, OBox BlockBox resolved_slots);
     (2%positive, OStyle resolved_style);
     (3%positive, ODeque [])].

(** An anonymous block box as its constructor leaves it, in an empty store
    and with collaborators that hand out empty style bags. *)
Definition fresh_anonymous : outcome pyval * heap :=
  construct (fun _ _ => ∅) (fun _ _ parent_style => parent_style)
    (fun _ _ => None) AnonymousBlockBox [VExt 1; VExt 2] ∅.

(** ** Checking the predicates on a concrete store *)

Definition class_at (h : heap) (l : loc) : option cls :=
  match h !! l with
  | Some (OBox c _) => Some c
  | _ => None
  end.

Definition slots_at (h : heap) (l : loc) : gmap string pyval :=
  match h !! l with
  | Some (OBox _ s) => s
  | _ => ∅
  end.

Definition is_box (h : heap) (l : loc) : bool :=
  bool_decide (is_Some (class_at h l)).

Definition parent_of_ok (h : heap) (l p : loc) : bool :=
  is_box h l && is_box h p
  && bool_decide (slots_at h l !! "parent" = Some (VRef p)).

Definition is_page_ok (h : heap) (l : loc) : bool :=
  match class_at h l with
  | Some c => issubclass c PageBox
  | None => false
  end.

Definition not_page_ok (h : heap) (l : loc) : bool :=
  match class_at h l with
  | Some c => negb (issubclass c PageBox)
  | None => false
  end.

Definition has_size_ok (h : heap) (l : loc) (w x : pyval) : bool :=
  is_box h l
  && bool_decide (slots_at h l !! "width" = Some w)
  && bool_decide (slots_at h l !! "height" = Some x).

Definition placed_ok (h : heap) (l : loc) : bool :=
  is_box h l
  && match slots_at h l !! "position_x", slots_at h l !! "position_y" with
     | Some (VNum _), Some (VNum _) => true
     | _, _ => false
     end.

Fixpoint shape_ok (h : heap) (t : tree) : bool :=
  match t with
  | Node l kids =>
      match h !! l with
      | Some (OBox c s) =>
          if issubclass c ParentBox then
            match s !! "children" with
            | Some (VRef d) =>
                bool_decide
                  (h !! d = Some (ODeque (map (fun k => VRef (root k)) kids)))
                && forallb (shape_ok h) kids
            | _ => false
            end
          else negb (nonempty kids)
      | _ => false
      end
  end.

(** ** Sums and translations in Python's arithmetic *)

(** [acc + v1 + v2 + ...], added left to right as Python evaluates it. *)
Fixpoint sum_values (acc : pyval) (vs : list pyval) : outcome pyval :=
  match vs with
  | [] => Ok acc
  | v :: rest => acc' <- py_add acc v ;; sum_values acc' rest
  end.

(** The same sum on floats: one rounded addition after the other. *)
Definition float_sum (acc : spec_float) (fs : list spec_float) : spec_float :=
  foldl float_add acc fs.

(** The size and the twelve edges a box holds, each the image of a value
    under [inj]: integers under [VNum], floats under [VFloat], any values
    under the identity. *)
Definition fields {A} (inj : A → pyval) (s : gmap string pyval)
    (w x pt pr pb pl bt br bb bl mt mr mb ml : A) : Prop :=
  s !! "width" = Some (inj w) ∧ s !! "height" = Some (inj x)
  ∧ s !! "padding_top" = Some (inj pt) ∧ s !! "padding_right" = Some (inj pr)
  ∧ s !! "padding_bottom" = Some (inj pb) ∧ s !! "padding_left" = Some (inj pl)
  ∧ s !! "border_top_width" = Some (inj bt)
  ∧ s !! "border_right_width" = Some (inj br)
  ∧ s !! "border_bottom_width" = Some (inj bb)
  ∧ s !! "border_left_width" = Some (inj bl)
  ∧ s !! "margin_top" = Some (inj mt) ∧ s !! "margin_right" = Some (inj mr)
  ∧ s !! "margin_bottom" = Some (inj mb) ∧ s !! "margin_left" = Some (inj ml).

(** A box whose position can take the offset [(dx, dy)]: both additions
    succeed. *)
Definition addable (dx dy : pyval) (h : heap) (l : loc) : Prop :=
  ∃ c s px py px' py',
    h !! l = Some (OBox c s)
    ∧ s !! "position_x" = Some px ∧ s !! "position_y" = Some py
    ∧ py_add px dx = Ok px' ∧ py_add py dy = Ok py'.

(** Such a box after [position_x += dx; position_y += dy], whatever numbers
    these are; any other object as it is. *)
Definition shifted (dx dy : pyval) (o : obj) : obj :=
  match o with
  | OBox c s =>
      match s !! "position_x", s !! "position_y" with
      | Some px, Some py =>
          match py_add px dx, py_add py dy with
          | Ok px', Ok py' =>
              OBox c (<["position_y" := py']> (<["position_x" := px']> s))
          | _, _ => o
          end
      | _, _ => o
      end
  | _ => o
  end.

Definition shift_all (dx dy : pyval) (ls : list loc) (h : heap) : heap :=
  foldl (fun h l => alter (shifted dx dy) l h) h ls.

(** How many times a box is listed. *)
Definition occurrences (l : loc) (ls : list loc) : nat :=
  length (filter (fun x => x = l) ls).

(** ** Sample stores with floats *)

(** The float nearest to the fraction [n / d] of two small integers, which
    is the float its decimal literal denotes: [float_ratio 1 10] is
    [0.1]. *)
Definition float_ratio (n d : Z) : spec_float :=
  float_div (nearest_float n) (nearest_float d).

(** A block box 0.1 by 0.1 at (50.0, 50.0) whose left and top paddings are
    0.2, whose right and bottom paddings are 0.3 and whose other edges are
    0.0, holding one text box at the same position. *)
Definition float_slots : gmap string pyval :=
  list_to_map
    ([("document", VExt 1); ("element", VExt 2); ("parent", VNone);
      ("style", VRef 2); ("children", VRef 3);
      ("width", VFloat (float_ratio 1 10));
      ("height", VFloat (float_ratio 1 10));
      ("position_x", VFloat (float_ratio 50 1));
      ("position_y", VFloat (float_ratio 50 1));
      ("padding_left", VFloat (float_ratio 2 10));
      ("padding_top", VFloat (float_ratio 2 10));
      ("padding_right", VFloat (float_ratio 3 10));
      ("padding_bottom", VFloat (float_ratio 3 10))]
     ++ map (fun name => (name, VFloat (float_ratio 0 1)))
          ["margin_top"; "margin_right"; "margin_bottom"; "margin_left";
           "border_top_width"; "border_right_width"; "border_bottom_width";
           "border_left_width"]).

Definition float_store : heap :=
  list_to_map
    [(1%positive, OBox BlockBox float_slots);
     (2%positive, sample_style "static" "block");
     (3%positive, ODeque [VRef 4]);
     (4%positive,
      OBox TextBox
        (list_to_map
           [("document", VExt 1); ("element", VExt 2); ("parent", VRef 1);
            ("style", VRef 2); ("text", VStr "a");
            ("position_x", VFloat (float_ratio 50 1));
            ("position_y", VFloat (float_ratio 50 1))]))].

Definition float_tree : tree := Node 1 [Node 4 []].

(** [page_store] with the second text box listed twice among the children
    of the static block, and the tree those children make. *)
Definition twice_store : heap :=
  <[13%positive := ODeque [VRef 5; VRef 5]]> page_store.

Definition twice_tree : tree := Node 3 [Node 5 []; Node 5 []].

(** ** Further notions used by the properties *)

(** What a translation by [(dx, dy)] adds to the result of a query: the
    corner positions move, the sizes do not. *)
Definition offset (q : query) (dx dy : Z) : Z :=
  match q with
  | Qcontent_box_x | Qpadding_box_x | Qborder_box_x => dx
  | Qcontent_box_y | Qpadding_box_y | Qborder_box_y => dy
  | _ => 0
  end.

(** The margin, padding and border width of one side, added up. *)
Definition side_total (s : gmap string pyval) (side : string) : Z :=
  num s (fmt margin_ side) + num s (fmt padding_ side)
  + num s (fmt border__width side).

(** The slots of a box after [reset_spacing(side)]. *)
Definition spacing_reset (s : gmap string pyval) (side : string)
  : gmap string pyval :=
  <[fmt border__width side := VNum 0]>
    (<[fmt padding_ side := VNum 0]> (<[fmt margin_ side := VNum 0]> s)).

(** The entries of its style bag after [reset_spacing(side)]. *)
Definition style_reset (e : gmap string pyval) (side : string)
  : gmap string pyval :=
  <[fmt border_dash_width side := VNone]>
    (<[fmt padding_dash side := VNone]> (<[fmt margin_dash side := VNone]> e)).

(** The key of the page style a page number selects: the first page is a
    right page, then odd pages are right pages and even pages left
    pages. *)
Definition page_type_of (n : Z) : string :=
  if bool_decide (n = 1) then "first_right"
  else if bool_decide (n `mod` 2 = 1) then "right"
  else "left".

(** A constructor call returned a new box of class [c] as [Box.__init__]
    leaves a box generated by an element: its own bag with the entries
    [style], no parent, no size, placed at the origin, and no edge
    assigned. *)
Definition built_unresolved (style : gmap string pyval) (c : cls)
    (before : heap) (r : outcome pyval * heap) : Prop :=
  ∃ (l ls : loc) s,
    r.1 = Ok (VRef l) ∧ before !! l = None ∧ before !! ls = None
    ∧ r.2 !! l = Some (OBox c s)
    ∧ s !! "style" = Some (VRef ls) ∧ r.2 !! ls = Some (OStyle style)
    ∧ s !! "parent" = Some VNone
    ∧ s !! "width" = Some VNone ∧ s !! "height" = Some VNone
    ∧ s !! "position_x" = Some (VNum 0) ∧ s !! "position_y" = Some (VNum 0)
    ∧ Forall (fun name => s !! name = None) edge_fields
    ∧ ∀ q, run_query q r.2 (VRef l) = Raise AttributeError.

(** The slots [Box.__init__] leaves when [_init_style] is that of [Box]. *)
Definition plain_slots (document element style : pyval) : gmap string pyval :=
  <["position_y" := VNum 0]> (<["position_x" := VNum 0]>
    (<["height" := VNone]> (<["width" := VNone]>
      (<["style" := style]> (<["parent" := VNone]>
        (<["element" := element]> (<["document" := document]> ∅))))))).




(** A constructor call returned a new container of class [c] with an empty
    deque of children that no object of the store before had. *)
Definition built_container (c : cls) (before : heap)
    (r : outcome pyval * heap) : Prop :=
  ∃ (l d : loc) s,
    r.1 = Ok (VRef l) ∧ before !! l = None ∧ before !! d = None ∧ l ≠ d
    ∧ r.2 !! l = Some (OBox c s)
    ∧ s !! "children" = Some (VRef d)
    ∧ r.2 !! d = Some (ODeque [])
    ∧ (∀ k o, before !! k = Some o → r.2 !! k = Some o)
    ∧ ∀ fuel, descendants (S fuel) r.2 (VRef l) = Ok [VRef l].

(** * Image loading ([weasy/images.py]) *)

Module Images.

(** The exceptions [get_image_from_uri] tells apart: the two it catches
    around the handler, the [KeyError] of a unit that is not in the table,
    the [ZeroDivisionError] of a factor that is zero, and any other. *)
Inductive error :=
| IOError
| MemoryError
| KeyError
| ZeroDivisionError
| OtherError (name : string).

#[global] Instance error_eq_dec : EqDecision error.
Proof. solve_decision. Defined.

(** What a call returns: a value, or an exception that propagates. *)
Inductive result (A : Type) :=
| Return (a : A)
| Propagate (e : error).
Arguments Return {A} a.
Arguments Propagate {A} e.

Section GetImage.

(** Numbers (sizes and factors) with the product and the quotient [1 / x]
    the function uses on them (true division, which has no result on zero),
    file objects and cairo patterns, all owned by collaborators. *)
Variable num : Type.
Variable mul : num → num → num.
Variable reciprocal : num → option num.

Abbreviation file := positive.
Abbreviation pattern := positive.

(** What [urlopen(uri)] does: it returns a file object and a MIME type, or
    raises. *)
Inductive opened :=
| Opens (file_like : file) (mime_type : string)
| Open_raises (e : error).

(** What a format handler does: it returns [(pattern, width, height,
    unit)], returns an exception object, or raises. *)
Inductive handled :=
| Returns_image (p : pattern) (width height : num) (unit : string)
| Returns_error (e : error)
| Raises (e : error).

Definition handler : Type := file → string → handled.

(** What the function does to the outside: warnings logged, files closed,
    matrices set on patterns. *)
Inductive event :=
| Warn_fetch (uri : string) (e : error)
| Warn_parse (uri : string) (e : error)
| Close (file_like : file)
| Set_matrix (p : pattern) (sx sy : num).

(** [register_format(mime_type)(function)]: the decorator stores the
    function in the table and returns it. *)
Definition register_format (mime_type : string) (function : handler)
    (FORMAT_HANDLERS : gmap string handler) : handler * gmap string handler :=
  (function, <[mime_type := function]> FORMAT_HANDLERS).

(** The table once the module is loaded: the two decorated handlers, in the
    order of their definitions. *)
Definition module_handlers (png_handler cairosvg_handler : handler)
  : gmap string handler :=
  (register_format "image/svg+xml" cairosvg_handler
     (register_format "image/png" png_handler ∅).2).2.

Variable urlopen : string → opened.
Variable FORMAT_HANDLERS : gmap string handler.
Variable fallback_handler : handler.
Variable INTERNAL_UNITS_PER : gmap string num.

(** [except (IOError, MemoryError)] *)
Definition caught (e : error) : bool :=
  bool_decide (e = IOError) || bool_decide (e = MemoryError).

(** [get_image_from_uri]: the events in the order they happen, and what
    the call gives.  The module is Python 2 code: the name bound by
    [except ... as exception] is still bound after the [try] statement. *)
Definition get_image_from_uri (uri : string)
  : list event * result (option (pattern * num * num)) :=
  match urlopen uri with
  | Open_raises e =>
      if bool_decide (e = IOError) then ([Warn_fetch uri e], Return None)
      else ([], Propagate e)
  | Opens file_like mime_type =>
      let handler := default fallback_handler (FORMAT_HANDLERS !! mime_type) in
      match handler file_like uri with
      | Raises e =>
          if caught e then ([Close file_like; Warn_parse uri e], Return None)
          else ([Close file_like], Propagate e)
      | Returns_error e => ([Close file_like; Warn_parse uri e], Return None)
      | Returns_image p width height unit =>
          match INTERNAL_UNITS_PER !! unit with
          | None => ([Close file_like], Propagate KeyError)
          | Some factor =>
              match reciprocal factor with
              | None => ([Close file_like], Propagate ZeroDivisionError)
              | Some scale =>
                  ([Close file_like; Set_matrix p scale scale],
                   Return (Some (p, mul width factor, mul height factor)))
              end
          end
      end
  end.

(** The files a run closed, and the warnings it logged. *)
Definition closed (trace : list event) : list file :=
  omap (fun ev => match ev with Close f => Some f | _ => None end) trace.

Definition warnings (trace : list event) : list (string * error) :=
  omap (fun ev => match ev with
                  | Warn_fetch uri e | Warn_parse uri e => Some (uri, e)
                  | _ => None
                  end) trace.

End GetImage.

End Images.

(** ** Further sample stores *)

(** [page_store] with a static root block: no box below the page is
    positioned but the fixed and the absolute one. *)
Definition static_page_store : heap :=
  <[22%positive := sample_style "static" "block"]> page_store.

(** The same tree detached from its page: the root block has no parent. *)
Definition orphan_store : heap :=
  <[2%positive :=
      OBox BlockBox
        (sample_slots VNone (VRef 22) (VNum 400) (VNum 600) 50 70 (VNum 5)
           [("children", VRef 12)])]> static_page_store.

(** The box of [resolved_store] with [None] for children. *)
Definition childless_store : heap :=
  <[1%positive := OBox BlockBox (<["children" := VNone]> resolved_slots)]>
    resolved_store.

(** The box of [resolved_store] with a style that has a float entry and no
    position entry. *)
Definition floated_store : heap :=
  <[2%positive := OStyle (list_to_map [("float", VStr "left")])]>
    resolved_store.

(** A document that has a page style for first right pages only. *)
Definition sample_page_styles (document : pyval) (page_type : string)
  : option (gmap string pyval) :=
  if bool_decide (page_type = "first_right")
  then Some (list_to_map [("size", VExt 3)])
  else None.

(** Collaborators of [get_image_from_uri] over integers: every URI opens as
    file 1 of type PNG, the PNG handler returns pattern 7 of 10 by 20
    pixels, the other handlers fail, and a pixel is one internal unit. *)
Definition sample_urlopen (uri : string) : Images.opened :=
  Images.Opens 1 "image/png".

Definition sample_png_handler (file_like : positive) (uri : string)
  : Images.handled Z :=
  Images.Returns_image Z 7 10 20 "px".

Definition sample_failing_handler (file_like : positive) (uri : string)
  : Images.handled Z :=
  Images.Raises Z Images.IOError.

Definition sample_units : gmap string Z := list_to_map [("px", 1)].

Definition sample_reciprocal (factor : Z) : option Z :=
  if bool_decide (factor = 0) then None else Some (1 `div` factor).

Definition sample_get_image : string
    → list (Images.event Z) * Images.result (option (positive * Z * Z)) :=
  Images.get_image_from_uri Z Z.mul sample_reciprocal sample_urlopen
    (Images.module_handlers Z sample_png_handler sample_failing_handler)
    sample_failing_handler sample_units.

(** The entries of the style bag at [l]. *)
Definition entries_at (h : heap) (l : loc) : gmap string pyval :=
  match h !! l with
  | Some (OStyle e) => e
  | _ => ∅
  end.

(** The new anonymous box of [fresh_anonymous] once layout has given it a
    width of 0.1 and a height of 0.2. *)
Definition sized_anonymous : heap :=
  <[1%positive :=
      OBox AnonymousBlockBox
        (<["height" := VFloat (float_ratio 2 10)]>
           (<["width" := VFloat (float_ratio 1 10)]>
              (slots_at fresh_anonymous.2 1)))]> fresh_anonymous.2.

(** * Properties *)

(** ** The class table *)

Lemma all_slots_unfold c :
  all_slots c = concat (map all_slots (bases c)) ++ own_slots c.
Proof. destruct c; reflexivity. Qed.

(** The linearisation succeeds for every class: the hierarchy is
    consistent. *)
Lemma mro_defined c : mro_upto 6 c = Some (mro c).
Proof. destruct c; vm_compute; reflexivity. Qed.

Example mro_AnonymousBlockBox :
  mro AnonymousBlockBox
  = [AnonymousBlockBox; AnonymousBox; BlockBox; BlockContainerBox; ParentBox;
     BlockLevelBox; Box].
Proof. vm_compute; reflexivity. Qed.

Example mro_ImageMarkerBox :
  mro ImageMarkerBox
  = [ImageMarkerBox; InlineLevelReplacedBox; ReplacedBox;
     AtomicInlineLevelBox; InlineLevelBox; AnonymousBox; Box].
Proof. vm_compute; reflexivity. Qed.

(** The container classes are the subclasses of [ParentBox]; a page box is
    not one of them. *)
Example container_classes :
  filter (fun c => issubclass c ParentBox = true)
    [PageBox; BlockBox; AnonymousBlockBox; LineBox; InlineBox; TextBox;
     InlineBlockBox; BlockLevelReplacedBox; InlineLevelReplacedBox;
     ImageMarkerBox]
  = [BlockBox; AnonymousBlockBox; LineBox; InlineBox; InlineBlockBox].
Proof. vm_compute; reflexivity. Qed.

Lemma Box_slots_all c name : name ∈ Box_slots → name ∈ all_slots c.
Proof.
  intros Hin.
  assert (Hsub : forallb (fun n => bool_decide (n ∈ all_slots c)) Box_slots = true)
    by (destruct c; vm_compute; reflexivity).
  rewrite forallb_forall in Hsub.
  apply list_elem_of_In in Hin. apply Hsub in Hin.
  by apply bool_decide_eq_true_1 in Hin.
Qed.

Lemma resolve_translate c :
  resolve c "translate" = Some (if issubclass c ParentBox then ParentBox else Box).
Proof. destruct c; vm_compute; reflexivity. Qed.

Lemma resolve_descendants c :
  resolve c "descendants" = if issubclass c ParentBox then Some ParentBox else None.
Proof. destruct c; vm_compute; reflexivity. Qed.

Lemma resolve_containing_block_size c :
  resolve c "containing_block_size"
  = Some (if issubclass c PageBox then PageBox else Box).
Proof. destruct c; vm_compute; reflexivity. Qed.

Lemma descendants_not_slot c : bool_decide ("descendants" ∈ all_slots c) = false.
Proof. destruct c; vm_compute; reflexivity. Qed.

(** ** Reading and writing the store *)

Lemma getattr_box h l c s name :
  h !! l = Some (OBox c s) →
  getattr h (VRef l) name
  = match s !! name with Some x => Ok x | None => Raise AttributeError end.
Proof. intros H. unfold getattr. by rewrite H. Qed.

Lemma getattr_set h l c s name x :
  h !! l = Some (OBox c s) → s !! name = Some x →
  getattr h (VRef l) name = Ok x.
Proof. intros H Hs. rewrite (getattr_box _ _ _ _ _ H). by rewrite Hs. Qed.

Lemma setattr_box h l c s name x :
  h !! l = Some (OBox c s) → name ∈ all_slots c →
  setattr (VRef l) name x h = (Ok tt, <[l := OBox c (<[name := x]> s)]> h).
Proof.
  intros H Hin. unfold setattr. rewrite H.
  by rewrite (bool_decide_eq_true_2 _ Hin).
Qed.

Lemma add_attrs_nums h l c s (names : list string) (a : Z) :
  h !! l = Some (OBox c s) →
  Forall (resolved s) names →
  add_attrs h (VRef l) (VNum a) names
  = Ok (VNum (foldl (fun acc n => acc + num s n) a names)).
Proof.
  intros H Hall. revert a. induction Hall as [|n ns [z Hz] _ IH]; intros a.
  - reflexivity.
  - cbn [add_attrs]. rewrite (getattr_set _ _ _ _ _ _ H Hz).
    cbn [obind py_add foldl]. rewrite IH.
    replace (num s n) with z by (unfold num; by rewrite Hz). reflexivity.
Qed.

Lemma add_attrs_values h l c s (names : list string) (vs : list pyval) acc :
  h !! l = Some (OBox c s) →
  Forall2 (fun n v => s !! n = Some v) names vs →
  add_attrs h (VRef l) acc names = sum_values acc vs.
Proof.
  intros H Hall. revert acc.
  induction Hall as [|n v ns vs Hn _ IH]; intros acc; [reflexivity|].
  cbn [add_attrs sum_values]. rewrite (getattr_set _ _ _ _ _ _ H Hn).
  cbn [obind]. destruct (py_add acc v); try reflexivity. cbn [obind]. apply IH.
Qed.

Lemma sum_values_floats (acc : spec_float) (fs : list spec_float) :
  sum_values (VFloat acc) (map VFloat fs) = Ok (VFloat (float_sum acc fs)).
Proof.
  revert acc. induction fs as [|f fs IH]; intros acc; [reflexivity|].
  cbn [map sum_values py_add obind]. rewrite IH. reflexivity.
Qed.

Ltac slot_values :=
  repeat (apply Forall2_cons; split; [eassumption|]); apply Forall2_nil_2.

(** C1 (amended): on a box whose width, height and twelve edge fields are
    assigned, each size query is the sum the code writes, taken left to
    right in Python's arithmetic:
    [padding_width() == width + padding_left + padding_right],
    [border_width() == padding_width() + border_left_width
                       + border_right_width],
    [margin_width() == border_width() + margin_left + margin_right], and
    [horizontal_surroundings()] is the sum of the six horizontal edges; the
    same for the heights.  When the fields are integers the sums are exact,
    so the whole chain down to [width + (the six horizontal edges)] and
    [horizontal_surroundings = margin_width - width] hold.  When they are
    floats the queries return the float sums, each addition rounded, and
    those last two equalities need not hold. *)
Theorem geometry_identities h l c s :
  h !! l = Some (OBox c s) →
  (∀ w x pt pr pb pl bt br bb bl mt mr mb ml : pyval,
     fields id s w x pt pr pb pl bt br bb bl mt mr mb ml →
     (padding_width h (VRef l) = sum_values w [pl; pr]
      ∧ border_width h (VRef l)
        = (pw <- padding_width h (VRef l) ;; sum_values pw [bl; br])
      ∧ margin_width h (VRef l)
        = (bw <- border_width h (VRef l) ;; sum_values bw [ml; mr])
      ∧ horizontal_surroundings h (VRef l)
        = sum_values ml [mr; pl; pr; bl; br])
     ∧ (padding_height h (VRef l) = sum_values x [pt; pb]
        ∧ border_height h (VRef l)
          = (ph <- padding_height h (VRef l) ;; sum_values ph [bt; bb])
        ∧ margin_height h (VRef l)
          = (bh <- border_height h (VRef l) ;; sum_values bh [mt; mb])
        ∧ vertical_surroundings h (VRef l)
          = sum_values mt [mb; pt; pb; bt; bb]))
  ∧ (∀ w x pt pr pb pl bt br bb bl mt mr mb ml : Z,
       fields VNum s w x pt pr pb pl bt br bb bl mt mr mb ml →
       ∃ pw bw mw hs ph bh mh vs,
         (padding_width h (VRef l) = Ok (VNum pw)
          ∧ border_width h (VRef l) = Ok (VNum bw)
          ∧ margin_width h (VRef l) = Ok (VNum mw)
          ∧ horizontal_surroundings h (VRef l) = Ok (VNum hs)
          ∧ mw = bw + ml + mr
          ∧ bw + ml + mr = pw + bl + br + ml + mr
          ∧ pw + bl + br + ml + mr = w + (pl + pr + bl + br + ml + mr)
          ∧ hs = mw - w)
         ∧ (padding_height h (VRef l) = Ok (VNum ph)
            ∧ border_height h (VRef l) = Ok (VNum bh)
            ∧ margin_height h (VRef l) = Ok (VNum mh)
            ∧ vertical_surroundings h (VRef l) = Ok (VNum vs)
            ∧ mh = bh + mt + mb
            ∧ bh + mt + mb = ph + bt + bb + mt + mb
            ∧ ph + bt + bb + mt + mb = x + (pt + pb + bt + bb + mt + mb)
            ∧ vs = mh - x))
  ∧ (∀ w x pt pr pb pl bt br bb bl mt mr mb ml : spec_float,
       fields VFloat s w x pt pr pb pl bt br bb bl mt mr mb ml →
       (padding_width h (VRef l) = Ok (VFloat (float_sum w [pl; pr]))
        ∧ border_width h (VRef l)
          = Ok (VFloat (float_sum (float_sum w [pl; pr]) [bl; br]))
        ∧ margin_width h (VRef l)
          = Ok (VFloat (float_sum (float_sum (float_sum w [pl; pr]) [bl; br])
                          [ml; mr]))
        ∧ horizontal_surroundings h (VRef l)
          = Ok (VFloat (float_sum ml [mr; pl; pr; bl; br])))
       ∧ (padding_height h (VRef l) = Ok (VFloat (float_sum x [pt; pb]))
          ∧ border_height h (VRef l)
            = Ok (VFloat (float_sum (float_sum x [pt; pb]) [bt; bb]))
          ∧ margin_height h (VRef l)
            = Ok (VFloat (float_sum (float_sum (float_sum x [pt; pb]) [bt; bb])
                            [mt; mb]))
          ∧ vertical_surroundings h (VRef l)
            = Ok (VFloat (float_sum mt [mb; pt; pb; bt; bb])))).
Proof.
  intros H. split; [|split].
  - intros w x pt pr pb pl bt br bb bl mt mr mb ml
      (Hw & Hx & Hpt & Hpr & Hpb & Hpl & Hbt & Hbr & Hbb & Hbl & Hmt & Hmr
       & Hmb & Hml).
    unfold id in *.
    split; (split; [|split; [|split]]).
    all: unfold margin_width, margin_height, border_width, border_height.
    all: try (destruct (padding_width h (VRef l)); [|reflexivity..]).
    all: try (destruct (padding_height h (VRef l)); [|reflexivity..]).
    all: cbn [obind].
    all: try (destruct (add_attrs h (VRef l) _ ["border_left_width"; _]);
              [|reflexivity..]).
    all: try (destruct (add_attrs h (VRef l) _ ["border_top_width"; _]);
              [|reflexivity..]).
    all: cbn [obind].
    all: unfold padding_width, padding_height, horizontal_surroundings,
           vertical_surroundings.
    all: rewrite ?(getattr_set _ _ _ _ _ _ H Hw),
           ?(getattr_set _ _ _ _ _ _ H Hx), ?(getattr_set _ _ _ _ _ _ H Hml),
           ?(getattr_set _ _ _ _ _ _ H Hmt).
    all: cbn [obind].
    all: apply (add_attrs_values h l c s); [exact H|slot_values].
  - intros w x pt pr pb pl bt br bb bl mt mr mb ml
      (Hw & Hx & Hpt & Hpr & Hpb & Hpl & Hbt & Hbr & Hbb & Hbl & Hmt & Hmr
       & Hmb & Hml).
    unfold margin_width, margin_height, border_width, border_height,
      padding_width, padding_height, horizontal_surroundings,
      vertical_surroundings, add_attrs.
    rewrite !(getattr_box _ _ _ _ _ H).
    rewrite Hw, Hx, Hpt, Hpr, Hpb, Hpl, Hbt, Hbr, Hbb, Hbl, Hmt, Hmr, Hmb, Hml.
    simpl.
    do 8 eexists. repeat split; try reflexivity; lia.
  - intros w x pt pr pb pl bt br bb bl mt mr mb ml
      (Hw & Hx & Hpt & Hpr & Hpb & Hpl & Hbt & Hbr & Hbb & Hbl & Hmt & Hmr
       & Hmb & Hml).
    unfold margin_width, margin_height, border_width, border_height,
      padding_width, padding_height, horizontal_surroundings,
      vertical_surroundings, add_attrs.
    rewrite !(getattr_box _ _ _ _ _ H).
    rewrite Hw, Hx, Hpt, Hpr, Hpb, Hpl, Hbt, Hbr, Hbb, Hbl, Hmt, Hmr, Hmb, Hml.
    cbn [obind py_add float_sum foldl]. repeat split.
Qed.
Lemma bind_ok {A B} (m : M A) (k : A → M B) h a h' :
  m h = (Ok a, h') → bind m k h = k a h'.
Proof. intros H. unfold bind. by rewrite H. Qed.

Lemma setitem_style h l e key x :
  h !! l = Some (OStyle e) →
  setitem (VRef l) key x h = (Ok tt, <[l := OStyle (<[key := x]> e)]> h).
Proof. intros H. unfold setitem. by rewrite H. Qed.

Lemma clear_style_ok h l c s ls e key :
  h !! l = Some (OBox c s) → s !! "style" = Some (VRef ls) →
  h !! ls = Some (OStyle e) →
  clear_style (VRef l) key h
  = (Ok tt, <[ls := OStyle (<[key := VNone]> e)]> h).
Proof.
  intros H Hs Hls. unfold clear_style, bind, read.
  rewrite (getattr_set _ _ _ _ _ _ H Hs). by apply setitem_style.
Qed.

Lemma side_slots side :
  side ∈ sides →
  fmt margin_ side ∈ Box_slots ∧ fmt padding_ side ∈ Box_slots
  ∧ fmt border__width side ∈ Box_slots
  ∧ fmt margin_ side ≠ "style" ∧ fmt padding_ side ≠ "style"
  ∧ fmt border__width side ≠ "style".
Proof.
  unfold sides. rewrite !elem_of_cons, elem_of_nil.
  intros [->|[->|[->|[->|[]]]]]; vm_compute; repeat split; try discriminate;
    repeat constructor.
Qed.

(** C9: for a side among top, right, bottom and left, [reset_spacing] sets
    the margin, padding and border-width slots of that side to zero and the
    three matching style entries to [None], and changes no other slot, no
    other style entry and no other object of the store. *)
Theorem reset_spacing_frame h l c s ls e side :
  h !! l = Some (OBox c s) →
  s !! "style" = Some (VRef ls) →
  h !! ls = Some (OStyle e) →
  side ∈ sides →
  let s' := <[fmt border__width side := VNum 0]>
              (<[fmt padding_ side := VNum 0]>
                 (<[fmt margin_ side := VNum 0]> s)) in
  let e' := <[fmt border_dash_width side := VNone]>
              (<[fmt padding_dash side := VNone]>
                 (<[fmt margin_dash side := VNone]> e)) in
  ∃ h', reset_spacing (VRef l) side h = (Ok tt, h')
    ∧ h' !! l = Some (OBox c s')
    ∧ h' !! ls = Some (OStyle e')
    ∧ (∀ l', l' ≠ l → l' ≠ ls → h' !! l' = h !! l')
    ∧ s' !! fmt margin_ side = Some (VNum 0)
    ∧ s' !! fmt padding_ side = Some (VNum 0)
    ∧ s' !! fmt border__width side = Some (VNum 0)
    ∧ (∀ name, name ∉ [fmt margin_ side; fmt padding_ side;
                        fmt border__width side] →
         s' !! name = s !! name)
    ∧ e' !! fmt margin_dash side = Some VNone
    ∧ e' !! fmt padding_dash side = Some VNone
    ∧ e' !! fmt border_dash_width side = Some VNone
    ∧ (∀ key, key ∉ [fmt margin_dash side; fmt padding_dash side;
                      fmt border_dash_width side] →
         e' !! key = e !! key).
Proof.
  intros H Hs Hls Hside s' e'.
  destruct (side_slots side Hside) as (Hm & Hp & Hb & Hm' & Hp' & Hb').
  assert (Hne : l ≠ ls) by (intros ->; congruence).
  eexists. split.
  { unfold reset_spacing.
    erewrite bind_ok; [|apply (setattr_box _ _ _ _ _ _ H), Box_slots_all, Hm].
    erewrite bind_ok;
      [|apply setattr_box; [apply lookup_insert_eq | apply Box_slots_all, Hp]].
    erewrite bind_ok;
      [|apply setattr_box; [apply lookup_insert_eq | apply Box_slots_all, Hb]].
    rewrite !insert_insert_eq.
    erewrite bind_ok;
      [|eapply clear_style_ok;
         [apply lookup_insert_eq
         |by rewrite !lookup_insert_ne
         |by rewrite lookup_insert_ne]].
    erewrite bind_ok;
      [|eapply clear_style_ok;
         [by rewrite lookup_insert_ne, lookup_insert_eq
         |by rewrite !lookup_insert_ne
         |apply lookup_insert_eq]].
    erewrite clear_style_ok;
         [
         |by rewrite !lookup_insert_ne, lookup_insert_eq by done
         |by rewrite !lookup_insert_ne
         |apply lookup_insert_eq].
    rewrite !insert_insert_eq. reflexivity. }
  split; [by rewrite lookup_insert_ne, lookup_insert_eq by done|].
  split; [by rewrite lookup_insert_eq|].
  split; [intros l' H1 H2; by rewrite !lookup_insert_ne|].
  subst s' e'.
  revert Hside. unfold sides. rewrite !elem_of_cons, elem_of_nil.
  intros [->|[->|[->|[->|[]]]]];
    cbn [fmt margin_ padding_ border__width margin_dash padding_dash
         border_dash_width fst snd String.append];
    (repeat split;
     try (intros name Hn; rewrite !not_elem_of_cons in Hn;
          destruct Hn as (?&?&?&_));
     repeat (rewrite lookup_insert_eq || rewrite lookup_insert_ne by done);
     done).
Qed.

(** ** Geometry queries *)

Lemma add_attrs_app h self a ns1 ns2 :
  add_attrs h self a (ns1 ++ ns2)
  = (x <- add_attrs h self a ns1 ;; add_attrs h self x ns2).
Proof.
  revert a. induction ns1 as [|n ns1 IH]; intros a; [reflexivity|].
  cbn [app add_attrs]. destruct (getattr h self n); try reflexivity.
  cbn [obind]. destruct (py_add a a0); try reflexivity. cbn [obind]. apply IH.
Qed.

Lemma run_query_reads q h self :
  run_query q h self = sum_fields h self (reads q).
Proof.
  destruct q; try reflexivity; cbn [run_query reads sum_fields];
    unfold margin_width, margin_height, border_width, border_height,
      padding_width, padding_height;
    (destruct (getattr h self _) as [a| | |]; [|reflexivity..]);
    cbn [obind]; rewrite <- ?add_attrs_app; reflexivity.
Qed.

Lemma add_attrs_none h l c s names :
  h !! l = Some (OBox c s) →
  names ≠ [] →
  Forall (fun n => resolved s n ∨ unresolved s n) names →
  ∃ e, add_attrs h (VRef l) VNone names = Raise e
       ∧ (e = TypeError ∨ e = AttributeError).
Proof.
  intros H Hne Hall. destruct Hall as [|n ns Hn _]; [done|].
  cbn [add_attrs]. rewrite (getattr_box _ _ _ _ _ H).
  destruct Hn as [[z Hz]|[Hz|Hz]]; rewrite Hz; cbn; eauto.
Qed.

Lemma add_attrs_outcome h l c s names (a : Z) :
  h !! l = Some (OBox c s) →
  Forall (fun n => resolved s n ∨ unresolved s n) names →
  (Forall (resolved s) names
   ∧ add_attrs h (VRef l) (VNum a) names
     = Ok (VNum (foldl (fun acc n => acc + num s n) a names)))
  ∨ (Exists (unresolved s) names
     ∧ ∃ e, add_attrs h (VRef l) (VNum a) names = Raise e
            ∧ (e = TypeError ∨ e = AttributeError)).
Proof.
  intros H Hall. revert a.
  induction Hall as [|n ns Hn _ IH]; intros a.
  - left. by split; [constructor|].
  - cbn [add_attrs]. rewrite (getattr_box _ _ _ _ _ H).
    destruct Hn as [[z Hz]|Hn].
    + rewrite Hz. cbn [obind py_add].
      destruct (IH (a + z)) as [[Hres Hrun]|[Hun Hrun]].
      * left. split; [constructor; [by exists z|done]|].
        rewrite Hrun. cbn [foldl].
        replace (num s n) with z by (unfold num; by rewrite Hz). done.
      * right. split; [by apply Exists_cons_tl|done].
    + right. split; [by apply Exists_cons_hd|].
      destruct Hn as [Hz|Hz]; rewrite Hz; cbn; eauto.
Qed.

Lemma resolved_not_unresolved s n : resolved s n → unresolved s n → False.
Proof. intros [z Hz] [H|H]; congruence. Qed.

Lemma sum_fields_outcome h l c s names :
  h !! l = Some (OBox c s) →
  (2 ≤ length names)%nat →
  Forall (fun n => resolved s n ∨ unresolved s n) names →
  (Forall (resolved s) names
   ∧ sum_fields h (VRef l) names = Ok (VNum (total s names)))
  ∨ (Exists (unresolved s) names
     ∧ ∃ e, sum_fields h (VRef l) names = Raise e
            ∧ (e = TypeError ∨ e = AttributeError)).
Proof.
  intros H Hlen Hall.
  destruct Hall as [|n ns Hn Hns]; [simpl in Hlen; lia|].
  cbn [sum_fields]. rewrite (getattr_box _ _ _ _ _ H).
  destruct Hn as [[z Hz]|Hn].
  - rewrite Hz. cbn [obind].
    destruct (add_attrs_outcome h l c s ns z H Hns) as [[Hres Hrun]|[Hun Hrun]].
    + left. split; [constructor; [by exists z|done]|].
      rewrite Hrun. unfold total. cbn [foldl].
      replace (num s n) with z by (unfold num; by rewrite Hz).
      by rewrite Z.add_0_l.
    + right. split; [by apply Exists_cons_tl|done].
  - right. split; [by apply Exists_cons_hd|].
    destruct Hn as [Hz|Hz]; rewrite Hz; cbn [obind]; [eauto|].
    apply (add_attrs_none h l c s ns H); [|done].
    intros ->. simpl in Hlen. lia.
Qed.



(** ** Positioning schemes and containing blocks *)

Section StyleKeywords.

Variable get_single_keyword : pyval → outcome (option string).

(** C10: [is_absolutely_positioned] is true iff the position keyword is
    [absolute] or [fixed]; [is_floated] is true iff the float keyword is not
    [none]; [is_in_normal_flow] is true iff both of them are false. *)
Theorem positioning_predicates h self st fv pv fk pk :
  getattr h self "style" = Ok st →
  getattr h st "float" = Ok fv →
  getattr h st "position" = Ok pv →
  get_single_keyword fv = Ok fk →
  get_single_keyword pv = Ok pk →
  ∃ f a n,
    is_floated get_single_keyword h self = Ok f
    ∧ is_absolutely_positioned get_single_keyword h self = Ok a
    ∧ is_in_normal_flow get_single_keyword h self = Ok n
    ∧ (a = true ↔ pk = Some "absolute" ∨ pk = Some "fixed")
    ∧ (f = true ↔ fk ≠ Some "none")
    ∧ (n = true ↔ f = false ∧ a = false).
Proof.
  intros Hst Hf Hp Hfk Hpk.
  unfold is_in_normal_flow, is_floated, is_absolutely_positioned.
  unfold keyword_of. rewrite Hst. cbn [obind]. rewrite Hf, Hp. cbn [obind].
  rewrite Hfk, Hpk. cbn [obind].
  exists (negb (bool_decide (fk = Some "none"))),
    (bool_decide (pk ∈ [Some "absolute"; Some "fixed"])),
    (negb (negb (bool_decide (fk = Some "none"))
           || bool_decide (pk ∈ [Some "absolute"; Some "fixed"]))).
  split; [reflexivity|]. split; [reflexivity|].
  split; [by destruct (negb (bool_decide (fk = Some "none")))|].
  split; [|split].
  - rewrite bool_decide_eq_true. rewrite !elem_of_cons, elem_of_nil. tauto.
  - rewrite negb_true_iff, bool_decide_eq_false. tauto.
  - rewrite negb_true_iff, orb_false_iff. tauto.
Qed.

Lemma truthy_box h l c s : h !! l = Some (OBox c s) → truthy h (VRef l) = Ok true.
Proof. intros H. unfold truthy. by rewrite H. Qed.

Lemma for_ancestors_walk {A} h skip n l a (body : pyval → outcome (option A)) r :
  walks_to h skip n l a →
  (∀ p, skip p → body (VRef p) = Ok None) →
  body (VRef a) = Ok (Some r) →
  ∀ fuel, (n ≤ fuel)%nat → for_ancestors fuel h (VRef l) body = Ok (Some r).
Proof.
  intros Hwalk Hskip Hstop.
  induction Hwalk as [l a (c & s & c' & s' & Hl & Hp & Ha)
                     |n l p a (c & s & c' & s' & Hl & Hp & Ha) Hsk _ IH];
    intros [|fuel] Hfuel; try lia; cbn [for_ancestors].
  - rewrite (getattr_set _ _ _ _ _ _ Hl Hp). cbn [obind].
    rewrite (truthy_box _ _ _ _ Ha). cbn [obind]. by rewrite Hstop.
  - rewrite (getattr_set _ _ _ _ _ _ Hl Hp). cbn [obind].
    rewrite (truthy_box _ _ _ _ Ha). cbn [obind].
    rewrite (Hskip _ Hsk). cbn [obind]. apply IH; try done; lia.
Qed.

Lemma for_ancestors_off {A} h skip n l (body : pyval → outcome (option A)) :
  walks_off h skip n l →
  (∀ p, skip p → body (VRef p) = Ok None) →
  ∀ fuel, (n ≤ fuel)%nat → for_ancestors fuel h (VRef l) body = Ok None.
Proof.
  intros Hwalk Hskip.
  induction Hwalk as [l c s Hl Hp
                     |n l p (c & s & c' & s' & Hl & Hp & Ha) Hsk _ IH];
    intros [|fuel] Hfuel; try lia; cbn [for_ancestors].
  - by rewrite (getattr_set _ _ _ _ _ _ Hl Hp).
  - rewrite (getattr_set _ _ _ _ _ _ Hl Hp). cbn [obind].
    rewrite (truthy_box _ _ _ _ Ha). cbn [obind].
    rewrite (Hskip _ Hsk). cbn [obind]. apply IH; try done; lia.
Qed.

Lemma isinstance_box h l c s k :
  h !! l = Some (OBox c s) → isinstance h (VRef l) k = Ok (issubclass c k).
Proof. intros H. unfold isinstance. by rewrite H. Qed.

Lemma isinstance_page h l : is_page h l → isinstance h (VRef l) PageBox = Ok true.
Proof. intros (c & s & H & Hc). by rewrite (isinstance_box _ _ _ _ _ H), Hc. Qed.

Lemma isinstance_not_page h l :
  not_page h l → isinstance h (VRef l) PageBox = Ok false.
Proof. intros (c & s & H & Hc). by rewrite (isinstance_box _ _ _ _ _ H), Hc. Qed.

Lemma size_of_box h l w x : has_size h l w x → size_of h (VRef l) = Ok (w, x).
Proof.
  intros (c & s & H & Hw & Hx). unfold size_of.
  by rewrite (getattr_set _ _ _ _ _ _ H Hw), (getattr_set _ _ _ _ _ _ H Hx).
Qed.

(** A box that is not a page runs [Box.containing_block_size]. *)
Lemma containing_block_size_box fuel h l c s :
  h !! l = Some (OBox c s) → issubclass c PageBox = false →
  containing_block_size get_single_keyword fuel h (VRef l)
  = Box_containing_block_size get_single_keyword fuel h (VRef l).
Proof.
  intros H Hc. unfold containing_block_size, lookup_method.
  by rewrite H, resolve_containing_block_size, Hc.
Qed.

(** C2: containing-block resolution on a box that is not itself a page.
    When the parent is a page box the result is the page's content size
    [(parent.width, parent.height)], whatever the position; when the
    position is [static] or [relative] it is the parent's content size; when
    it is [absolute] the walk up the ancestors stops at the first ancestor
    that is positioned ([absolute], [relative] or [fixed], whatever its
    display) or, failing that, at the first page box, and the result is
    that ancestor's content size. *)
Theorem containing_block_resolution h l c s p :
  h !! l = Some (OBox c s) →
  issubclass c PageBox = false →
  s !! "parent" = Some (VRef p) →
  (∀ w x, is_page h p → has_size h p w x →
     ∀ fuel, containing_block_size get_single_keyword fuel h (VRef l)
             = Ok (w, x))
  ∧ (∀ k w x,
       not_page h p →
       keyword_of get_single_keyword h (VRef l) "position" = Ok k →
       k ∈ [Some "static"; Some "relative"] →
       has_size h p w x →
       ∀ fuel, containing_block_size get_single_keyword fuel h (VRef l)
               = Ok (w, x))
  ∧ (∀ n a w x,
       not_page h p →
       keyword_of get_single_keyword h (VRef l) "position"
         = Ok (Some "absolute") →
       walks_to h (passed_over get_single_keyword h) n l a →
       positioned get_single_keyword h a ∨ page_stop get_single_keyword h a →
       has_size h a w x →
       ∀ fuel, (n ≤ fuel)%nat →
         containing_block_size get_single_keyword fuel h (VRef l)
         = Ok (w, x)).
Proof.
  intros H Hc Hp. split; [|split].
  - intros w x Hpage Hsize fuel.
    rewrite (containing_block_size_box _ _ _ _ _ H Hc).
    unfold Box_containing_block_size.
    rewrite (getattr_set _ _ _ _ _ _ H Hp). cbn [obind].
    rewrite (isinstance_page _ _ Hpage). cbn [obind].
    by apply size_of_box.
  - intros k w x Hpage Hk Hin Hsize fuel.
    rewrite (containing_block_size_box _ _ _ _ _ H Hc).
    unfold Box_containing_block_size.
    rewrite (getattr_set _ _ _ _ _ _ H Hp). cbn [obind].
    rewrite (isinstance_not_page _ _ Hpage). cbn [obind].
    rewrite Hk. cbn [obind].
    rewrite bool_decide_eq_true_2
      by (revert Hin; rewrite !elem_of_cons, !elem_of_nil; tauto).
    by apply size_of_box.
  - intros n a w x Hpage Hk Hwalk Hstop Hsize fuel Hfuel.
    rewrite (containing_block_size_box _ _ _ _ _ H Hc).
    unfold Box_containing_block_size.
    rewrite (getattr_set _ _ _ _ _ _ H Hp). cbn [obind].
    rewrite (isinstance_not_page _ _ Hpage). cbn [obind].
    rewrite Hk. cbn [obind].
    rewrite bool_decide_eq_false_2
      by (rewrite !elem_of_cons, !elem_of_nil; intros [|[|]]; done).
    rewrite bool_decide_eq_false_2 by done.
    rewrite bool_decide_eq_true_2 by done.
    match goal with
    | |- context [for_ancestors fuel h (VRef l) ?b] => set (body := b)
    end.
    assert (Hskip : ∀ q, passed_over get_single_keyword h q →
              body (VRef q) = Ok None).
    { intros q (Hq & k & Hkq & Hnot). subst body. cbn beta.
      rewrite Hkq. cbn [obind].
      rewrite bool_decide_eq_false_2 by done.
      by rewrite (isinstance_not_page _ _ Hq). }
    assert (Hbody : body (VRef a) = Ok (Some (w, x))).
    { subst body. cbn beta.
      destruct Hstop as [(k & d & Hka & Hin & Hd)|(Ha & k & Hka & Hnot)].
      - rewrite Hka. cbn [obind]. rewrite bool_decide_eq_true_2 by done.
        rewrite Hd. cbn [obind]. rewrite (size_of_box _ _ _ _ Hsize).
        by destruct (bool_decide _).
      - rewrite Hka. cbn [obind]. rewrite bool_decide_eq_false_2 by done.
        rewrite (isinstance_page _ _ Ha). cbn [obind].
        by rewrite (size_of_box _ _ _ _ Hsize). }
    by rewrite (for_ancestors_walk h _ n l a body (w, x) Hwalk Hskip Hbody
                  fuel Hfuel).
Qed.

(** C3 (amended): for a [fixed] box whose parent is not a page box, the walk
    up the ancestors stops at the first page box and the result is that
    page's content size [(width, height)], not its outer size; when the
    chain of ancestors ends without a page box the call fails with the
    assertion "Page not found". *)
Theorem fixed_containing_block h l c s p :
  h !! l = Some (OBox c s) →
  issubclass c PageBox = false →
  s !! "parent" = Some (VRef p) →
  not_page h p →
  keyword_of get_single_keyword h (VRef l) "position" = Ok (Some "fixed") →
  (∀ n a w x,
     walks_to h (not_page h) n l a → is_page h a → has_size h a w x →
     ∀ fuel, (n ≤ fuel)%nat →
       containing_block_size get_single_keyword fuel h (VRef l) = Ok (w, x))
  ∧ (∀ n,
       walks_off h (not_page h) n l →
       ∀ fuel, (n ≤ fuel)%nat →
         containing_block_size get_single_keyword fuel h (VRef l)
         = Raise (AssertionError "Page not found")).
Proof.
  intros H Hc Hp Hpage Hk.
  assert (Hbody : ∀ q, not_page h q →
    (is_page <- isinstance h (VRef q) PageBox ;;
     if is_page then s <- size_of h (VRef q) ;; Ok (Some s) else Ok None)
    = Ok None)
    by (intros q Hq; by rewrite (isinstance_not_page _ _ Hq)).
  split.
  - intros n a w x Hwalk Ha Hsize fuel Hfuel.
    rewrite (containing_block_size_box _ _ _ _ _ H Hc).
    unfold Box_containing_block_size.
    rewrite (getattr_set _ _ _ _ _ _ H Hp). cbn [obind].
    rewrite (isinstance_not_page _ _ Hpage). cbn [obind].
    rewrite Hk. cbn [obind].
    rewrite bool_decide_eq_false_2
      by (rewrite !elem_of_cons, !elem_of_nil; intros [|[|]]; done).
    rewrite bool_decide_eq_true_2 by done.
    rewrite (for_ancestors_walk h _ n l a _ (w, x) Hwalk Hbody); [done| |done].
    rewrite (isinstance_page _ _ Ha). cbn [obind].
    by rewrite (size_of_box _ _ _ _ Hsize).
  - intros n Hwalk fuel Hfuel.
    rewrite (containing_block_size_box _ _ _ _ _ H Hc).
    unfold Box_containing_block_size.
    rewrite (getattr_set _ _ _ _ _ _ H Hp). cbn [obind].
    rewrite (isinstance_not_page _ _ Hpage). cbn [obind].
    rewrite Hk. cbn [obind].
    rewrite bool_decide_eq_false_2
      by (rewrite !elem_of_cons, !elem_of_nil; intros [|[|]]; done).
    rewrite bool_decide_eq_true_2 by done.
    by rewrite (for_ancestors_off h _ n l _ Hwalk Hbody fuel Hfuel).
Qed.

End StyleKeywords.

(** ** Box trees *)

Lemma tree_ind' (P : tree → Prop) :
  (∀ l kids, Forall P kids → P (Node l kids)) → ∀ t, P t.
Proof.
  intros Hnode. fix IH 1. intros [l kids]. apply Hnode.
  induction kids as [|k kids IHk]; constructor; [apply IH | apply IHk].
Qed.

Lemma depth_kids l kids n :
  (depth (Node l kids) ≤ S n)%nat → Forall (fun k => (depth k ≤ n)%nat) kids.
Proof.
  cbn [depth]. intros H. apply le_S_n in H.
  induction kids as [|k kids IH]; constructor; cbn [foldr] in H; [lia|].
  apply IH. lia.
Qed.

(** *** Moving boxes *)

Lemma moved_box dx dy c s :
  ∃ s', moved dx dy (OBox c s) = OBox c s'
        ∧ s' !! "children" = s !! "children"
        ∧ (∀ x y, s !! "position_x" = Some (VNum x) →
                  s !! "position_y" = Some (VNum y) →
                  s' = <["position_y" := VNum (y + dy)]>
                         (<["position_x" := VNum (x + dx)]> s)).
Proof.
  unfold moved.
  destruct (s !! "position_x") as [[]|] eqn:Ex;
    try (exists s; repeat split; [intros; congruence]).
  destruct (s !! "position_y") as [[]|] eqn:Ey;
    try (exists s; repeat split; [intros; congruence]).
  eexists. split; [reflexivity|]. split.
  - by rewrite !lookup_insert_ne.
  - intros x y [= <-] [= <-]. reflexivity.
Qed.

Lemma alter_moved_box (h : heap) dx dy (l' l : loc) c s :
  h !! l = Some (OBox c s) →
  ∃ s', alter (moved dx dy) l' h !! l = Some (OBox c s')
        ∧ s' !! "children" = s !! "children".
Proof.
  intros H. destruct (decide (l' = l)) as [->|Hne].
  - rewrite lookup_alter_eq, H.
    change (moved dx dy <$> Some (OBox c s)) with (Some (moved dx dy (OBox c s))).
    destruct (moved_box dx dy c s) as (s' & -> & Hch & _). eauto.
  - rewrite lookup_alter_ne by done. eauto.
Qed.

Lemma alter_moved_deque (h : heap) dx dy (l' d : loc) items :
  h !! d = Some (ODeque items) →
  alter (moved dx dy) l' h !! d = Some (ODeque items).
Proof.
  intros H. destruct (decide (l' = d)) as [->|Hne].
  - by rewrite lookup_alter_eq, H.
  - by rewrite lookup_alter_ne.
Qed.

Lemma shape_alter dx dy (l' : loc) t :
  ∀ h, shape h t → shape (alter (moved dx dy) l' h) t.
Proof.
  induction t as [l kids IH] using tree_ind'. intros h Hshape.
  inversion Hshape as [l0 c s Hl Hc|l0 c s d kids0 Hl Hc Hch Hd Hkids]; subst.
  - destruct (alter_moved_box h dx dy l' l c s Hl) as (s' & Hl' & _).
    by eapply shape_leaf.
  - destruct (alter_moved_box h dx dy l' l c s Hl) as (s' & Hl' & Hch').
    eapply shape_parent; [done|done|by rewrite Hch'|by apply alter_moved_deque|].
    rewrite Forall_forall in IH, Hkids. apply Forall_forall. eauto.
Qed.

Lemma placed_alter dx dy (l' : loc) (h : heap) (l : loc) :
  placed h l → placed (alter (moved dx dy) l' h) l.
Proof.
  intros (c & s & x & y & Hl & Hx & Hy).
  destruct (decide (l' = l)) as [->|Hne].
  - destruct (moved_box dx dy c s) as (s' & Hm & _ & Hs').
    exists c, s', (x + dx), (y + dy).
    rewrite lookup_alter_eq, Hl.
    change (moved dx dy <$> Some (OBox c s)) with (Some (moved dx dy (OBox c s))).
    rewrite Hm, (Hs' x y Hx Hy).
    split; [done|]. split; by simplify_map_eq.
  - exists c, s, x, y. by rewrite lookup_alter_ne.
Qed.

Lemma shape_move_all dx dy ls t :
  ∀ h, shape h t → shape (move_all dx dy ls h) t.
Proof.
  induction ls as [|l ls IH]; intros h H; [done|].
  cbn [move_all foldl]. apply IH. by apply shape_alter.
Qed.

Lemma placed_move_all dx dy ls l :
  ∀ h, placed h l → placed (move_all dx dy ls h) l.
Proof.
  induction ls as [|l0 ls IH]; intros h H; [done|].
  cbn [move_all foldl]. apply IH. by apply placed_alter.
Qed.

Lemma move_all_app dx dy ls1 ls2 h :
  move_all dx dy (ls1 ++ ls2) h = move_all dx dy ls2 (move_all dx dy ls1 h).
Proof. unfold move_all. apply foldl_app. Qed.

Lemma move_all_lookup_notin dx dy ls (l : loc) :
  ∀ h : heap, l ∉ ls → move_all dx dy ls h !! l = h !! l.
Proof.
  induction ls as [|l0 ls IH]; intros h Hnot; [done|].
  apply not_elem_of_cons in Hnot as [Hne Hnot].
  cbn [move_all foldl]. fold (move_all dx dy ls (alter (moved dx dy) l0 h)).
  rewrite IH by done. by rewrite lookup_alter_ne.
Qed.

Lemma move_all_lookup_in dx dy ls (l : loc) :
  ∀ h : heap, NoDup ls → l ∈ ls → move_all dx dy ls h !! l = moved dx dy <$> h !! l.
Proof.
  induction ls as [|l0 ls IH]; intros h Hnd Hin; [by apply elem_of_nil in Hin|].
  apply NoDup_cons in Hnd as [Hnot Hnd].
  cbn [move_all foldl]. fold (move_all dx dy ls (alter (moved dx dy) l0 h)).
  apply elem_of_cons in Hin as [->|Hin].
  - rewrite move_all_lookup_notin by done. apply lookup_alter_eq.
  - rewrite IH by done. rewrite lookup_alter_ne; [done|]. by intros ->.
Qed.

Lemma moved_moved dx1 dy1 dx2 dy2 o :
  moved dx2 dy2 (moved dx1 dy1 o) = moved (dx1 + dx2) (dy1 + dy2) o.
Proof.
  destruct o as [c s| |]; try reflexivity. unfold moved at 2 3.
  destruct (s !! "position_x") as [[]|] eqn:Ex;
    try (unfold moved; by rewrite Ex).
  destruct (s !! "position_y") as [[]|] eqn:Ey;
    try (unfold moved; by rewrite Ex, Ey).
  unfold moved. rewrite lookup_insert_ne, lookup_insert_eq by done.
  rewrite lookup_insert_eq. f_equal.
  apply map_eq. intros k. rewrite !lookup_insert.
  repeat case_decide; subst; try done; do 2 f_equal; lia.
Qed.

(** *** Running [translate] and [descendants] on a tree *)

Lemma Box_translate_placed (h : heap) (l : loc) c s x y dx dy :
  h !! l = Some (OBox c s) →
  s !! "position_x" = Some (VNum x) → s !! "position_y" = Some (VNum y) →
  Box_translate (VRef l) (VNum dx) (VNum dy) h
  = (Ok tt, alter (moved dx dy) l h).
Proof.
  intros H Hx Hy. unfold Box_translate.
  unfold bind at 1, read at 1. rewrite (getattr_set _ _ _ _ _ _ H Hx).
  unfold bind at 1, read at 1. cbn [py_add].
  erewrite bind_ok;
    [|apply (setattr_box _ _ _ _ _ _ H), Box_slots_all; vm_compute; repeat constructor].
  unfold bind at 1, read at 1.
  erewrite getattr_set; [|apply lookup_insert_eq|by rewrite lookup_insert_ne].
  unfold bind at 1, read at 1. cbn [py_add].
  erewrite setattr_box;
    [|apply lookup_insert_eq|apply Box_slots_all; vm_compute; repeat constructor].
  rewrite insert_insert_eq. f_equal.
  rewrite <- (insert_id h l (OBox c s)) at 2 by done.
  rewrite alter_insert_eq. unfold moved. by rewrite Hx, Hy.
Qed.

Lemma translate_kids dx dy n kids :
  Forall (fun t => ∀ h fuel, shape h t → Forall (placed h) (preorder t) →
            (depth t ≤ fuel)%nat →
            translate fuel (VRef (root t)) (VNum dx) (VNum dy) h
            = (Ok tt, move_all dx dy (preorder t) h)) kids →
  ∀ h, Forall (shape h) kids →
       Forall (placed h) (concat (map preorder kids)) →
       Forall (fun k => (depth k ≤ n)%nat) kids →
       for_each (map (fun k => VRef (root k)) kids)
         (fun child => translate n child (VNum dx) (VNum dy)) h
       = (Ok tt, move_all dx dy (concat (map preorder kids)) h).
Proof.
  induction 1 as [|k kids Hk _ IH]; intros h Hshape Hplaced Hdepth; [done|].
  cbn [map concat for_each] in *.
  apply Forall_cons in Hshape as [Hsk Hshape].
  apply Forall_app in Hplaced as [Hpk Hplaced].
  apply Forall_cons in Hdepth as [Hdk Hdepth].
  erewrite bind_ok; [|by apply Hk].
  rewrite move_all_app. apply IH; [| |done].
  - eapply Forall_impl; [exact Hshape|]. intros; by apply shape_move_all.
  - eapply Forall_impl; [exact Hplaced|]. intros; by apply placed_move_all.
Qed.

Lemma translate_run dx dy t :
  ∀ h fuel, shape h t → Forall (placed h) (preorder t) →
    (depth t ≤ fuel)%nat →
    translate fuel (VRef (root t)) (VNum dx) (VNum dy) h
    = (Ok tt, move_all dx dy (preorder t) h).
Proof.
  induction t as [l kids IH] using tree_ind'.
  intros h [|n] Hshape Hplaced Hdepth; [cbn [depth] in Hdepth; lia|].
  cbn [preorder root] in *.
  apply Forall_cons in Hplaced as [(c0 & s0 & x & y & Hl0 & Hx & Hy) Hplaced].
  cbn [translate].
  inversion Hshape as [l0 c s Hl Hc|l0 c s d kids0 Hl Hc Hch Hd Hkids]; subst;
    assert (c0 = c ∧ s0 = s) as [-> ->] by (split; congruence);
    unfold bind at 1, read at 1, lookup_method;
    rewrite Hl, resolve_translate, Hc.
  - by apply Box_translate_placed with (c := c) (s := s) (x := x) (y := y).
  - erewrite bind_ok; [|by eapply Box_translate_placed].
    destruct (alter_moved_box h dx dy l l c s Hl) as (s' & Hl' & Hch').
    unfold bind at 1, read at 1.
    erewrite getattr_set; [|exact Hl'|by rewrite Hch'].
    unfold bind at 1, read at 1. unfold iter.
    rewrite (alter_moved_deque h dx dy l d _ Hd).
    cbn [move_all foldl].
    apply translate_kids; [done| | |by eapply depth_kids].
    + eapply Forall_impl; [exact Hkids|]. intros; by apply shape_alter.
    + eapply Forall_impl; [exact Hplaced|]. intros; by apply placed_alter.
Qed.

(** *** Counting occurrences *)

Lemma occurrences_cons (l l0 : loc) ls :
  occurrences l (l0 :: ls)
  = if decide (l0 = l) then S (occurrences l ls) else occurrences l ls.
Proof.
  unfold occurrences. rewrite filter_cons. by destruct (decide (l0 = l)).
Qed.

Lemma occurrences_notin (l : loc) ls : l ∉ ls → occurrences l ls = 0%nat.
Proof.
  induction ls as [|l0 ls IH]; [done|]. intros Hnot.
  apply not_elem_of_cons in Hnot as [Hne Hnot].
  rewrite occurrences_cons. destruct (decide (l0 = l)); [congruence|auto].
Qed.

Lemma alter_all_lookup (f : obj → obj) ls (l : loc) :
  ∀ h : heap,
    foldl (fun h l => alter f l h) h ls !! l
    = Nat.iter (occurrences l ls) f <$> h !! l.
Proof.
  induction ls as [|l0 ls IH]; intros h.
  - cbn. by destruct (h !! l).
  - cbn [foldl]. rewrite IH, occurrences_cons.
    destruct (decide (l0 = l)) as [->|Hne].
    + rewrite lookup_alter_eq. destruct (h !! l) as [o|]; [|done].
      cbn [fmap option_fmap option_map]. f_equal. symmetry.
      apply Nat.iter_succ_r.
    + by rewrite lookup_alter_ne.
Qed.

Lemma moved_zero o : moved 0 0 o = o.
Proof.
  destruct o as [c s| |]; try done. unfold moved.
  destruct (s !! "position_x") as [[|x| | | |]|] eqn:Ex; try done.
  destruct (s !! "position_y") as [[|y| | | |]|] eqn:Ey; try done.
  rewrite !Z.add_0_r. f_equal.
  rewrite (insert_id s "position_x") by done. by rewrite insert_id.
Qed.

Lemma move_all_lookup dx dy ls (l : loc) :
  ∀ h : heap,
    move_all dx dy ls h !! l
    = moved (Z.of_nat (occurrences l ls) * dx) (Z.of_nat (occurrences l ls) * dy)
        <$> h !! l.
Proof.
  induction ls as [|l0 ls IH]; intros h.
  - cbn. destruct (h !! l) as [o|]; cbn; [|done]. by rewrite moved_zero.
  - cbn [move_all foldl]. fold (move_all dx dy ls (alter (moved dx dy) l0 h)).
    rewrite IH, occurrences_cons. destruct (decide (l0 = l)) as [->|Hne].
    + rewrite lookup_alter_eq. destruct (h !! l) as [o|]; cbn; [|done].
      rewrite moved_moved. do 2 f_equal; lia.
    + by rewrite lookup_alter_ne.
Qed.

Lemma move_all_sum dx1 dy1 dx2 dy2 ls (h : heap) :
  move_all dx2 dy2 ls (move_all dx1 dy1 ls h)
  = move_all (dx1 + dx2) (dy1 + dy2) ls h.
Proof.
  apply map_eq. intros l. rewrite !move_all_lookup.
  destruct (h !! l) as [o|]; cbn; [|done]. rewrite moved_moved.
  do 2 f_equal; lia.
Qed.

(** *** Moving boxes whose positions are any numbers *)

(** An addition that succeeded can be repeated on its result. *)
Lemma py_add_again v d v' :
  py_add v d = Ok v' → ∃ v'', py_add v' d = Ok v''.
Proof.
  destruct v as [|x|x|x| |], d as [|y|y|y| |]; cbn; try done.
  - intros [= <-]. cbn. eauto.
  - destruct (float_of_int x); cbn; try done. intros [= <-]. cbn. eauto.
  - destruct (float_of_int y) eqn:Hy; cbn; try done. intros [= <-]. cbn.
    rewrite Hy. cbn. eauto.
  - intros [= <-]. cbn. eauto.
  - intros [= <-]. cbn. eauto.
Qed.

Lemma shifted_box dx dy c s :
  ∃ s', shifted dx dy (OBox c s) = OBox c s'
        ∧ s' !! "children" = s !! "children"
        ∧ (∀ px py px' py',
             s !! "position_x" = Some px → s !! "position_y" = Some py →
             py_add px dx = Ok px' → py_add py dy = Ok py' →
             s' = <["position_y" := py']> (<["position_x" := px']> s)).
Proof.
  unfold shifted.
  destruct (s !! "position_x") as [px|] eqn:Ex;
    [|exists s; repeat split; intros; congruence].
  destruct (s !! "position_y") as [py|] eqn:Ey;
    [|exists s; repeat split; intros; congruence].
  destruct (py_add px dx) as [px'| | |] eqn:Hx;
    try (exists s; repeat split; intros; congruence).
  destruct (py_add py dy) as [py'| | |] eqn:Hy;
    try (exists s; repeat split; intros; congruence).
  eexists. split; [reflexivity|]. split.
  - by rewrite !lookup_insert_ne.
  - intros ???? [= <-] [= <-] Hx' Hy'. congruence.
Qed.

Lemma alter_shifted_box (h : heap) dx dy (l' l : loc) c s :
  h !! l = Some (OBox c s) →
  ∃ s', alter (shifted dx dy) l' h !! l = Some (OBox c s')
        ∧ s' !! "children" = s !! "children".
Proof.
  intros H. destruct (decide (l' = l)) as [->|Hne].
  - rewrite lookup_alter_eq, H.
    change (shifted dx dy <$> Some (OBox c s))
      with (Some (shifted dx dy (OBox c s))).
    destruct (shifted_box dx dy c s) as (s' & -> & Hch & _). eauto.
  - rewrite lookup_alter_ne by done. eauto.
Qed.

Lemma alter_shifted_deque (h : heap) dx dy (l' d : loc) items :
  h !! d = Some (ODeque items) →
  alter (shifted dx dy) l' h !! d = Some (ODeque items).
Proof.
  intros H. destruct (decide (l' = d)) as [->|Hne].
  - by rewrite lookup_alter_eq, H.
  - by rewrite lookup_alter_ne.
Qed.

Lemma shape_alter_shifted dx dy (l' : loc) t :
  ∀ h, shape h t → shape (alter (shifted dx dy) l' h) t.
Proof.
  induction t as [l kids IH] using tree_ind'. intros h Hshape.
  inversion Hshape as [l0 c s Hl Hc|l0 c s d kids0 Hl Hc Hch Hd Hkids]; subst.
  - destruct (alter_shifted_box h dx dy l' l c s Hl) as (s' & Hl' & _).
    by eapply shape_leaf.
  - destruct (alter_shifted_box h dx dy l' l c s Hl) as (s' & Hl' & Hch').
    eapply shape_parent;
      [done|done|by rewrite Hch'|by apply alter_shifted_deque|].
    rewrite Forall_forall in IH, Hkids. apply Forall_forall. eauto.
Qed.

Lemma addable_alter dx dy (l' : loc) (h : heap) (l : loc) :
  addable dx dy h l → addable dx dy (alter (shifted dx dy) l' h) l.
Proof.
  intros (c & s & px & py & px' & py' & Hl & Hx & Hy & Hax & Hay).
  destruct (decide (l' = l)) as [->|Hne].
  - destruct (shifted_box dx dy c s) as (s' & Hm & _ & Hs').
    destruct (py_add_again _ _ _ Hax) as [px'' Hax'].
    destruct (py_add_again _ _ _ Hay) as [py'' Hay'].
    exists c, s', px', py', px'', py''.
    rewrite lookup_alter_eq, Hl.
    change (shifted dx dy <$> Some (OBox c s))
      with (Some (shifted dx dy (OBox c s))).
    rewrite Hm, (Hs' px py px' py' Hx Hy Hax Hay).
    split; [done|]. split; [by simplify_map_eq|]. split; [by simplify_map_eq|].
    done.
  - exists c, s, px, py, px', py'. by rewrite lookup_alter_ne.
Qed.

Lemma shape_shift_all dx dy ls t :
  ∀ h, shape h t → shape (shift_all dx dy ls h) t.
Proof.
  induction ls as [|l ls IH]; intros h H; [done|].
  cbn [shift_all foldl]. apply IH. by apply shape_alter_shifted.
Qed.

Lemma addable_shift_all dx dy ls l :
  ∀ h, addable dx dy h l → addable dx dy (shift_all dx dy ls h) l.
Proof.
  induction ls as [|l0 ls IH]; intros h H; [done|].
  cbn [shift_all foldl]. apply IH. by apply addable_alter.
Qed.

Lemma shift_all_app dx dy ls1 ls2 h :
  shift_all dx dy (ls1 ++ ls2) h = shift_all dx dy ls2 (shift_all dx dy ls1 h).
Proof. unfold shift_all. apply foldl_app. Qed.

Lemma Box_translate_addable (h : heap) (l : loc) dx dy :
  addable dx dy h l →
  Box_translate (VRef l) dx dy h = (Ok tt, alter (shifted dx dy) l h).
Proof.
  intros (c & s & px & py & px' & py' & H & Hx & Hy & Hax & Hay).
  unfold Box_translate.
  unfold bind at 1, read at 1. rewrite (getattr_set _ _ _ _ _ _ H Hx).
  unfold bind at 1, read at 1. rewrite Hax.
  erewrite bind_ok;
    [|apply (setattr_box _ _ _ _ _ _ H), Box_slots_all; vm_compute; repeat constructor].
  unfold bind at 1, read at 1.
  erewrite getattr_set; [|apply lookup_insert_eq|by rewrite lookup_insert_ne].
  unfold bind at 1, read at 1. rewrite Hay.
  erewrite setattr_box;
    [|apply lookup_insert_eq|apply Box_slots_all; vm_compute; repeat constructor].
  rewrite insert_insert_eq. f_equal.
  rewrite <- (insert_id h l (OBox c s)) at 2 by done.
  rewrite alter_insert_eq. unfold shifted. by rewrite Hx, Hy, Hax, Hay.
Qed.

Lemma translate_kids_shifted dx dy n kids :
  Forall (fun t => ∀ h fuel, shape h t →
            Forall (addable dx dy h) (preorder t) →
            (depth t ≤ fuel)%nat →
            translate fuel (VRef (root t)) dx dy h
            = (Ok tt, shift_all dx dy (preorder t) h)) kids →
  ∀ h, Forall (shape h) kids →
       Forall (addable dx dy h) (concat (map preorder kids)) →
       Forall (fun k => (depth k ≤ n)%nat) kids →
       for_each (map (fun k => VRef (root k)) kids)
         (fun child => translate n child dx dy) h
       = (Ok tt, shift_all dx dy (concat (map preorder kids)) h).
Proof.
  induction 1 as [|k kids Hk _ IH]; intros h Hshape Hplaced Hdepth; [done|].
  cbn [map concat for_each] in *.
  apply Forall_cons in Hshape as [Hsk Hshape].
  apply Forall_app in Hplaced as [Hpk Hplaced].
  apply Forall_cons in Hdepth as [Hdk Hdepth].
  erewrite bind_ok; [|by apply Hk].
  rewrite shift_all_app. apply IH; [| |done].
  - eapply Forall_impl; [exact Hshape|]. intros; by apply shape_shift_all.
  - eapply Forall_impl; [exact Hplaced|]. intros; by apply addable_shift_all.
Qed.

Lemma translate_run_shifted dx dy t :
  ∀ h fuel, shape h t → Forall (addable dx dy h) (preorder t) →
    (depth t ≤ fuel)%nat →
    translate fuel (VRef (root t)) dx dy h
    = (Ok tt, shift_all dx dy (preorder t) h).
Proof.
  induction t as [l kids IH] using tree_ind'.
  intros h [|n] Hshape Hplaced Hdepth; [cbn [depth] in Hdepth; lia|].
  cbn [preorder root] in *.
  apply Forall_cons in Hplaced as [Hadd Hplaced].
  cbn [translate].
  inversion Hshape as [l0 c s Hl Hc|l0 c s d kids0 Hl Hc Hch Hd Hkids]; subst;
    unfold bind at 1, read at 1, lookup_method;
    rewrite Hl, resolve_translate, Hc.
  - by apply Box_translate_addable.
  - erewrite bind_ok; [|by eapply Box_translate_addable].
    destruct (alter_shifted_box h dx dy l l c s Hl) as (s' & Hl' & Hch').
    unfold bind at 1, read at 1.
    erewrite getattr_set; [|exact Hl'|by rewrite Hch'].
    unfold bind at 1, read at 1. unfold iter.
    rewrite (alter_shifted_deque h dx dy l d _ Hd).
    cbn [shift_all foldl].
    apply translate_kids_shifted; [done| | |by eapply depth_kids].
    + eapply Forall_impl; [exact Hkids|]. intros; by apply shape_alter_shifted.
    + eapply Forall_impl; [exact Hplaced|]. intros; by apply addable_alter.
Qed.

(** C4 (amended): on a box that roots a tree of boxes, [translate] succeeds
    whenever the offset can be added to the position of every box of the
    tree.  It adds the offset to the position of the box and of each box
    below it once for each time the box is listed, by one addition of
    Python's arithmetic each time (so a box listed once ends at
    [(x + dx, y + dy)], each a single, possibly rounded, addition), and
    leaves every other slot and every other object of the store as it was.
    On integers a box listed [k] times moves by exactly [(k * dx, k * dy)],
    and translating by [(dx1, dy1)] and then by [(dx2, dy2)] reaches the
    same store as translating once by [(dx1 + dx2, dy1 + dy2)]; on floats
    two translations need not add up. *)
Theorem translate_subtree h t fuel :
  shape h t →
  (depth t ≤ fuel)%nat →
  (∀ dx dy,
     Forall (addable dx dy h) (preorder t) →
     ∃ h1,
       translate fuel (VRef (root t)) dx dy h = (Ok tt, h1)
       ∧ (∀ l, h1 !! l
               = Nat.iter (occurrences l (preorder t)) (shifted dx dy)
                   <$> h !! l)
       ∧ (∀ l c s px py,
            occurrences l (preorder t) = 1%nat →
            h !! l = Some (OBox c s) →
            s !! "position_x" = Some px → s !! "position_y" = Some py →
            ∃ px' py',
              py_add px dx = Ok px' ∧ py_add py dy = Ok py'
              ∧ h1 !! l = Some (OBox c (<["position_y" := py']>
                                          (<["position_x" := px']> s))))
       ∧ (∀ l, l ∉ preorder t → h1 !! l = h !! l))
  ∧ (Forall (placed h) (preorder t) →
     ∀ dx1 dy1 dx2 dy2 : Z,
       ∃ h1 h2,
         translate fuel (VRef (root t)) (VNum dx1) (VNum dy1) h = (Ok tt, h1)
         ∧ (∀ l c s x y,
              h !! l = Some (OBox c s) →
              s !! "position_x" = Some (VNum x) →
              s !! "position_y" = Some (VNum y) →
              h1 !! l
              = Some (OBox c
                  (<["position_y" :=
                       VNum (y + Z.of_nat (occurrences l (preorder t)) * dy1)]>
                     (<["position_x" :=
                          VNum (x + Z.of_nat (occurrences l (preorder t)) * dx1)]>
                        s))))
         ∧ translate fuel (VRef (root t)) (VNum dx2) (VNum dy2) h1
           = (Ok tt, h2)
         ∧ translate fuel (VRef (root t)) (VNum (dx1 + dx2))
             (VNum (dy1 + dy2)) h
           = (Ok tt, h2)).
Proof.
  intros Hshape Hdepth. split.
  - intros dx dy Hadd. exists (shift_all dx dy (preorder t) h).
    split; [by apply translate_run_shifted|].
    assert (Hlookup : ∀ l, shift_all dx dy (preorder t) h !! l
              = Nat.iter (occurrences l (preorder t)) (shifted dx dy)
                  <$> h !! l) by (intros l; apply alter_all_lookup).
    split; [exact Hlookup|]. split.
    + intros l c s px py Honce Hl Hx Hy.
      assert (l ∈ preorder t) as Hin.
      { destruct (decide (l ∈ preorder t)) as [|Hnot]; [done|].
        rewrite occurrences_notin in Honce by done. done. }
      rewrite Forall_forall in Hadd.
      destruct (Hadd l Hin)
        as (c0 & s0 & px0 & py0 & px' & py' & Hl0 & Hx0 & Hy0 & Hax & Hay).
      assert (c0 = c ∧ s0 = s) as [-> ->] by (split; congruence).
      assert (px0 = px ∧ py0 = py) as [-> ->] by (split; congruence).
      exists px', py'. split; [done|]. split; [done|].
      rewrite Hlookup, Honce, Hl. cbn. unfold shifted.
      by rewrite Hx, Hy, Hax, Hay.
    + intros l Hnot. rewrite Hlookup, occurrences_notin by done.
      by destruct (h !! l).
  - intros Hplaced dx1 dy1 dx2 dy2.
    exists (move_all dx1 dy1 (preorder t) h),
      (move_all (dx1 + dx2) (dy1 + dy2) (preorder t) h).
    split; [by apply translate_run|]. split; [|split].
    + intros l c s x y Hl Hx Hy. rewrite move_all_lookup, Hl. cbn.
      unfold moved. by rewrite Hx, Hy.
    + rewrite <- move_all_sum.
      apply translate_run; [by apply shape_move_all| |done].
      eapply Forall_impl; [exact Hplaced|]. intros; by apply placed_move_all.
    + by apply translate_run.
Qed.

(** What the loop of [descendants] yields for one child. *)
Lemma hasattr_descendants h l c s :
  h !! l = Some (OBox c s) →
  hasattr h (VRef l) "descendants" = Ok (issubclass c ParentBox).
Proof.
  intros H. unfold hasattr. rewrite H, resolve_descendants, descendants_not_slot.
  by destruct (issubclass c ParentBox).
Qed.

Lemma collect_kids {A B C} (v : A → B) (f : B → outcome (list C))
    (g : A → list C) xs :
  Forall (fun x => f (v x) = Ok (g x)) xs →
  collect (map v xs) f = Ok (concat (map g xs)).
Proof.
  induction 1 as [|x xs Hx _ IH]; [done|].
  cbn [collect map concat]. by rewrite Hx, IH.
Qed.

Lemma map_concat_map {A B} (f : A → B) (ls : list (list A)) :
  concat (map (map f) ls) = map f (concat ls).
Proof.
  induction ls as [|l ls IH]; [done|].
  cbn [map concat]. by rewrite map_app, IH.
Qed.

Lemma descendants_run t :
  ∀ h fuel, shape h t → (depth t ≤ fuel)%nat →
    (b <- hasattr h (VRef (root t)) "descendants" ;;
     if b then descendants fuel h (VRef (root t)) else Ok [VRef (root t)])
    = Ok (map VRef (preorder t)).
Proof.
  induction t as [l kids IH] using tree_ind'.
  intros h [|n] Hshape Hdepth; [cbn [depth] in Hdepth; lia|].
  cbn [preorder root].
  inversion Hshape as [l0 c s Hl Hc|l0 c s d kids0 Hl Hc Hch Hd Hkids]; subst;
    rewrite (hasattr_descendants _ _ _ _ Hl), Hc; cbn [obind]; [done|].
  cbn [descendants]. unfold lookup_method.
  rewrite Hl, resolve_descendants, Hc. cbn [obind].
  rewrite (getattr_set _ _ _ _ _ _ Hl Hch). cbn [obind].
  unfold truthy, iter. rewrite Hd. cbn [obind].
  assert (Hrest :
    collect (map (fun k => VRef (root k)) kids)
      (fun child => b <- hasattr h child "descendants" ;;
                    if b then descendants n h child else Ok [child])
    = Ok (concat (map (fun k => map VRef (preorder k)) kids))).
  { apply collect_kids. apply depth_kids in Hdepth.
    rewrite Forall_forall in IH, Hkids, Hdepth. apply Forall_forall.
    intros k Hk. apply IH; auto. }
  assert (Hitems :
    (if nonempty (map (fun k => VRef (root k)) kids)
     then Ok (map (fun k => VRef (root k)) kids) else Ok [])
    = Ok (map (fun k => VRef (root k)) kids)) by (by destruct kids).
  rewrite Hitems. cbn [obind]. rewrite Hrest. cbn [obind map].
  by rewrite <- map_concat_map, map_map.
Qed.

(** C5 (amended): [descendants] is a method of the container classes only.
    On a container it yields the box and everything below it in depth-first
    pre-order, leaf children yielded as they are: [[box; c1; g1; c2]] for
    children [c1] (holding [g1]) and [c2], and the box alone for a container
    without children.  On a leaf box the call raises [AttributeError]. *)
Theorem descendants_preorder :
  (∀ h t c s fuel,
     shape h t → h !! root t = Some (OBox c s) →
     issubclass c ParentBox = true → (depth t ≤ fuel)%nat →
     descendants fuel h (VRef (root t)) = Ok (map VRef (preorder t)))
  ∧ (∀ h b c1 g1 c2 c s fuel,
       shape h (Node b [Node c1 [Node g1 []]; Node c2 []]) →
       h !! b = Some (OBox c s) → issubclass c ParentBox = true →
       (3 ≤ fuel)%nat →
       descendants fuel h (VRef b) = Ok [VRef b; VRef c1; VRef g1; VRef c2])
  ∧ (∀ h b c s fuel,
       shape h (Node b []) →
       h !! b = Some (OBox c s) → issubclass c ParentBox = true →
       (1 ≤ fuel)%nat →
       descendants fuel h (VRef b) = Ok [VRef b])
  ∧ (∀ (h : heap) (l : loc) c s fuel,
       h !! l = Some (OBox c s) → issubclass c ParentBox = false →
       descendants (S fuel) h (VRef l) = Raise AttributeError).
Proof.
  assert (Hgen : ∀ h t c s fuel,
     shape h t → h !! root t = Some (OBox c s) →
     issubclass c ParentBox = true → (depth t ≤ fuel)%nat →
     descendants fuel h (VRef (root t)) = Ok (map VRef (preorder t))).
  { intros h t c s fuel Hshape Hl Hc Hdepth.
    pose proof (descendants_run t h fuel Hshape Hdepth) as Hrun.
    by rewrite (hasattr_descendants _ _ _ _ Hl), Hc in Hrun. }
  split; [exact Hgen|]. split; [|split].
  - intros h b c1 g1 c2 c s fuel Hshape Hl Hc Hfuel.
    apply (Hgen h _ c s fuel Hshape Hl Hc). cbn. lia.
  - intros h b c s fuel Hshape Hl Hc Hfuel.
    apply (Hgen h _ c s fuel Hshape Hl Hc). cbn. lia.
  - intros h l c s fuel Hl Hc. cbn [descendants]. unfold lookup_method.
    by rewrite Hl, resolve_descendants, Hc.
Qed.

(** ** Construction *)

Lemma fresh_lookup (h : heap) : h !! fresh (dom h) = None.
Proof. apply not_elem_of_dom, is_fresh. Qed.

Lemma alloc_ok o (h : heap) :
  alloc o h = (Ok (VRef (fresh (dom h))), <[fresh (dom h) := o]> h).
Proof. reflexivity. Qed.

Lemma fresh_ne (h : heap) (l : loc) o : h !! l = Some o → fresh (dom h) ≠ l.
Proof. intros H Heq. rewrite <- Heq in H. by rewrite fresh_lookup in H. Qed.

Lemma zero_edges_insert s name x :
  name ∉ edge_fields → zero_edges s → zero_edges (<[name := x]> s).
Proof.
  intros Hnot Hz. unfold zero_edges in *. rewrite Forall_forall in *.
  intros n Hn. rewrite lookup_insert_ne; [by apply Hz|]. by intros ->.
Qed.

Section Construction.

Variable style_for : pyval → pyval → gmap string pyval.
Variable computed_from_cascaded :
  pyval → gmap string pyval → gmap string pyval → gmap string pyval.
Variable computed_styles : pyval → string → option (gmap string pyval).

Lemma AnonymousBox_init_style_zero (h : heap) (l : loc) c s document element :
  h !! l = Some (OBox c s) →
  s !! "document" = Some document → s !! "element" = Some element →
  ∃ h' s', AnonymousBox_init_style style_for computed_from_cascaded (VRef l) h
           = (Ok tt, h')
    ∧ h' !! l = Some (OBox c s') ∧ zero_edges s'.
Proof.
  intros H Hdoc Hel. unfold AnonymousBox_init_style.
  unfold bind at 1, read at 1. rewrite (getattr_set _ _ _ _ _ _ H Hdoc).
  unfold bind at 1, read at 1. rewrite (getattr_set _ _ _ _ _ _ H Hel).
  unfold bind at 1. rewrite alloc_ok.
  pose proof (fresh_ne h l _ H) as Hne.
  set (l2 := fresh (dom h)) in *.
  erewrite bind_ok;
    [|apply setattr_box;
      [by rewrite lookup_insert_ne|apply Box_slots_all; vm_compute; repeat constructor]].
  do 11 (erewrite bind_ok;
    [|apply setattr_box;
      [apply lookup_insert_eq|apply Box_slots_all; vm_compute; repeat constructor]]).
  erewrite setattr_box;
      [|apply lookup_insert_eq|apply Box_slots_all; vm_compute; repeat constructor].
  do 2 eexists. split; [reflexivity|]. split; [apply lookup_insert_eq|].
  unfold zero_edges. vm_compute edge_fields.
  repeat (apply Forall_cons; split; [by simplify_map_eq|]). constructor.
Qed.

Lemma init_style_anonymous (h : heap) (l : loc) c s document element :
  h !! l = Some (OBox c s) →
  resolve c "_init_style" = Some AnonymousBox →
  s !! "document" = Some document → s !! "element" = Some element →
  ∃ h' s', init_style style_for computed_from_cascaded computed_styles
             (VRef l) h = (Ok tt, h')
    ∧ h' !! l = Some (OBox c s') ∧ zero_edges s'.
Proof.
  intros H Hres Hdoc Hel. unfold init_style.
  unfold bind at 1, read at 1, lookup_method. rewrite H, Hres.
  by eapply AnonymousBox_init_style_zero.
Qed.

Lemma Box_init_anonymous (h : heap) (l : loc) c s document element :
  h !! l = Some (OBox c s) →
  resolve c "_init_style" = Some AnonymousBox →
  ∃ h' s', Box_init style_for computed_from_cascaded computed_styles
             (VRef l) document element h = (Ok tt, h')
    ∧ h' !! l = Some (OBox c s') ∧ zero_edges s'.
Proof.
  intros H Hres. unfold Box_init.
  erewrite bind_ok;
    [|apply (setattr_box _ _ _ _ _ _ H), Box_slots_all; compute_done].
  do 2 (erewrite bind_ok;
    [|apply setattr_box; [apply lookup_insert_eq
                         |apply Box_slots_all; compute_done]]).
  match goal with
  | |- context [bind (init_style _ _ _ _) _ ?h0] =>
      destruct (init_style_anonymous h0 l c _ document element
                  (lookup_insert_eq _ _ _) Hres)
        as (h1 & s1 & Hrun & Hl1 & Hz); [by simplify_map_eq..|]
  end.
  erewrite bind_ok; [|exact Hrun].
  erewrite bind_ok;
    [|apply (setattr_box _ _ _ _ _ _ Hl1), Box_slots_all; compute_done].
  do 2 (erewrite bind_ok;
    [|apply setattr_box; [apply lookup_insert_eq
                         |apply Box_slots_all; compute_done]]).
  erewrite setattr_box;
    [|apply lookup_insert_eq|apply Box_slots_all; compute_done].
  do 2 eexists. split; [reflexivity|]. split; [apply lookup_insert_eq|].
  repeat (apply zero_edges_insert; [compute_done|]). done.
Qed.

(** A class whose [__init__] is that of [k], which calls [Box.__init__]
    through [super] and then assigns the slot [name]. *)
Lemma super_init_anonymous (h : heap) (l : loc) c s k document element :
  h !! l = Some (OBox c s) →
  resolve_super c k "__init__" = Some Box →
  resolve c "_init_style" = Some AnonymousBox →
  ∃ h' s', super_init style_for computed_from_cascaded computed_styles
             k (VRef l) document element h = (Ok tt, h')
    ∧ h' !! l = Some (OBox c s') ∧ zero_edges s'.
Proof.
  intros H Hsuper Hres. unfold super_init.
  unfold bind at 1, read at 1, type_of. rewrite H, Hsuper.
  by eapply Box_init_anonymous.
Qed.

Lemma empty_keeps_edges (h : heap) (l : loc) c s :
  h !! l = Some (OBox c s) → zero_edges s →
  ∃ h' s', empty (VRef l) h = (Ok tt, h')
    ∧ h' !! l = Some (OBox c s') ∧ zero_edges s'.
Proof.
  intros H Hz. unfold empty. unfold bind at 1. rewrite alloc_ok.
  pose proof (fresh_ne h l _ H) as Hne.
  erewrite setattr_box;
    [|by rewrite lookup_insert_ne|apply Box_slots_all; compute_done].
  do 2 eexists. split; [reflexivity|]. split; [apply lookup_insert_eq|].
  apply zero_edges_insert; [compute_done|done].
Qed.

Lemma setattr_keeps_edges (h : heap) (l : loc) c s name x :
  h !! l = Some (OBox c s) → zero_edges s →
  name ∈ all_slots c → name ∉ edge_fields →
  ∃ h' s', setattr (VRef l) name x h = (Ok tt, h')
    ∧ h' !! l = Some (OBox c s') ∧ zero_edges s'.
Proof.
  intros H Hz Hin Hnot. rewrite (setattr_box _ _ _ _ _ _ H Hin).
  do 2 eexists. split; [reflexivity|]. split; [apply lookup_insert_eq|].
  by apply zero_edges_insert.
Qed.

(** C8: right after the construction of an [AnonymousBlockBox], a [LineBox],
    a [TextBox] or an [ImageMarkerBox], the four margins, the four paddings
    and the four border widths of the new box are zero, whatever the style
    collaborators return. *)
Theorem anonymous_boxes_start_without_spacing (h : heap) document element extra :
  built_with_zero_edges AnonymousBlockBox
    (construct style_for computed_from_cascaded computed_styles
       AnonymousBlockBox [document; element] h)
  ∧ built_with_zero_edges LineBox
      (construct style_for computed_from_cascaded computed_styles
         LineBox [document; element] h)
  ∧ built_with_zero_edges TextBox
      (construct style_for computed_from_cascaded computed_styles
         TextBox [document; element; extra] h)
  ∧ built_with_zero_edges ImageMarkerBox
      (construct style_for computed_from_cascaded computed_styles
         ImageMarkerBox [document; element; extra] h).
Proof.
  pose proof (fresh_lookup h) as Hfresh.
  repeat split.
  - unfold construct. unfold bind at 1. rewrite alloc_ok.
    set (l := fresh (dom h)) in *.
    change (resolve AnonymousBlockBox "__init__") with (Some ParentBox).
    cbv iota.
    destruct (super_init_anonymous (<[l := OBox AnonymousBlockBox ∅]> h) l
                AnonymousBlockBox ∅ ParentBox document element
                (lookup_insert_eq _ _ _) eq_refl eq_refl)
      as (h1 & s1 & Hrun & Hl1 & Hz1).
    destruct (empty_keeps_edges h1 l _ _ Hl1 Hz1)
      as (h2 & s2 & Hrun2 & Hl2 & Hz2).
    unfold bind at 1. erewrite bind_ok; [|exact Hrun]. rewrite Hrun2.
    by exists l, s2.
  - unfold construct. unfold bind at 1. rewrite alloc_ok.
    set (l := fresh (dom h)) in *.
    change (resolve LineBox "__init__") with (Some ParentBox).
    cbv iota.
    destruct (super_init_anonymous (<[l := OBox LineBox ∅]> h) l
                LineBox ∅ ParentBox document element
                (lookup_insert_eq _ _ _) eq_refl eq_refl)
      as (h1 & s1 & Hrun & Hl1 & Hz1).
    destruct (empty_keeps_edges h1 l _ _ Hl1 Hz1)
      as (h2 & s2 & Hrun2 & Hl2 & Hz2).
    unfold bind at 1. erewrite bind_ok; [|exact Hrun]. rewrite Hrun2.
    by exists l, s2.
  - unfold construct. unfold bind at 1. rewrite alloc_ok.
    set (l := fresh (dom h)) in *.
    change (resolve TextBox "__init__") with (Some TextBox).
    cbv iota.
    destruct (super_init_anonymous (<[l := OBox TextBox ∅]> h) l
                TextBox ∅ TextBox document element
                (lookup_insert_eq _ _ _) eq_refl eq_refl)
      as (h1 & s1 & Hrun & Hl1 & Hz1).
    destruct (setattr_keeps_edges h1 l _ _ "text" extra Hl1 Hz1)
      as (h2 & s2 & Hrun2 & Hl2 & Hz2); [compute_done..|].
    unfold bind at 1. erewrite bind_ok; [|exact Hrun]. rewrite Hrun2.
    by exists l, s2.
  - unfold construct. unfold bind at 1. rewrite alloc_ok.
    set (l := fresh (dom h)) in *.
    change (resolve ImageMarkerBox "__init__") with (Some ReplacedBox).
    cbv iota.
    destruct (super_init_anonymous (<[l := OBox ImageMarkerBox ∅]> h) l
                ImageMarkerBox ∅ ReplacedBox document element
                (lookup_insert_eq _ _ _) eq_refl eq_refl)
      as (h1 & s1 & Hrun & Hl1 & Hz1).
    destruct (setattr_keeps_edges h1 l _ _ "replacement" extra Hl1 Hz1)
      as (h2 & s2 & Hrun2 & Hl2 & Hz2); [compute_done..|].
    unfold bind at 1. erewrite bind_ok; [|exact Hrun]. rewrite Hrun2.
    by exists l, s2.
Qed.

End Construction.

(** ** Copy *)

Lemma copy_slots_lookup s names :
  ∀ t k, (∀ k, t !! k = None ∨ t !! k = s !! k) →
    copy_slots s names t !! k
    = if decide (k ∈ names) then s !! k else t !! k.
Proof.
  induction names as [|n names IH]; intros t k Ht.
  - cbn. by rewrite decide_False by apply not_elem_of_nil.
  - cbn [copy_slots foldl].
    fold (copy_slots s names
            (match s !! n with Some v => <[n:=v]> t | None => t end)).
    rewrite IH.
    + destruct (decide (k ∈ names)) as [Hin|Hnot].
      * by rewrite decide_True by (by right).
      * destruct (decide (k = n)) as [->|Hne].
        -- rewrite decide_True by (by left).
           destruct (s !! n) eqn:E; [by rewrite lookup_insert_eq|].
           destruct (Ht n) as [->| ->]; done.
        -- rewrite decide_False by (rewrite elem_of_cons; tauto).
           destruct (s !! n); [by rewrite lookup_insert_ne|done].
    + intros k'. destruct (s !! n) eqn:E; [|done].
      destruct (decide (k' = n)) as [->|Hne].
      * right. by rewrite lookup_insert_eq.
      * by rewrite lookup_insert_ne.
Qed.

Lemma copy_slots_all c s :
  slots_declared c s → copy_slots s (all_slots c) ∅ = s.
Proof.
  intros Hwf. apply map_eq. intros k.
  rewrite copy_slots_lookup by (intros; left; apply lookup_empty).
  destruct (decide (k ∈ all_slots c)) as [|Hnot]; [done|].
  rewrite lookup_empty. symmetry. apply eq_None_not_Some. eauto.
Qed.

Lemma copy_loop c s names :
  ∀ (h : heap) (l l' : loc) t,
    h !! l = Some (OBox c s) → h !! l' = Some (OBox c t) → l ≠ l' →
    (∀ n, n ∈ names → n ∈ all_slots c) →
    for_each names (copy_slot (VRef l) (VRef l')) h
    = (Ok tt, <[l' := OBox c (copy_slots s names t)]> h).
Proof.
  induction names as [|n names IH]; intros h l l' t Hl Hl' Hne Hin.
  - cbn. by rewrite insert_id.
  - cbn [for_each copy_slots foldl].
    fold (copy_slots s names
            (match s !! n with Some v => <[n:=v]> t | None => t end)).
    unfold bind at 1, copy_slot at 1.
    rewrite (getattr_box _ _ _ _ _ Hl).
    destruct (s !! n) as [v|] eqn:E.
    + rewrite (setattr_box _ _ _ _ _ _ Hl') by (apply Hin; by left).
      rewrite (IH _ l l' (<[n:=v]> t));
        [by rewrite insert_insert_eq
        |by rewrite lookup_insert_ne
        |apply lookup_insert_eq
        |done
        |intros; apply Hin; by right].
    + apply IH; [done|done|done|intros; apply Hin; by right].
Qed.

(** C6: [copy] returns a new box of the same class whose slots equal the
    original's (the [children] and [parent] slots hold the same references),
    except that its [style] slot names a new style bag with the same
    entries; assigning an entry of the copy's bag leaves the original's bag
    and the original box as they were. *)
Theorem copy_box (h : heap) (l ls : loc) c s e :
  h !! l = Some (OBox c s) →
  s !! "style" = Some (VRef ls) →
  h !! ls = Some (OStyle e) →
  slots_declared c s →
  ∃ l' ls' h' s',
    copy (VRef l) h = (Ok (VRef l'), h')
    ∧ h !! l' = None ∧ h !! ls' = None ∧ l' ≠ ls'
    ∧ h' !! l' = Some (OBox c s')
    ∧ s' !! "style" = Some (VRef ls')
    ∧ (∀ name, name ≠ "style" → s' !! name = s !! name)
    ∧ s' !! "children" = s !! "children"
    ∧ s' !! "parent" = s !! "parent"
    ∧ h' !! ls' = Some (OStyle e)
    ∧ ls' ≠ ls
    ∧ (∀ l0, l0 ≠ l' → l0 ≠ ls' → h' !! l0 = h !! l0)
    ∧ (∀ key x, ∃ h'',
         setitem (VRef ls') key x h' = (Ok tt, h'')
         ∧ h'' !! ls' = Some (OStyle (<[key := x]> e))
         ∧ h'' !! ls = Some (OStyle e)
         ∧ h'' !! l = Some (OBox c s)).
Proof.
  intros Hl Hs Hls Hwf.
  pose proof (fresh_lookup h) as Hfresh.
  pose proof (fresh_ne h l _ Hl) as Hne.
  pose proof (fresh_ne h ls _ Hls) as Hne_s.
  set (l' := fresh (dom h)) in *.
  set (h1 := <[l' := OBox c s]> h).
  assert (Hl1 : h1 !! l = Some (OBox c s)) by (by unfold h1; rewrite lookup_insert_ne).
  assert (Hls1 : h1 !! ls = Some (OStyle e)) by (by unfold h1; rewrite lookup_insert_ne).
  pose proof (fresh_lookup h1) as Hfresh1.
  pose proof (fresh_ne h1 l _ Hl1) as Hne1.
  pose proof (fresh_ne h1 ls _ Hls1) as Hne_s1.
  assert (Hne2 : fresh (dom h1) ≠ l')
    by (apply (fresh_ne h1 l' (OBox c s)); unfold h1; apply lookup_insert_eq).
  set (ls' := fresh (dom h1)) in *.
  assert (Hrun : copy (VRef l) h
    = (Ok (VRef l'),
       <[l' := OBox c (<["style" := VRef ls']> s)]> (<[ls' := OStyle e]> h1))).
  { unfold copy. unfold bind at 1, read at 1, type_of. rewrite Hl.
    unfold bind at 1. rewrite alloc_ok. fold l'.
    erewrite bind_ok;
      [|apply (copy_loop c s (all_slots c) _ l l' ∅);
        [by rewrite lookup_insert_ne|apply lookup_insert_eq|done|done]].
    rewrite insert_insert_eq, (copy_slots_all c s Hwf). fold h1.
    unfold bind at 1, read at 1. rewrite (getattr_set _ _ _ _ _ _ Hl1 Hs).
    unfold bind at 1, style_copy. rewrite Hls1, alloc_ok. fold ls'.
    erewrite bind_ok;
      [|apply setattr_box;
        [rewrite lookup_insert_ne by done; unfold h1; apply lookup_insert_eq
        |apply Box_slots_all; compute_done]].
    reflexivity. }
  exists l', ls'. eexists. exists (<["style" := VRef ls']> s).
  split; [exact Hrun|].
  split; [done|].
  split; [by unfold h1 in Hfresh1; rewrite lookup_insert_ne in Hfresh1|].
  split; [done|].
  split; [apply lookup_insert_eq|].
  split; [apply lookup_insert_eq|].
  split; [intros; by rewrite lookup_insert_ne|].
  split; [by rewrite lookup_insert_ne|].
  split; [by rewrite lookup_insert_ne|].
  split; [by rewrite lookup_insert_ne, lookup_insert_eq|].
  split; [done|].
  split; [intros l0 H1 H2; unfold h1; by rewrite !lookup_insert_ne|].
  intros key x. eexists. split.
  - apply setitem_style. by rewrite lookup_insert_ne, lookup_insert_eq.
  - split; [apply lookup_insert_eq|].
    split; unfold h1; by rewrite !lookup_insert_ne.
Qed.

(** ** Deciding the predicates on a concrete store *)

Lemma class_slots_at (h : heap) (l : loc) c :
  class_at h l = Some c → h !! l = Some (OBox c (slots_at h l)).
Proof.
  unfold class_at, slots_at. destruct (h !! l) as [[]|]; congruence.
Qed.

Lemma is_box_at (h : heap) (l : loc) :
  is_box h l = true → ∃ c, h !! l = Some (OBox c (slots_at h l)).
Proof.
  unfold is_box. intros H. apply bool_decide_eq_true_1 in H as [c Hc].
  exists c. by apply class_slots_at.
Qed.

Lemma parent_of_check h l p : parent_of_ok h l p = true → parent_of h l p.
Proof.
  unfold parent_of_ok. rewrite !andb_true_iff, bool_decide_eq_true.
  intros [[Hl Hp] Hs].
  apply is_box_at in Hl as [c Hl]. apply is_box_at in Hp as [c' Hp].
  by exists c, (slots_at h l), c', (slots_at h p).
Qed.

Lemma is_page_check h l : is_page_ok h l = true → is_page h l.
Proof.
  unfold is_page_ok. destruct (class_at h l) as [c|] eqn:E; [|done].
  intros Hc. exists c, (slots_at h l). split; [by apply class_slots_at|done].
Qed.

Lemma not_page_check h l : not_page_ok h l = true → not_page h l.
Proof.
  unfold not_page_ok. destruct (class_at h l) as [c|] eqn:E; [|done].
  rewrite negb_true_iff.
  intros Hc. exists c, (slots_at h l). split; [by apply class_slots_at|done].
Qed.

Lemma has_size_check h l w x : has_size_ok h l w x = true → has_size h l w x.
Proof.
  unfold has_size_ok. rewrite !andb_true_iff, !bool_decide_eq_true.
  intros [[Hl Hw] Hx]. apply is_box_at in Hl as [c Hl].
  by exists c, (slots_at h l).
Qed.

Lemma placed_check h l : placed_ok h l = true → placed h l.
Proof.
  unfold placed_ok. rewrite andb_true_iff. intros [Hl Hxy].
  apply is_box_at in Hl as [c Hl].
  destruct (slots_at h l !! "position_x") as [[|x| | | |]|] eqn:Ex; try done.
  destruct (slots_at h l !! "position_y") as [[|y| | | |]|] eqn:Ey; try done.
  by exists c, (slots_at h l), x, y.
Qed.

Lemma shape_check h t : shape_ok h t = true → shape h t.
Proof.
  induction t as [l kids IH] using tree_ind'. cbn [shape_ok].
  destruct (h !! l) as [[c s| |]|] eqn:El; try done.
  destruct (issubclass c ParentBox) eqn:Ec.
  - destruct (s !! "children") as [[| | | |d|]|] eqn:Ech; try done.
    rewrite andb_true_iff, bool_decide_eq_true, forallb_forall.
    intros [Hd Hkids]. eapply shape_parent; [done..|].
    rewrite Forall_forall in IH. apply Forall_forall.
    intros k Hk. apply IH; [done|]. apply Hkids. by apply list_elem_of_In.
  - rewrite negb_true_iff. destruct kids; [|done]. intros _.
    by eapply shape_leaf.
Qed.

(** ** The properties at sample stores *)

Ltac by_computation := vm_compute; reflexivity.

(** The identities on a block box 100 by 50 whose twelve edges are the
    integers 1 to 12, and the sums of the box of [float_store]. *)
Lemma geometry_identities_witness :
  (∃ pw bw mw hs ph bh mh vs,
    (padding_width resolved_store (VRef 1) = Ok (VNum pw)
     ∧ border_width resolved_store (VRef 1) = Ok (VNum bw)
     ∧ margin_width resolved_store (VRef 1) = Ok (VNum mw)
     ∧ horizontal_surroundings resolved_store (VRef 1) = Ok (VNum hs)
     ∧ mw = bw + 4 + 2
     ∧ bw + 4 + 2 = pw + 12 + 10 + 4 + 2
     ∧ pw + 12 + 10 + 4 + 2 = 100 + (8 + 6 + 12 + 10 + 4 + 2)
     ∧ hs = mw - 100)
    ∧ (padding_height resolved_store (VRef 1) = Ok (VNum ph)
       ∧ border_height resolved_store (VRef 1) = Ok (VNum bh)
       ∧ margin_height resolved_store (VRef 1) = Ok (VNum mh)
       ∧ vertical_surroundings resolved_store (VRef 1) = Ok (VNum vs)
       ∧ mh = bh + 1 + 3
       ∧ bh + 1 + 3 = ph + 9 + 11 + 1 + 3
       ∧ ph + 9 + 11 + 1 + 3 = 50 + (5 + 7 + 9 + 11 + 1 + 3)
       ∧ vs = mh - 50))
  ∧ padding_width float_store (VRef 1)
    = Ok (VFloat (float_sum (float_ratio 1 10)
                    [float_ratio 2 10; float_ratio 3 10]))
  ∧ margin_width float_store (VRef 1)
    = (bw <- border_width float_store (VRef 1) ;;
       sum_values bw [VFloat (float_ratio 0 1); VFloat (float_ratio 0 1)]).
Proof.
  destruct (geometry_identities resolved_store 1 BlockBox resolved_slots)
    as (_ & Hint & _); [by_computation|].
  destruct (geometry_identities float_store 1 BlockBox float_slots)
    as (Hany & _ & Hfloat); [by_computation|].
  split; [|split].
  - apply (Hint 100 50 5 6 7 8 9 10 11 12 1 2 3 4).
    unfold fields. repeat split; by_computation.
  - destruct (Hfloat (float_ratio 1 10) (float_ratio 1 10)
                (float_ratio 2 10) (float_ratio 3 10) (float_ratio 3 10)
                (float_ratio 2 10) (float_ratio 0 1) (float_ratio 0 1)
                (float_ratio 0 1) (float_ratio 0 1) (float_ratio 0 1)
                (float_ratio 0 1) (float_ratio 0 1) (float_ratio 0 1))
      as ((Hpw & _) & _); [|exact Hpw].
    unfold fields. repeat split; by_computation.
  - destruct (Hany (VFloat (float_ratio 1 10)) (VFloat (float_ratio 1 10))
                (VFloat (float_ratio 2 10)) (VFloat (float_ratio 3 10))
                (VFloat (float_ratio 3 10)) (VFloat (float_ratio 2 10))
                (VFloat (float_ratio 0 1)) (VFloat (float_ratio 0 1))
                (VFloat (float_ratio 0 1)) (VFloat (float_ratio 0 1))
                (VFloat (float_ratio 0 1)) (VFloat (float_ratio 0 1))
                (VFloat (float_ratio 0 1)) (VFloat (float_ratio 0 1)))
      as ((_ & _ & Hmw & _) & _); [|exact Hmw].
    unfold fields. repeat split; by_computation.
Defined.

(** With floats the sums round at each step: on the box of [float_store],
    0.1 wide with paddings 0.2 and 0.3, [margin_width()] is
    0.6000000000000001 while the width plus the six edges is 0.6, and
    [horizontal_surroundings()] is 0.5 while [margin_width() - width] is
    0.5000000000000001. *)
Lemma margin_width_of_float_box :
  getattr float_store (VRef 1) "width"
    = Ok (VFloat (S754_finite false 7205759403792794 (-56)))
  ∧ margin_width float_store (VRef 1)
    = Ok (VFloat (S754_finite false 5404319552844596 (-53)))
  ∧ horizontal_surroundings float_store (VRef 1)
    = Ok (VFloat (S754_finite false 4503599627370496 (-53)))
  ∧ float_add (S754_finite false 7205759403792794 (-56))
      (S754_finite false 4503599627370496 (-53))
    = S754_finite false 5404319552844595 (-53)
  ∧ float_sub (S754_finite false 5404319552844596 (-53))
      (S754_finite false 7205759403792794 (-56))
    = S754_finite false 4503599627370497 (-53)
  ∧ float_eqb (S754_finite false 5404319552844596 (-53))
      (S754_finite false 5404319552844595 (-53)) = false
  ∧ float_eqb (S754_finite false 4503599627370496 (-53))
      (S754_finite false 4503599627370497 (-53)) = false.
Proof. repeat split; by_computation. Qed.

(** Resetting the left side of that box: its right margin and the position
    entry of its style are as before. *)
Lemma reset_spacing_frame_witness :
  ∃ h', reset_spacing (VRef 1) "left" resolved_store = (Ok tt, h')
    ∧ getattr h' (VRef 1) "margin_left" = Ok (VNum 0)
    ∧ getattr h' (VRef 1) "padding_left" = Ok (VNum 0)
    ∧ getattr h' (VRef 1) "border_left_width" = Ok (VNum 0)
    ∧ getattr h' (VRef 1) "margin_right" = Ok (VNum 2)
    ∧ getattr h' (VRef 2) "margin-left" = Ok VNone
    ∧ getattr h' (VRef 2) "position" = Ok (VStr "absolute").
Proof.
  destruct (reset_spacing_frame resolved_store 1 BlockBox resolved_slots 2
              resolved_style "left")
    as (h' & Hrun & Hbox & Hstyle & _); [by_computation..|compute_done|].
  exists h'. split; [exact Hrun|].
  unfold getattr. rewrite Hbox, Hstyle. repeat split; by_computation.
Defined.

(** A floated, absolutely positioned box is not in normal flow. *)
Lemma positioning_predicates_witness :
  ∃ f a n,
    is_floated sample_keyword resolved_store (VRef 1) = Ok f
    ∧ is_absolutely_positioned sample_keyword resolved_store (VRef 1) = Ok a
    ∧ is_in_normal_flow sample_keyword resolved_store (VRef 1) = Ok n
    ∧ (a = true ↔ Some "absolute" = Some "absolute"
                   ∨ Some "absolute" = Some "fixed")
    ∧ (f = true ↔ Some "left" ≠ Some "none")
    ∧ (n = true ↔ f = false ∧ a = false).
Proof.
  apply (positioning_predicates sample_keyword resolved_store (VRef 1)
           (VRef 2) (VStr "left") (VStr "absolute")
           (Some "left") (Some "absolute")); by_computation.
Defined.

(** In [page_store]: the root block takes the page's content size, the static
    block its parent's, and the absolute text box the size of the relative
    block two levels up. *)
Lemma containing_block_resolution_witness :
  containing_block_size sample_keyword 0 page_store (VRef 2)
    = Ok (VNum 500, VNum 700)
  ∧ containing_block_size sample_keyword 0 page_store (VRef 3)
    = Ok (VNum 400, VNum 600)
  ∧ containing_block_size sample_keyword 2 page_store (VRef 5)
    = Ok (VNum 400, VNum 600).
Proof.
  split; [|split].
  - destruct (containing_block_resolution sample_keyword page_store 2
                BlockBox (slots_at page_store 2) 1) as (Hpage & _ & _);
      [by_computation..|].
    apply Hpage; [apply is_page_check|apply has_size_check]; by_computation.
  - destruct (containing_block_resolution sample_keyword page_store 3
                BlockBox (slots_at page_store 3) 2) as (_ & Hstatic & _);
      [by_computation..|].
    apply (Hstatic (Some "static"));
      [apply not_page_check; by_computation|by_computation|compute_done
      |apply has_size_check; by_computation].
  - destruct (containing_block_resolution sample_keyword page_store 5
                TextBox (slots_at page_store 5) 3) as (_ & _ & Habsolute);
      [by_computation..|].
    apply (Habsolute 2%nat 2%positive);
      [apply not_page_check; by_computation|by_computation| |
      |apply has_size_check; by_computation|reflexivity].
    + apply walk_step with (p := 3%positive);
        [apply parent_of_check; by_computation| |].
      * split; [apply not_page_check; by_computation|].
        exists (Some "static"). split; [by_computation|compute_done].
      * apply walk_here. apply parent_of_check; by_computation.
    + left. exists (Some "relative"), (Some "block").
      split; [by_computation|]. split; [compute_done|by_computation].
Defined.

(** In [page_store], the fixed inline box three levels below the page takes
    the page's content size. *)
Lemma fixed_containing_block_witness :
  containing_block_size sample_keyword 3 page_store (VRef 4)
  = Ok (VNum 500, VNum 700).
Proof.
  destruct (fixed_containing_block sample_keyword page_store 4
              InlineBox (slots_at page_store 4) 3) as (Hpage & _);
    [by_computation|by_computation|by_computation
    |apply not_page_check; by_computation|by_computation|].
  apply (Hpage 3%nat 1%positive);
    [|apply is_page_check; by_computation
     |apply has_size_check; by_computation|reflexivity].
  apply walk_step with (p := 3%positive);
    [apply parent_of_check; by_computation
    |apply not_page_check; by_computation|].
  apply walk_step with (p := 2%positive);
    [apply parent_of_check; by_computation
    |apply not_page_check; by_computation|].
  apply walk_here. apply parent_of_check; by_computation.
Defined.

(** The page of [page_store] has outer size 595 by 842 and content size 500 by
    700; the fixed box below it resolves to the content size, not to the
    outer size. *)
Lemma fixed_box_gets_page_content_size :
  keyword_of sample_keyword page_store (VRef 4) "position" = Ok (Some "fixed")
  ∧ isinstance page_store (VRef 3) PageBox = Ok false
  ∧ PageBox_containing_block_size page_store (VRef 1)
    = Ok (VNum 595, VNum 842)
  ∧ containing_block_size sample_keyword 10 page_store (VRef 4)
    = Ok (VNum 500, VNum 700)
  ∧ containing_block_size sample_keyword 10 page_store (VRef 4)
    ≠ Ok (VNum 595, VNum 842).
Proof. repeat split; try by_computation. vm_compute. discriminate. Qed.

(** Deciding [slots_declared] on a concrete box. *)
Lemma slots_declared_check c s :
  forallb (fun kv => bool_decide (kv.1 ∈ all_slots c)) (map_to_list s) = true →
  slots_declared c s.
Proof.
  rewrite forallb_forall. intros Hall name [v Hv].
  apply elem_of_map_to_list, list_elem_of_In, Hall in Hv.
  by apply bool_decide_eq_true_1 in Hv.
Qed.

(** Translating the root block of [page_store], whose boxes hold integers:
    the text box at the bottom of the tree moves with it and two
    translations add up; translating the block of [float_store] by 0.1 adds
    0.1 to the position of its text box in one rounded addition. *)
Lemma translate_subtree_witness :
  (∃ h1 h2,
     translate 4 (VRef 2) (VNum 1) (VNum 2) page_store = (Ok tt, h1)
     ∧ getattr h1 (VRef 6) "position_x" = Ok (VNum (65 + 1 * 1))
     ∧ getattr h1 (VRef 6) "position_y" = Ok (VNum (85 + 1 * 2))
     ∧ translate 4 (VRef 2) (VNum 3) (VNum 4) h1 = (Ok tt, h2)
     ∧ translate 4 (VRef 2) (VNum (1 + 3)) (VNum (2 + 4)) page_store
       = (Ok tt, h2))
  ∧ ∃ h3,
      translate 2 (VRef 1) (VFloat (float_ratio 1 10))
        (VFloat (float_ratio 1 10)) float_store = (Ok tt, h3)
      ∧ getattr h3 (VRef 4) "position_x"
        = Ok (VFloat (float_add (float_ratio 50 1) (float_ratio 1 10)))
      ∧ h3 !! 2%positive = float_store !! 2%positive.
Proof.
  split.
  - destruct (translate_subtree page_store page_tree 4) as (_ & Hint).
    { apply shape_check. by_computation. }
    { vm_compute. lia. }
    destruct (Hint) with (dx1 := 1) (dy1 := 2) (dx2 := 3) (dy2 := 4)
      as (h1 & h2 & Hrun & Hin & Hrun2 & Hsum).
    { change (preorder page_tree) with [2; 3; 4; 6; 5]%positive.
      repeat (apply Forall_cons; split; [apply placed_check; by_computation|]).
      by apply Forall_nil. }
    exists h1, h2. split; [exact Hrun|].
    pose proof (Hin 6%positive TextBox (slots_at page_store 6) 65 85) as H6.
    unfold getattr. rewrite H6 by by_computation.
    split; [by_computation|]. split; [by_computation|]. by split.
  - destruct (translate_subtree float_store float_tree 2) as (Hany & _).
    { apply shape_check. by_computation. }
    { vm_compute. lia. }
    destruct (Hany (VFloat (float_ratio 1 10)) (VFloat (float_ratio 1 10)))
      as (h3 & Hrun & _ & Honce & Hout).
    { change (preorder float_tree) with [1; 4]%positive.
      apply Forall_cons. split.
      { exists BlockBox, (slots_at float_store 1),
          (VFloat (float_ratio 50 1)), (VFloat (float_ratio 50 1)).
        do 2 eexists. repeat split; by_computation. }
      apply Forall_cons. split; [|by apply Forall_nil].
      exists TextBox, (slots_at float_store 4),
        (VFloat (float_ratio 50 1)), (VFloat (float_ratio 50 1)).
      do 2 eexists. repeat split; by_computation. }
    exists h3. split; [exact Hrun|].
    destruct (Honce 4%positive TextBox (slots_at float_store 4)
                (VFloat (float_ratio 50 1)) (VFloat (float_ratio 50 1)))
      as (px' & py' & Hx & _ & H4); [by_computation..|].
    cbn [py_add] in Hx. injection Hx as <-.
    unfold getattr. rewrite H4.
    split; [by_computation|]. apply Hout. compute_done.
Defined.

(** Two translations do not add up on floats: moving the block of
    [float_store] by 0.1 and then by 0.2 takes its text box from 50.0 to
    50.300000000000004, while moving it once by [0.1 + 0.2] takes it to
    50.3.  And a box is moved once each time it is listed: in
    [twice_store] the text box listed twice moves by 2. *)
Lemma float_translations_do_not_add_up :
  (translate 2 (VRef 1) (VFloat (float_ratio 2 10))
     (VFloat (float_ratio 2 10))
     (translate 2 (VRef 1) (VFloat (float_ratio 1 10))
        (VFloat (float_ratio 1 10)) float_store).2).1 = Ok tt
  ∧ getattr
      (translate 2 (VRef 1) (VFloat (float_ratio 2 10))
         (VFloat (float_ratio 2 10))
         (translate 2 (VRef 1) (VFloat (float_ratio 1 10))
            (VFloat (float_ratio 1 10)) float_store).2).2
      (VRef 4) "position_x"
    = Ok (VFloat (S754_finite false 7079095664272999 (-47)))
  ∧ py_add (VFloat (float_ratio 1 10)) (VFloat (float_ratio 2 10))
    = Ok (VFloat (S754_finite false 5404319552844596 (-54)))
  ∧ (translate 2 (VRef 1)
       (VFloat (S754_finite false 5404319552844596 (-54)))
       (VFloat (S754_finite false 5404319552844596 (-54))) float_store).1
    = Ok tt
  ∧ getattr
      (translate 2 (VRef 1)
         (VFloat (S754_finite false 5404319552844596 (-54)))
         (VFloat (S754_finite false 5404319552844596 (-54))) float_store).2
      (VRef 4) "position_x"
    = Ok (VFloat (S754_finite false 7079095664272998 (-47)))
  ∧ float_eqb (S754_finite false 7079095664272999 (-47))
      (S754_finite false 7079095664272998 (-47)) = false
  ∧ (translate 2 (VRef 3) (VNum 1) (VNum 2) twice_store).1 = Ok tt
  ∧ getattr twice_store (VRef 5) "position_x" = Ok (VNum 65)
  ∧ getattr (translate 2 (VRef 3) (VNum 1) (VNum 2) twice_store).2
      (VRef 5) "position_x" = Ok (VNum (65 + 2)).
Proof. repeat split; by_computation. Qed.

(** In [page_store], the static block yields itself, its inline child, that
    child's text box, then its second child; the text box has no such
    method. *)
Lemma descendants_preorder_witness :
  descendants 3 page_store (VRef 3) = Ok [VRef 3; VRef 4; VRef 6; VRef 5]
  ∧ descendants 1 page_store (VRef 6) = Raise AttributeError.
Proof.
  destruct descendants_preorder as (_ & Hexample & _ & Hleaf).
  split.
  - apply (Hexample page_store 3%positive 4%positive 6%positive 5%positive
             BlockBox (slots_at page_store 3));
      [apply shape_check; by_computation|by_computation|by_computation|lia].
  - apply (Hleaf page_store 6%positive TextBox (slots_at page_store 6));
      by_computation.
Defined.

(** A text box is a leaf: calling [descendants] on it raises instead of
    yielding the box. *)
Lemma leaf_box_has_no_descendants_method :
  type_of page_store (VRef 5) = Ok TextBox
  ∧ hasattr page_store (VRef 5) "descendants" = Ok false
  ∧ descendants 10 page_store (VRef 5) = Raise AttributeError
  ∧ descendants 10 page_store (VRef 5) ≠ Ok [VRef 5].
Proof. repeat split; try by_computation. vm_compute. discriminate. Qed.

(** Copying the box of [resolved_store], then changing the float entry of the
    copy's style. *)
Lemma copy_box_witness :
  ∃ l' ls' h',
    copy (VRef 1) resolved_store = (Ok (VRef l'), h')
    ∧ resolved_store !! l' = None
    ∧ type_of h' (VRef l') = Ok BlockBox
    ∧ getattr h' (VRef l') "children" = Ok (VRef 3)
    ∧ getattr h' (VRef l') "width" = Ok (VNum 100)
    ∧ getattr h' (VRef l') "style" = Ok (VRef ls')
    ∧ ls' ≠ 2%positive
    ∧ h' !! ls' = Some (OStyle resolved_style)
    ∧ ∃ h'', setitem (VRef ls') "float" (VStr "none") h' = (Ok tt, h'')
             ∧ h'' !! 2%positive = Some (OStyle resolved_style).
Proof.
  destruct (copy_box resolved_store 1 2 BlockBox resolved_slots resolved_style)
    as (l' & ls' & h' & s' & Hrun & Hnew & _ & _ & Hl' & Hst & Hsame & Hch & _
        & Hls' & Hne & _ & Hmut).
  - by_computation.
  - by_computation.
  - by_computation.
  - apply slots_declared_check. by_computation.
  - exists l', ls', h'. split; [exact Hrun|]. split; [exact Hnew|].
    unfold type_of, getattr. rewrite Hl', Hst, Hch, (Hsame "width") by done.
    split; [reflexivity|]. split; [by_computation|]. split; [by_computation|].
    split; [reflexivity|]. split; [exact Hne|]. split; [exact Hls'|].
    destruct (Hmut "float" (VStr "none")) as (h'' & Hset & _ & Hold & _).
    exists h''. split; [exact Hset|exact Hold].
Defined.


(** * Further properties *)

(** ** Corner positions *)

(** X1: each corner is the position plus the edges before it, added left to
    right in Python's arithmetic: [border_box_x() == position_x +
    margin_left], [padding_box_x() == border_box_x() + border_left_width]
    and [content_box_x() == position_x + margin_left + padding_left +
    border_left_width], whatever numbers the slots hold; when they hold
    integers the boxes nest exactly: the content box starts one left padding
    after the padding box, and the content box, its width and the three
    right edges end where the margin box ends.  The same from top to
    bottom. *)
Theorem corner_positions_nest h l c s :
  h !! l = Some (OBox c s) →
  (∀ px py pt pl bt bl mt ml : pyval,
     s !! "position_x" = Some px → s !! "position_y" = Some py →
     s !! "padding_top" = Some pt → s !! "padding_left" = Some pl →
     s !! "border_top_width" = Some bt → s !! "border_left_width" = Some bl →
     s !! "margin_top" = Some mt → s !! "margin_left" = Some ml →
     (border_box_x h (VRef l) = py_add px ml
      ∧ padding_box_x h (VRef l)
        = (bx <- border_box_x h (VRef l) ;; py_add bx bl)
      ∧ content_box_x h (VRef l) = sum_values px [ml; pl; bl])
     ∧ (border_box_y h (VRef l) = py_add py mt
        ∧ padding_box_y h (VRef l)
          = (by_ <- border_box_y h (VRef l) ;; py_add by_ bt)
        ∧ content_box_y h (VRef l) = sum_values py [mt; pt; bt]))
  ∧ (∀ px py w x pt pr pb pl bt br bb bl mt mr mb ml : Z,
       s !! "position_x" = Some (VNum px) →
       s !! "position_y" = Some (VNum py) →
       fields VNum s w x pt pr pb pl bt br bb bl mt mr mb ml →
       ∃ bx pbx cx mw by_ pby cy mh,
         (border_box_x h (VRef l) = Ok (VNum bx)
          ∧ padding_box_x h (VRef l) = Ok (VNum pbx)
          ∧ content_box_x h (VRef l) = Ok (VNum cx)
          ∧ margin_width h (VRef l) = Ok (VNum mw)
          ∧ bx = px + ml ∧ pbx = bx + bl ∧ cx = pbx + pl
          ∧ cx + w + pr + br + mr = px + mw)
         ∧ (border_box_y h (VRef l) = Ok (VNum by_)
            ∧ padding_box_y h (VRef l) = Ok (VNum pby)
            ∧ content_box_y h (VRef l) = Ok (VNum cy)
            ∧ margin_height h (VRef l) = Ok (VNum mh)
            ∧ by_ = py + mt ∧ pby = by_ + bt ∧ cy = pby + pt
            ∧ cy + x + pb + bb + mb = py + mh)).
Proof.
  intros H. split.
  - intros px py pt pl bt bl mt ml Hpx Hpy Hpt Hpl Hbt Hbl Hmt Hml.
    unfold border_box_x, padding_box_x, content_box_x, border_box_y,
      padding_box_y, content_box_y, add_attrs.
    rewrite !(getattr_box _ _ _ _ _ H).
    rewrite Hpx, Hpy, Hpt, Hpl, Hbt, Hbl, Hmt, Hml.
    cbn [obind sum_values].
    repeat split;
      repeat match goal with
             | |- context [py_add ?a ?b] =>
                 destruct (py_add a b); cbn [obind]; try reflexivity
             end.
  - intros px py w x pt pr pb pl bt br bb bl mt mr mb ml Hpx Hpy
      (Hw & Hx & Hpt & Hpr & Hpb & Hpl & Hbt & Hbr & Hbb & Hbl & Hmt & Hmr
       & Hmb & Hml).
    unfold border_box_x, padding_box_x, content_box_x, border_box_y,
      padding_box_y, content_box_y, margin_width, margin_height, border_width,
      border_height, padding_width, padding_height, add_attrs.
    rewrite !(getattr_box _ _ _ _ _ H).
    rewrite Hpx, Hpy, Hw, Hx, Hpt, Hpr, Hpb, Hpl, Hbt, Hbr, Hbb, Hbl, Hmt, Hmr,
      Hmb, Hml.
    simpl.
    do 8 eexists. repeat split; try reflexivity; lia.
Qed.

(** On the box of [resolved_store], placed at (10, 20), and on the box of
    [float_store]. *)
Lemma corner_positions_nest_witness :
  content_box_x resolved_store (VRef 1) = Ok (VNum (10 + 4 + 12 + 8))
  ∧ content_box_y resolved_store (VRef 1) = Ok (VNum (20 + 1 + 9 + 5))
  ∧ padding_box_x float_store (VRef 1)
    = (bx <- border_box_x float_store (VRef 1) ;;
       py_add bx (VFloat (float_ratio 0 1))).
Proof.
  destruct (corner_positions_nest resolved_store 1 BlockBox resolved_slots)
    as (_ & Hint); [by_computation|].
  destruct (Hint 10 20 100 50 5 6 7 8 9 10 11 12 1 2 3 4)
    as (bx & pbx & cx & mw & by_ & pby & cy & mh & Hx & Hy);
    [by_computation|by_computation|unfold fields; repeat split; by_computation|].
  destruct Hx as (_ & _ & Hcx & _ & -> & -> & -> & _).
  destruct Hy as (_ & _ & Hcy & _ & -> & -> & -> & _).
  split; [exact Hcx|]. split; [exact Hcy|].
  destruct (corner_positions_nest float_store 1 BlockBox float_slots)
    as (Hany & _); [by_computation|].
  destruct (Hany (VFloat (float_ratio 50 1)) (VFloat (float_ratio 50 1))
              (VFloat (float_ratio 2 10)) (VFloat (float_ratio 2 10))
              (VFloat (float_ratio 0 1)) (VFloat (float_ratio 0 1))
              (VFloat (float_ratio 0 1)) (VFloat (float_ratio 0 1)))
    as ((_ & Hpbx & _) & _); [by_computation..|].
  exact Hpbx.
Defined.

(** ** Resetting the spacing of a side *)

Lemma run_query_resolved q (h : heap) (l : loc) c s :
  h !! l = Some (OBox c s) →
  Forall (resolved s) (reads q) →
  run_query q h (VRef l) = Ok (VNum (total s (reads q))).
Proof.
  intros H Hres. rewrite run_query_reads.
  destruct (sum_fields_outcome h l c s (reads q) H) as [[_ Hrun]|[Hun _]].
  - destruct q; simpl; lia.
  - eapply Forall_impl; [exact Hres|]. by left.
  - done.
  - exfalso. apply Exists_exists in Hun as (n & Hin & Hn).
    rewrite Forall_forall in Hres. eauto using resolved_not_unresolved.
Qed.

(** A query looks at the slots it reads and at nothing else. *)
Lemma add_attrs_agree (h h' : heap) (l : loc) c s c' s' names acc :
  h !! l = Some (OBox c s) →
  h' !! l = Some (OBox c' s') →
  (∀ n, n ∈ names → s' !! n = s !! n) →
  add_attrs h' (VRef l) acc names = add_attrs h (VRef l) acc names.
Proof.
  intros H H' Hsame. revert acc.
  induction names as [|n names IH]; intros acc; [reflexivity|].
  cbn [add_attrs].
  rewrite (getattr_box _ _ _ _ _ H), (getattr_box _ _ _ _ _ H').
  rewrite (Hsame n) by apply list_elem_of_here.
  destruct (s !! n) as [v|]; [|reflexivity]. cbn [obind].
  destruct (py_add acc v); try reflexivity. cbn [obind].
  apply IH. intros m Hm. apply Hsame. by apply list_elem_of_further.
Qed.

Lemma run_query_agree q (h h' : heap) (l : loc) c s c' s' :
  h !! l = Some (OBox c s) →
  h' !! l = Some (OBox c' s') →
  (∀ n, n ∈ reads q → s' !! n = s !! n) →
  run_query q h' (VRef l) = run_query q h (VRef l).
Proof.
  intros H H' Hsame. rewrite !run_query_reads.
  destruct (reads q) as [|n names]; [reflexivity|]. cbn [sum_fields].
  rewrite (getattr_box _ _ _ _ _ H), (getattr_box _ _ _ _ _ H').
  rewrite (Hsame n) by apply list_elem_of_here.
  destruct (s !! n) as [v|]; [|reflexivity]. cbn [obind].
  apply (add_attrs_agree h h' l c s c' s'); [done..|].
  intros m Hm. apply Hsame. by apply list_elem_of_further.
Qed.

Lemma num_insert s k z n :
  num (<[k := VNum z]> s) n = if decide (k = n) then z else num s n.
Proof.
  unfold num. rewrite lookup_insert. by destruct (decide (k = n)).
Qed.

Lemma resolved_insert s k z n : resolved s n → resolved (<[k := VNum z]> s) n.
Proof.
  intros [y Hy]. unfold resolved. rewrite lookup_insert.
  destruct (decide (k = n)); eauto.
Qed.

Lemma reset_spacing_run (h : heap) (l ls : loc) c s e side :
  h !! l = Some (OBox c s) →
  s !! "style" = Some (VRef ls) →
  h !! ls = Some (OStyle e) →
  side ∈ sides →
  reset_spacing (VRef l) side h
  = (Ok tt, <[ls := OStyle (style_reset e side)]>
              (<[l := OBox c (spacing_reset s side)]> h)).
Proof.
  intros H Hs Hls Hside.
  destruct (side_slots side Hside) as (Hm & Hp & Hb & Hm' & Hp' & Hb').
  assert (Hne : l ≠ ls) by (intros ->; congruence).
  unfold reset_spacing.
  erewrite bind_ok; [|apply (setattr_box _ _ _ _ _ _ H), Box_slots_all, Hm].
  erewrite bind_ok;
    [|apply setattr_box; [apply lookup_insert_eq | apply Box_slots_all, Hp]].
  erewrite bind_ok;
    [|apply setattr_box; [apply lookup_insert_eq | apply Box_slots_all, Hb]].
  rewrite !insert_insert_eq.
  erewrite bind_ok;
    [|eapply clear_style_ok;
       [apply lookup_insert_eq
       |by rewrite !lookup_insert_ne
       |by rewrite lookup_insert_ne]].
  erewrite bind_ok;
    [|eapply clear_style_ok;
       [by rewrite lookup_insert_ne, lookup_insert_eq by done
       |by rewrite !lookup_insert_ne
       |apply lookup_insert_eq]].
  erewrite clear_style_ok;
       [
       |by rewrite !lookup_insert_ne, lookup_insert_eq by done
       |by rewrite !lookup_insert_ne
       |apply lookup_insert_eq].
  by rewrite !insert_insert_eq.
Qed.

Lemma num_insert_eq s k z : num (<[k := VNum z]> s) k = z.
Proof. unfold num. by rewrite lookup_insert_eq. Qed.

Lemma num_insert_ne s k z n : k ≠ n → num (<[k := VNum z]> s) n = num s n.
Proof. intros Hne. unfold num. by rewrite lookup_insert_ne. Qed.

(** Writing out the slot names a template and a side give. *)
Ltac name_slots :=
  repeat match goal with
  | |- context [fmt ?t ?x] =>
      let v := eval vm_compute in (fmt t x) in change (fmt t x) with v
  end.

Ltac read_nums :=
  repeat (rewrite num_insert_eq || rewrite num_insert_ne by discriminate).

Lemma reset_spacing_integers (h : heap) (l ls : loc) c s e side :
  h !! l = Some (OBox c s) →
  s !! "style" = Some (VRef ls) →
  h !! ls = Some (OStyle e) →
  side ∈ sides →
  Forall (resolved s) (reads Qmargin_width ++ reads Qmargin_height) →
  ∃ h' hs mw vs mh,
    reset_spacing (VRef l) side h = (Ok tt, h')
    ∧ horizontal_surroundings h' (VRef l) = Ok (VNum hs)
    ∧ margin_width h' (VRef l) = Ok (VNum mw)
    ∧ vertical_surroundings h' (VRef l) = Ok (VNum vs)
    ∧ margin_height h' (VRef l) = Ok (VNum mh)
    ∧ (side ∈ ["left"; "right"] →
         hs = total s (reads Qhorizontal_surroundings) - side_total s side
         ∧ mw = total s (reads Qmargin_width) - side_total s side
         ∧ vs = total s (reads Qvertical_surroundings)
         ∧ mh = total s (reads Qmargin_height))
    ∧ (side ∈ ["top"; "bottom"] →
         vs = total s (reads Qvertical_surroundings) - side_total s side
         ∧ mh = total s (reads Qmargin_height) - side_total s side
         ∧ hs = total s (reads Qhorizontal_surroundings)
         ∧ mw = total s (reads Qmargin_width)).
Proof.
  intros H Hs Hls Hside Hres.
  assert (Hne : l ≠ ls) by (intros ->; congruence).
  assert (Hl' : (<[ls := OStyle (style_reset e side)]>
                   (<[l := OBox c (spacing_reset s side)]> h)) !! l
                = Some (OBox c (spacing_reset s side)))
    by (by rewrite lookup_insert_ne, lookup_insert_eq by done).
  assert (Hres' : ∀ q, reads q ⊆ reads Qmargin_width ++ reads Qmargin_height →
            Forall (resolved (spacing_reset s side)) (reads q)).
  { intros q Hq. apply Forall_forall. intros n Hn.
    rewrite Forall_forall in Hres. unfold spacing_reset.
    by do 3 apply resolved_insert; apply Hres, Hq. }
  pose proof (run_query_resolved Qhorizontal_surroundings _ _ _ _ Hl') as Hhs.
  pose proof (run_query_resolved Qmargin_width _ _ _ _ Hl') as Hmw.
  pose proof (run_query_resolved Qvertical_surroundings _ _ _ _ Hl') as Hvs.
  pose proof (run_query_resolved Qmargin_height _ _ _ _ Hl') as Hmh.
  cbn [run_query] in Hhs, Hmw, Hvs, Hmh.
  do 5 eexists.
  split; [by apply reset_spacing_run|].
  split; [apply Hhs, Hres'; compute_done|].
  split; [apply Hmw, Hres'; compute_done|].
  split; [apply Hvs, Hres'; compute_done|].
  split; [apply Hmh, Hres'; compute_done|].
  clear Hhs Hmw Hvs Hmh Hres' Hl'.
  unfold side_total, spacing_reset, total.
  revert Hside. unfold sides. rewrite !elem_of_cons, !elem_of_nil.
  intros [->|[->|[->|[->|[]]]]];
    (split; intros Hax;
     [|]; try (exfalso; revert Hax; clear; intros [|[|]]; done);
     name_slots; cbn [reads foldl]; read_nums; lia).
Qed.

(** X2: [reset_spacing] succeeds on every box that has a style bag, and
    every query that reads none of the three slots of the side returns
    after it exactly what it returned before, whatever the slots hold (so
    the sizes of the other axis never change).  On a box whose size and
    edges are integers, the surroundings and the margin-box size of the
    side's axis are smaller by exactly the margin, padding and border width
    the side had. *)
Theorem reset_spacing_shrinks (h : heap) (l ls : loc) c s e side :
  h !! l = Some (OBox c s) →
  s !! "style" = Some (VRef ls) →
  h !! ls = Some (OStyle e) →
  side ∈ sides →
  (∀ q,
     (∀ n, n ∈ reads q →
           n ∉ [fmt margin_ side; fmt padding_ side; fmt border__width side]) →
     ∃ h', reset_spacing (VRef l) side h = (Ok tt, h')
           ∧ run_query q h' (VRef l) = run_query q h (VRef l))
  ∧ (Forall (resolved s) (reads Qmargin_width ++ reads Qmargin_height) →
     ∃ h' hs mw vs mh,
       reset_spacing (VRef l) side h = (Ok tt, h')
       ∧ horizontal_surroundings h' (VRef l) = Ok (VNum hs)
       ∧ margin_width h' (VRef l) = Ok (VNum mw)
       ∧ vertical_surroundings h' (VRef l) = Ok (VNum vs)
       ∧ margin_height h' (VRef l) = Ok (VNum mh)
       ∧ (side ∈ ["left"; "right"] →
            hs = total s (reads Qhorizontal_surroundings) - side_total s side
            ∧ mw = total s (reads Qmargin_width) - side_total s side
            ∧ vs = total s (reads Qvertical_surroundings)
            ∧ mh = total s (reads Qmargin_height))
       ∧ (side ∈ ["top"; "bottom"] →
            vs = total s (reads Qvertical_surroundings) - side_total s side
            ∧ mh = total s (reads Qmargin_height) - side_total s side
            ∧ hs = total s (reads Qhorizontal_surroundings)
            ∧ mw = total s (reads Qmargin_width))).
Proof.
  intros H Hs Hls Hside.
  split; [|by apply (reset_spacing_integers h l ls c s e side)].
  intros q Hq. eexists. split; [by apply reset_spacing_run|].
  assert (Hne : l ≠ ls) by (intros ->; congruence).
  eapply run_query_agree; [exact H| |].
  - by rewrite lookup_insert_ne, lookup_insert_eq by done.
  - intros n Hn. specialize (Hq n Hn). unfold spacing_reset.
    rewrite !not_elem_of_cons in Hq. destruct Hq as (? & ? & ? & _).
    by rewrite !lookup_insert_ne.
Qed.

Lemma spacing_reset_twice s side :
  spacing_reset (spacing_reset s side) side = spacing_reset s side.
Proof.
  unfold spacing_reset. apply map_eq. intros k. rewrite !lookup_insert.
  repeat case_decide; done.
Qed.

Lemma style_reset_twice e side :
  style_reset (style_reset e side) side = style_reset e side.
Proof.
  unfold style_reset. apply map_eq. intros k. rewrite !lookup_insert.
  repeat case_decide; done.
Qed.

(** X3: resetting the same side a second time changes nothing. *)
Theorem reset_spacing_idempotent (h : heap) (l ls : loc) c s e side :
  h !! l = Some (OBox c s) →
  s !! "style" = Some (VRef ls) →
  h !! ls = Some (OStyle e) →
  side ∈ sides →
  ∃ h', reset_spacing (VRef l) side h = (Ok tt, h')
        ∧ reset_spacing (VRef l) side h' = (Ok tt, h').
Proof.
  intros H Hs Hls Hside.
  destruct (side_slots side Hside) as (_ & _ & _ & Hm' & Hp' & Hb').
  assert (Hne : l ≠ ls) by (intros ->; congruence).
  eexists. split; [by apply reset_spacing_run|].
  erewrite reset_spacing_run;
    [|by rewrite lookup_insert_ne, lookup_insert_eq by done
     |unfold spacing_reset; by rewrite !lookup_insert_ne
     |apply lookup_insert_eq
     |done].
  rewrite spacing_reset_twice, style_reset_twice.
  f_equal. apply map_eq. intros k. rewrite !lookup_insert.
  repeat case_decide; done.
Qed.

Lemma append_empty (s : string) : s +:+ "" = s.
Proof.
  induction s as [|a s IH]; [done|].
  change (String a (s +:+ "") = String a s). by f_equal.
Qed.

(** The names the slots of the box classes have. *)
Lemma all_slots_names c name :
  name ∈ all_slots c →
  name ∈ Box_slots
         ++ ["page_number"; "root_box"; "outer_width"; "outer_height";
             "outside_list_marker"; "text"; "extents"; "logical_extents";
             "replacement"].
Proof.
  intros Hin.
  assert (Hsub : forallb (fun n => bool_decide (n ∈ Box_slots
         ++ ["page_number"; "root_box"; "outer_width"; "outer_height";
             "outside_list_marker"; "text"; "extents"; "logical_extents";
             "replacement"])) (all_slots c) = true)
    by (destruct c; vm_compute; reflexivity).
  rewrite forallb_forall in Hsub.
  apply list_elem_of_In in Hin. apply Hsub in Hin.
  by apply bool_decide_eq_true_1 in Hin.
Qed.

Lemma margin_slot_side c side : fmt margin_ side ∈ all_slots c → side ∈ sides.
Proof.
  intros Hin. apply all_slots_names in Hin.
  unfold fmt in Hin. cbn [margin_ fst snd] in Hin. rewrite append_empty in Hin.
  cbv [String.append] in Hin.
  match type of Hin with
  | _ ∈ ?names =>
      let v := eval vm_compute in names in change names with v in Hin
  end.
  rewrite !elem_of_cons, elem_of_nil in Hin.
  repeat (destruct Hin as [Hin|Hin]; [try discriminate Hin|]); try done;
    injection Hin as ->; compute_done.
Qed.

(** X4: a side other than top, right, bottom and left names no slot:
    [reset_spacing] raises [AttributeError] at its first assignment and
    the store is as it was. *)
Theorem reset_spacing_unknown_side (h : heap) (l : loc) c s side :
  h !! l = Some (OBox c s) →
  side ∉ sides →
  reset_spacing (VRef l) side h = (Raise AttributeError, h).
Proof.
  intros H Hside. unfold reset_spacing, bind, setattr. rewrite H.
  rewrite bool_decide_eq_false_2; [done|].
  intros Hin. by apply Hside, (margin_slot_side c).
Qed.

(** ** Translation *)

Lemma move_all_back dx dy ls (h : heap) :
  move_all (- dx) (- dy) ls (move_all dx dy ls h) = h.
Proof.
  apply map_eq. intros l. rewrite !move_all_lookup.
  destruct (h !! l) as [o|]; cbn; [|done]. rewrite moved_moved.
  replace (_ * dx + _ * - dx) with 0 by lia.
  replace (_ * dy + _ * - dy) with 0 by lia.
  by rewrite moved_zero.
Qed.

(** X5: on integer positions, translating a tree by the integers
    [(dx, dy)] and then by [(-dx, -dy)] gives back the store it started
    from, whether or not a box is listed more than once.  (Integers add
    exactly; on floats the way back rounds again and need not return.) *)
Theorem translate_round_trip h t dx dy fuel :
  shape h t →
  Forall (placed h) (preorder t) →
  (depth t ≤ fuel)%nat →
  ∃ h1,
    translate fuel (VRef (root t)) (VNum dx) (VNum dy) h = (Ok tt, h1)
    ∧ translate fuel (VRef (root t)) (VNum (- dx)) (VNum (- dy)) h1
      = (Ok tt, h).
Proof.
  intros Hshape Hplaced Hdepth.
  exists (move_all dx dy (preorder t) h). split; [by apply translate_run|].
  rewrite <- (move_all_back dx dy (preorder t) h) at 2.
  apply translate_run; [by apply shape_move_all| |done].
  eapply Forall_impl; [exact Hplaced|]. intros; by apply placed_move_all.
Qed.

(** X6: [translate] moves the boxes [descendants] yields, each one once per
    time it is yielded, by one addition of the offset to its position each
    time, whatever numbers positions and offset are: a box listed twice
    among the children is moved twice, and a box that is not yielded is not
    touched. *)
Theorem translate_follows_descendants h t c s dx dy fuel :
  shape h t →
  h !! root t = Some (OBox c s) →
  issubclass c ParentBox = true →
  Forall (addable dx dy h) (preorder t) →
  (depth t ≤ fuel)%nat →
  ∃ ls h1,
    descendants fuel h (VRef (root t)) = Ok (map VRef ls)
    ∧ translate fuel (VRef (root t)) dx dy h = (Ok tt, h1)
    ∧ ∀ l, h1 !! l = Nat.iter (occurrences l ls) (shifted dx dy) <$> h !! l.
Proof.
  intros Hshape Hl Hc Hadd Hdepth.
  exists (preorder t), (shift_all dx dy (preorder t) h).
  split; [|split].
  - pose proof (descendants_run t h fuel Hshape Hdepth) as Hrun.
    by rewrite (hasattr_descendants _ _ _ _ Hl), Hc in Hrun.
  - by apply translate_run_shifted.
  - intros l. apply alter_all_lookup.
Qed.

Lemma total_moved s x y dx dy q :
  s !! "position_x" = Some (VNum x) → s !! "position_y" = Some (VNum y) →
  total (<["position_y" := VNum (y + dy)]>
           (<["position_x" := VNum (x + dx)]> s)) (reads q)
  = total s (reads q) + offset q dx dy.
Proof.
  intros Hx Hy.
  assert (Hnx : num s "position_x" = x) by (unfold num; by rewrite Hx).
  assert (Hny : num s "position_y" = y) by (unfold num; by rewrite Hy).
  destruct q; unfold total; cbn [reads foldl offset]; read_nums; lia.
Qed.

Lemma iter_shifted_slots dx dy k c s :
  ∃ s', Nat.iter k (shifted dx dy) (OBox c s) = OBox c s'
        ∧ ∀ n, n ≠ "position_x" → n ≠ "position_y" → s' !! n = s !! n.
Proof.
  induction k as [|k (s' & Hk & Hsame)]; [by exists s|].
  rewrite Nat.iter_succ, Hk. unfold shifted.
  destruct (s' !! "position_x") as [px|]; [|by exists s'].
  destruct (s' !! "position_y") as [py|]; [|by exists s'].
  destruct (py_add px dx); try by exists s'.
  destruct (py_add py dy); try by exists s'.
  eexists. split; [reflexivity|]. intros n Hx Hy.
  rewrite !lookup_insert_ne by done. by apply Hsame.
Qed.

Lemma translate_shifts_integers h t dx dy fuel l c s q :
  shape h t →
  NoDup (preorder t) →
  Forall (placed h) (preorder t) →
  (depth t ≤ fuel)%nat →
  l ∈ preorder t →
  h !! l = Some (OBox c s) →
  Forall (resolved s) (reads q) →
  ∃ h1,
    translate fuel (VRef (root t)) (VNum dx) (VNum dy) h = (Ok tt, h1)
    ∧ run_query q h (VRef l) = Ok (VNum (total s (reads q)))
    ∧ run_query q h1 (VRef l)
      = Ok (VNum (total s (reads q) + offset q dx dy)).
Proof.
  intros Hshape Hnd Hplaced Hdepth Hin Hl Hres.
  exists (move_all dx dy (preorder t) h).
  split; [by apply translate_run|].
  split; [exact (run_query_resolved q h l c s Hl Hres)|].
  rewrite Forall_forall in Hplaced.
  destruct (Hplaced l Hin) as (c' & s' & x & y & Hl' & Hx & Hy).
  assert (c' = c ∧ s' = s) as [-> ->] by (split; congruence).
  assert (Hl1 : move_all dx dy (preorder t) h !! l
                = Some (OBox c (<["position_y" := VNum (y + dy)]>
                                  (<["position_x" := VNum (x + dx)]> s)))).
  { rewrite move_all_lookup_in, Hl by done.
    change (moved dx dy <$> Some (OBox c s))
      with (Some (moved dx dy (OBox c s))).
    unfold moved. by rewrite Hx, Hy. }
  rewrite (run_query_resolved q _ _ _ _ Hl1).
  - by rewrite total_moved.
  - eapply Forall_impl; [exact Hres|]. intros n Hn.
    by do 2 apply resolved_insert.
Qed.

(** X7: whatever numbers positions and offset are, a translation leaves
    every query that does not read the position (the six sizes and the two
    surroundings) of every box exactly as it was.  On a tree of boxes listed
    once whose positions and edges are integers, each of the six corner
    queries of a box of the tree returns its former value plus [dx] (the x
    corners) or [dy] (the y corners). *)
Theorem translate_shifts_corners h t fuel l c s :
  shape h t →
  (depth t ≤ fuel)%nat →
  h !! l = Some (OBox c s) →
  (∀ dx dy q,
     Forall (addable dx dy h) (preorder t) →
     "position_x" ∉ reads q → "position_y" ∉ reads q →
     ∃ h1,
       translate fuel (VRef (root t)) dx dy h = (Ok tt, h1)
       ∧ run_query q h1 (VRef l) = run_query q h (VRef l))
  ∧ (∀ (dx dy : Z) q,
       NoDup (preorder t) →
       Forall (placed h) (preorder t) →
       l ∈ preorder t →
       Forall (resolved s) (reads q) →
       ∃ h1,
         translate fuel (VRef (root t)) (VNum dx) (VNum dy) h = (Ok tt, h1)
         ∧ run_query q h (VRef l) = Ok (VNum (total s (reads q)))
         ∧ run_query q h1 (VRef l)
           = Ok (VNum (total s (reads q) + offset q dx dy))).
Proof.
  intros Hshape Hdepth Hl. split.
  - intros dx dy q Hadd Hx Hy.
    exists (shift_all dx dy (preorder t) h).
    split; [by apply translate_run_shifted|].
    destruct (iter_shifted_slots dx dy (occurrences l (preorder t)) c s)
      as (s' & Hs' & Hsame).
    eapply run_query_agree; [exact Hl| |].
    + unfold shift_all. rewrite alter_all_lookup, Hl.
      cbn [fmap option_fmap option_map]. by rewrite Hs'.
    + intros n Hn. apply Hsame; intros ->; contradiction.
  - intros dx dy q Hnd Hplaced Hin Hres.
    by apply (translate_shifts_integers h t dx dy fuel l c s q).
Qed.

(** X8: on a container whose [children] slot holds [None], [descendants]
    yields the box alone, while [translate] raises [TypeError] after it has
    moved the box itself. *)
Theorem children_none (h : heap) (l : loc) c s x y dx dy fuel :
  h !! l = Some (OBox c s) →
  issubclass c ParentBox = true →
  s !! "children" = Some VNone →
  s !! "position_x" = Some (VNum x) → s !! "position_y" = Some (VNum y) →
  descendants (S fuel) h (VRef l) = Ok [VRef l]
  ∧ translate (S fuel) (VRef l) (VNum dx) (VNum dy) h
    = (Raise TypeError, alter (moved dx dy) l h).
Proof.
  intros Hl Hc Hch Hx Hy. split.
  - cbn [descendants]. unfold lookup_method.
    rewrite Hl, resolve_descendants, Hc. cbn [obind].
    by rewrite (getattr_set _ _ _ _ _ _ Hl Hch).
  - cbn [translate]. unfold bind at 1, read at 1, lookup_method.
    rewrite Hl, resolve_translate, Hc.
    erewrite bind_ok; [|by eapply Box_translate_placed].
    destruct (alter_moved_box h dx dy l l c s Hl) as (s' & Hl' & Hch').
    unfold bind at 1, read at 1.
    erewrite getattr_set; [|exact Hl'|by rewrite Hch', Hch].
    reflexivity.
Qed.

(** ** Attaching children *)

(** What [add_child] does to the store. *)
Lemma add_child_run (h : heap) (lp lc d : loc) cp sp cc sc items :
  h !! lp = Some (OBox cp sp) →
  sp !! "children" = Some (VRef d) →
  h !! d = Some (ODeque items) →
  h !! lc = Some (OBox cc sc) →
  ∃ h', add_child (VRef lp) (VRef lc) h = (Ok tt, h')
    ∧ h' !! lc = Some (OBox cc (<["parent" := VRef lp]> sc))
    ∧ h' !! d = Some (ODeque (items ++ [VRef lc]))
    ∧ getattr h' (VRef lp) "children" = Ok (VRef d)
    ∧ (∀ l, l ≠ lc → l ≠ d → h' !! l = h !! l).
Proof.
  intros Hp Hch Hd Hc.
  assert (Hdc : d ≠ lc) by (intros ->; congruence).
  assert (Hdp : d ≠ lp) by (intros ->; congruence).
  assert (Hch' : getattr (<[lc := OBox cc (<["parent" := VRef lp]> sc)]> h)
                   (VRef lp) "children" = Ok (VRef d)).
  { destruct (decide (lp = lc)) as [->|Hne].
    - assert (sp = sc) as -> by congruence.
      eapply getattr_set; [apply lookup_insert_eq|by rewrite lookup_insert_ne].
    - eapply getattr_set; [by rewrite lookup_insert_ne|done]. }
  eexists. split; [|split; [|split; [|split]]].
  - unfold add_child.
    erewrite bind_ok;
      [|apply (setattr_box _ _ _ _ _ _ Hc), Box_slots_all; compute_done].
    unfold bind, read. rewrite Hch'.
    by rewrite lookup_insert_ne, Hd by done.
  - by rewrite lookup_insert_ne, lookup_insert_eq by done.
  - apply lookup_insert_eq.
  - unfold getattr in *. rewrite lookup_insert_ne by done. exact Hch'.
  - intros l H1 H2. by rewrite !lookup_insert_ne.
Qed.

(** X9: [add_child] makes the parent the child's [parent] and puts the child
    at the end of the parent's children, whether it is listed there already
    or not; no other slot and no other object changes, so the child stays
    in the children of the parent it had. *)
Theorem add_child_appends (h : heap) (lp lc d : loc) cp sp cc sc items :
  h !! lp = Some (OBox cp sp) →
  sp !! "children" = Some (VRef d) →
  h !! d = Some (ODeque items) →
  h !! lc = Some (OBox cc sc) →
  ∃ h', add_child (VRef lp) (VRef lc) h = (Ok tt, h')
    ∧ h' !! lc = Some (OBox cc (<["parent" := VRef lp]> sc))
    ∧ h' !! d = Some (ODeque (items ++ [VRef lc]))
    ∧ getattr h' (VRef lp) "children" = Ok (VRef d)
    ∧ (∀ l, l ≠ lc → l ≠ d → h' !! l = h !! l).
Proof. apply add_child_run. Qed.

(** ** Copies *)

(** The store [copy] leaves: the new box at the first free reference, its
    style bag at the next. *)
Lemma copy_run (h : heap) (l ls : loc) c s e :
  h !! l = Some (OBox c s) →
  s !! "style" = Some (VRef ls) →
  h !! ls = Some (OStyle e) →
  slots_declared c s →
  ∃ l' ls' : loc,
    h !! l' = None ∧ h !! ls' = None ∧ l' ≠ ls'
    ∧ copy (VRef l) h
      = (Ok (VRef l'),
         <[l' := OBox c (<["style" := VRef ls']> s)]>
           (<[ls' := OStyle e]> h)).
Proof.
  intros Hl Hs Hls Hwf.
  pose proof (fresh_lookup h) as Hfresh.
  pose proof (fresh_ne h l _ Hl) as Hne.
  set (l' := fresh (dom h)) in *.
  set (h1 := <[l' := OBox c s]> h).
  assert (Hl1 : h1 !! l = Some (OBox c s))
    by (by unfold h1; rewrite lookup_insert_ne).
  assert (Hls1 : h1 !! ls = Some (OStyle e)).
  { unfold h1. rewrite lookup_insert_ne; [done|]. intros ->. congruence. }
  pose proof (fresh_lookup h1) as Hfresh1.
  assert (Hne2 : fresh (dom h1) ≠ l')
    by (apply (fresh_ne h1 l' (OBox c s)); unfold h1; apply lookup_insert_eq).
  set (ls' := fresh (dom h1)) in *.
  exists l', ls'. split; [done|].
  split; [by unfold h1 in Hfresh1; rewrite lookup_insert_ne in Hfresh1|].
  split; [done|].
  unfold copy. unfold bind at 1, read at 1, type_of. rewrite Hl.
  unfold bind at 1. rewrite alloc_ok. fold l'.
  erewrite bind_ok;
    [|apply (copy_loop c s (all_slots c) _ l l' ∅);
      [by rewrite lookup_insert_ne|apply lookup_insert_eq|done|done]].
  rewrite insert_insert_eq, (copy_slots_all c s Hwf). fold h1.
  unfold bind at 1, read at 1. rewrite (getattr_set _ _ _ _ _ _ Hl1 Hs).
  unfold bind at 1, style_copy. rewrite Hls1, alloc_ok. fold ls'.
  erewrite bind_ok;
    [|apply setattr_box;
      [rewrite lookup_insert_ne by done; unfold h1; apply lookup_insert_eq
      |apply Box_slots_all; compute_done]].
  unfold ret. f_equal. unfold h1. apply map_eq. intros k.
  rewrite !lookup_insert. repeat case_decide; done.
Qed.

(** X10: a copy shares the deque of children with the original: a child
    added to the copy is listed among the children of the original too,
    and its [parent] is the copy. *)
Theorem copy_shares_children (h : heap) (l ls d lc : loc) c s e items cc sc :
  h !! l = Some (OBox c s) →
  s !! "style" = Some (VRef ls) →
  h !! ls = Some (OStyle e) →
  slots_declared c s →
  s !! "children" = Some (VRef d) →
  h !! d = Some (ODeque items) →
  h !! lc = Some (OBox cc sc) →
  ∃ l' h1 h2 ch,
    copy (VRef l) h = (Ok (VRef l'), h1)
    ∧ add_child (VRef l') (VRef lc) h1 = (Ok tt, h2)
    ∧ getattr h2 (VRef l) "children" = Ok ch
    ∧ getattr h2 (VRef l') "children" = Ok ch
    ∧ iter h2 ch = Ok (items ++ [VRef lc])
    ∧ getattr h2 (VRef lc) "parent" = Ok (VRef l').
Proof.
  intros Hl Hs Hls Hwf Hch Hd Hc.
  destruct (copy_run h l ls c s e Hl Hs Hls Hwf)
    as (l' & ls' & Hl' & Hls' & Hne & Hrun).
  set (h1 := <[l' := OBox c (<["style" := VRef ls']> s)]>
               (<[ls' := OStyle e]> h)) in *.
  assert (Hold : ∀ k o, h !! k = Some o → h1 !! k = Some o).
  { intros k o Hk. unfold h1.
    rewrite !lookup_insert_ne; [done|intros ->; congruence..]. }
  assert (Hl1 : h1 !! l' = Some (OBox c (<["style" := VRef ls']> s)))
    by apply lookup_insert_eq.
  destruct (add_child_run h1 l' lc d c _ cc sc items Hl1)
    as (h2 & Hadd & Hc2 & Hd2 & Hch2 & Hframe);
    [by rewrite lookup_insert_ne|by apply Hold|by apply Hold|].
  exists l', h1, h2, (VRef d).
  split; [done|]. split; [done|].
  assert (Hdl : l ≠ d) by (intros ->; congruence).
  split.
  { destruct (decide (l = lc)) as [->|Hlc].
    - assert (s = sc) as <- by congruence.
      eapply getattr_set; [exact Hc2|by rewrite lookup_insert_ne].
    - eapply getattr_set; [|exact Hch]. rewrite Hframe by done. by apply Hold. }
  split; [done|].
  split; [unfold iter; by rewrite Hd2|].
  eapply getattr_set; [exact Hc2|apply lookup_insert_eq].
Qed.

Lemma empty_run (h : heap) (l : loc) c s :
  h !! l = Some (OBox c s) →
  ∃ d' : loc, h !! d' = None
    ∧ empty (VRef l) h
      = (Ok tt, <[l := OBox c (<["children" := VRef d']> s)]>
                  (<[d' := ODeque []]> h)).
Proof.
  intros Hl. exists (fresh (dom h)). split; [apply fresh_lookup|].
  pose proof (fresh_ne h l _ Hl) as Hne.
  unfold empty. unfold bind at 1. rewrite alloc_ok.
  by erewrite setattr_box;
    [|by rewrite lookup_insert_ne|apply Box_slots_all; compute_done].
Qed.

(** X11: [empty] gives the box a new, empty deque and leaves the old one
    alone: a copy made before still lists the children. *)
Theorem empty_after_copy (h : heap) (l ls d : loc) c s e items :
  h !! l = Some (OBox c s) →
  s !! "style" = Some (VRef ls) →
  h !! ls = Some (OStyle e) →
  slots_declared c s →
  s !! "children" = Some (VRef d) →
  h !! d = Some (ODeque items) →
  ∃ l' h1 h2 ch ch',
    copy (VRef l) h = (Ok (VRef l'), h1)
    ∧ empty (VRef l) h1 = (Ok tt, h2)
    ∧ getattr h2 (VRef l) "children" = Ok ch ∧ iter h2 ch = Ok []
    ∧ getattr h2 (VRef l') "children" = Ok ch' ∧ iter h2 ch' = Ok items.
Proof.
  intros Hl Hs Hls Hwf Hch Hd.
  destruct (copy_run h l ls c s e Hl Hs Hls Hwf)
    as (l' & ls' & Hl' & Hls' & Hne & Hrun).
  set (h1 := <[l' := OBox c (<["style" := VRef ls']> s)]>
               (<[ls' := OStyle e]> h)) in *.
  assert (Hold : ∀ k o, h !! k = Some o → h1 !! k = Some o).
  { intros k o Hk. unfold h1.
    rewrite !lookup_insert_ne; [done|intros ->; congruence..]. }
  destruct (empty_run h1 l c s (Hold _ _ Hl)) as (d' & Hd' & Hempty).
  assert (Hll : l ≠ l') by (intros ->; congruence).
  assert (Hdl : d' ≠ l') by (intros ->; unfold h1 in Hd';
                             by rewrite lookup_insert_eq in Hd').
  assert (Hdd : d' ≠ d) by (intros ->; rewrite (Hold _ _ Hd) in Hd'; done).
  assert (Hld : l ≠ d) by (intros ->; congruence).
  exists l', h1. eexists. exists (VRef d'), (VRef d).
  split; [done|]. split; [exact Hempty|].
  split; [eapply getattr_set; [apply lookup_insert_eq|apply lookup_insert_eq]|].
  split.
  { unfold iter. by rewrite lookup_insert_ne, lookup_insert_eq
      by (intros ->; by rewrite (Hold _ _ Hl) in Hd'). }
  split.
  { eapply getattr_set.
    - rewrite !lookup_insert_ne by done. unfold h1. apply lookup_insert_eq.
    - by rewrite lookup_insert_ne. }
  unfold iter. rewrite !lookup_insert_ne by done. by rewrite (Hold _ _ Hd).
Qed.

(** X12: resetting a side of a copy zeroes the copy's edges and clears the
    copy's style entries, and leaves the original box and its style bag as
    they were. *)
Theorem reset_spacing_on_copy (h : heap) (l ls : loc) c s e side :
  h !! l = Some (OBox c s) →
  s !! "style" = Some (VRef ls) →
  h !! ls = Some (OStyle e) →
  slots_declared c s →
  side ∈ sides →
  ∃ l' ls' h1 h2,
    copy (VRef l) h = (Ok (VRef l'), h1)
    ∧ reset_spacing (VRef l') side h1 = (Ok tt, h2)
    ∧ h2 !! l = Some (OBox c s)
    ∧ h2 !! ls = Some (OStyle e)
    ∧ h2 !! l'
      = Some (OBox c (spacing_reset (<["style" := VRef ls']> s) side))
    ∧ h2 !! ls' = Some (OStyle (style_reset e side)).
Proof.
  intros Hl Hs Hls Hwf Hside.
  destruct (copy_run h l ls c s e Hl Hs Hls Hwf)
    as (l' & ls' & Hl' & Hls' & Hne & Hrun).
  exists l', ls'. do 2 eexists.
  split; [exact Hrun|].
  split.
  { apply reset_spacing_run;
      [apply lookup_insert_eq|apply lookup_insert_eq
      |by rewrite lookup_insert_ne, lookup_insert_eq by done|done]. }
  assert (l ≠ l' ∧ l ≠ ls' ∧ ls ≠ l' ∧ ls ≠ ls') as (? & ? & ? & ?)
    by (repeat split; intros ->; congruence).
  split; [by rewrite !lookup_insert_ne|].
  split; [by rewrite !lookup_insert_ne|].
  split; [by rewrite lookup_insert_ne, lookup_insert_eq by done|].
  apply lookup_insert_eq.
Qed.

Lemma shape_weaken (h h' : heap) t :
  (∀ k o, h !! k = Some o → h' !! k = Some o) → shape h t → shape h' t.
Proof.
  intros Hold. induction t as [l kids IH] using tree_ind'. intros Hshape.
  inversion Hshape as [l0 c s Hl Hc|l0 c s d kids0 Hl Hc Hch Hd Hkids]; subst.
  - eapply shape_leaf; eauto.
  - eapply shape_parent; eauto.
    rewrite Forall_forall in IH, Hkids. apply Forall_forall. eauto.
Qed.

(** X13: the copy of a container is shallow: [descendants] on the copy
    yields the copy followed by the very boxes that follow the original in
    its own traversal. *)
Theorem descendants_of_copy (h : heap) (l ls : loc) kids c s e fuel :
  shape h (Node l kids) →
  h !! l = Some (OBox c s) →
  issubclass c ParentBox = true →
  s !! "style" = Some (VRef ls) →
  h !! ls = Some (OStyle e) →
  slots_declared c s →
  (depth (Node l kids) ≤ fuel)%nat →
  ∃ l' h1 rest,
    copy (VRef l) h = (Ok (VRef l'), h1)
    ∧ descendants fuel h (VRef l) = Ok (VRef l :: rest)
    ∧ descendants fuel h1 (VRef l') = Ok (VRef l' :: rest).
Proof.
  intros Hshape Hl Hc Hs Hls Hwf Hdepth.
  destruct (copy_run h l ls c s e Hl Hs Hls Hwf)
    as (l' & ls' & Hl' & Hls' & Hne & Hrun).
  set (h1 := <[l' := OBox c (<["style" := VRef ls']> s)]>
               (<[ls' := OStyle e]> h)) in *.
  assert (Hold : ∀ k o, h !! k = Some o → h1 !! k = Some o).
  { intros k o Hk. unfold h1.
    rewrite !lookup_insert_ne; [done|intros ->; congruence..]. }
  assert (Hl1 : h1 !! l' = Some (OBox c (<["style" := VRef ls']> s)))
    by apply lookup_insert_eq.
  exists l', h1, (map VRef (concat (map preorder kids))).
  split; [done|]. split.
  - pose proof (descendants_run _ h fuel Hshape Hdepth) as Hd.
    cbn [root] in Hd. by rewrite (hasattr_descendants _ _ _ _ Hl), Hc in Hd.
  - assert (Hshape1 : shape h1 (Node l' kids)).
    { inversion Hshape as [l0 c0 s0 Hl0 Hc0|l0 c0 s0 d kids0 Hl0 Hc0 Hch Hd Hk];
        subst; assert (c0 = c ∧ s0 = s) as [-> ->] by (split; congruence);
        [congruence|].
      eapply shape_parent;
        [exact Hl1|done|by rewrite lookup_insert_ne|by apply Hold|].
      eapply Forall_impl; [exact Hk|]. intros k. by apply shape_weaken. }
    pose proof (descendants_run _ h1 fuel Hshape1 Hdepth) as Hd.
    cbn [root] in Hd. by rewrite (hasattr_descendants _ _ _ _ Hl1), Hc in Hd.
Qed.

(** ** Boxes generated by elements, and pages *)

Lemma unset_edges_raise (h : heap) (l : loc) c s q :
  h !! l = Some (OBox c s) →
  s !! "width" = Some VNone → s !! "height" = Some VNone →
  s !! "position_x" = Some (VNum 0) → s !! "position_y" = Some (VNum 0) →
  Forall (fun name => s !! name = None) edge_fields →
  run_query q h (VRef l) = Raise AttributeError.
Proof.
  intros Hl Hw Hh Hx Hy Hedges.
  assert (He : ∀ name, name ∈ edge_fields → s !! name = None)
    by (by apply Forall_forall).
  destruct q; cbn [run_query];
    unfold margin_width, margin_height, border_width, border_height,
      padding_width, padding_height, horizontal_surroundings,
      vertical_surroundings, content_box_x, content_box_y, padding_box_x,
      padding_box_y, border_box_x, border_box_y, add_attrs;
    rewrite !(getattr_box _ _ _ _ _ Hl), ?Hw, ?Hh, ?Hx, ?Hy; cbn [obind];
    rewrite ?He by compute_done; reflexivity.
Qed.

Section ElementBoxes.

Variable style_for : pyval → pyval → gmap string pyval.
Variable computed_from_cascaded :
  pyval → gmap string pyval → gmap string pyval → gmap string pyval.
Variable computed_styles : pyval → string → option (gmap string pyval).

Lemma Box_init_plain (h : heap) (l : loc) c document element :
  h !! l = Some (OBox c ∅) →
  resolve c "_init_style" = Some Box →
  ∃ ls : loc, h !! ls = None ∧ ls ≠ l
    ∧ Box_init style_for computed_from_cascaded computed_styles
        (VRef l) document element h
      = (Ok tt, <[l := OBox c (plain_slots document element (VRef ls))]>
                  (<[ls := OStyle (style_for document element)]> h)).
Proof.
  intros H Hres. unfold Box_init.
  erewrite bind_ok;
    [|apply (setattr_box _ _ _ _ _ _ H), Box_slots_all; compute_done].
  do 2 (erewrite bind_ok;
    [|apply setattr_box; [apply lookup_insert_eq
                         |apply Box_slots_all; compute_done]]).
  rewrite !insert_insert_eq.
  set (s3 := <["parent" := VNone]> (<["element" := element]>
               (<["document" := document]> ∅))).
  set (h3 := <[l := OBox c s3]> h).
  assert (Hl3 : h3 !! l = Some (OBox c s3)) by apply lookup_insert_eq.
  pose proof (fresh_lookup h3) as Hfresh.
  pose proof (fresh_ne h3 l _ Hl3) as Hne.
  set (ls := fresh (dom h3)) in *.
  exists ls. split.
  { unfold h3 in Hfresh. by rewrite lookup_insert_ne in Hfresh. }
  split; [done|].
  unfold bind at 1, init_style at 1.
  unfold bind at 1, read at 1, lookup_method. rewrite Hl3, Hres.
  unfold Box_init_style.
  unfold bind at 1, read at 1.
  erewrite getattr_set; [|exact Hl3|by subst s3; simplify_map_eq].
  unfold bind at 1, read at 1.
  erewrite getattr_set; [|exact Hl3|by subst s3; simplify_map_eq].
  unfold bind at 1. rewrite alloc_ok. fold ls.
  erewrite setattr_box;
    [|by rewrite lookup_insert_ne|apply Box_slots_all; compute_done].
  do 3 (erewrite bind_ok;
    [|apply setattr_box; [apply lookup_insert_eq
                         |apply Box_slots_all; compute_done]]).
  erewrite setattr_box;
    [|apply lookup_insert_eq|apply Box_slots_all; compute_done].
  f_equal. unfold h3, plain_slots, s3. apply map_eq. intros k.
  rewrite !lookup_insert. repeat case_decide; try done; congruence.
Qed.


Lemma plain_slots_unresolved (h : heap) (l ls : loc) c document element s style
    (before : heap) :
  h !! l = Some (OBox c s) →
  h !! ls = Some (OStyle style) →
  before !! l = None → before !! ls = None →
  (∀ name, name ∈ ["style"; "parent"; "width"; "height"; "position_x";
                    "position_y"] ++ edge_fields →
     s !! name = plain_slots document element (VRef ls) !! name) →
  built_unresolved style c before (Ok (VRef l), h).
Proof.
  intros Hl Hls Hbl Hbls Hs. exists l, ls, s. cbn [fst snd].
  assert (He : Forall (fun name => s !! name = None) edge_fields).
  { apply Forall_forall. intros name Hn.
    rewrite Hs by (apply elem_of_app; by right).
    revert name Hn. apply Forall_forall. unfold plain_slots.
    vm_compute edge_fields.
    repeat (apply Forall_cons; split; [by simplify_map_eq|]).
    by apply Forall_nil. }
  repeat (split; [first [done | by rewrite Hs by compute_done]|]).
  intros q. eapply unset_edges_raise; [exact Hl|..|exact He];
    by rewrite Hs by compute_done.
Qed.

(** X14: a box generated by an element starts with its own copy of the
    element's style, without parent and without size, at the origin, and
    with no margin, padding or border width assigned: every geometry query
    on it raises [AttributeError] until layout assigns the edges. *)
Theorem element_boxes_start_unresolved (h : heap) document element extra :
  built_unresolved (style_for document element) BlockBox h
    (construct style_for computed_from_cascaded computed_styles
       BlockBox [document; element] h)
  ∧ built_unresolved (style_for document element) InlineBox h
      (construct style_for computed_from_cascaded computed_styles
         InlineBox [document; element] h)
  ∧ built_unresolved (style_for document element) InlineBlockBox h
      (construct style_for computed_from_cascaded computed_styles
         InlineBlockBox [document; element] h)
  ∧ built_unresolved (style_for document element) BlockLevelReplacedBox h
      (construct style_for computed_from_cascaded computed_styles
         BlockLevelReplacedBox [document; element; extra] h)
  ∧ built_unresolved (style_for document element) InlineLevelReplacedBox h
      (construct style_for computed_from_cascaded computed_styles
         InlineLevelReplacedBox [document; element; extra] h).
Proof.
  pose proof (fresh_lookup h) as Hfresh.
  assert (Hparent : ∀ c,
    resolve c "__init__" = Some ParentBox →
    resolve_super c ParentBox "__init__" = Some Box →
    resolve c "_init_style" = Some Box →
    built_unresolved (style_for document element) c h
      (construct style_for computed_from_cascaded computed_styles
         c [document; element] h)).
  { intros c Hinit Hsuper Hstyle.
    unfold construct. unfold bind at 1. rewrite alloc_ok.
    set (l := fresh (dom h)) in *. rewrite Hinit.
    destruct (Box_init_plain (<[l := OBox c ∅]> h) l c document element
                (lookup_insert_eq _ _ _) Hstyle) as (ls & Hls & Hne & Hrun).
    rewrite lookup_insert_ne in Hls by done.
    unfold bind at 1. unfold bind at 1.
    unfold super_init at 1. unfold bind at 1, read at 1, type_of.
    rewrite lookup_insert_eq, Hsuper, Hrun.
    match goal with
    | |- context [empty (VRef l) ?h0] =>
        destruct (empty_run h0 l c _ (lookup_insert_eq _ _ _))
          as (d & Hd & Hempty)
    end.
    rewrite Hempty. unfold ret.
    eapply plain_slots_unresolved;
      [apply lookup_insert_eq| |done|done|].
    - rewrite lookup_insert_ne by done.
      rewrite lookup_insert_ne
        by (intros ->; by rewrite lookup_insert_ne, lookup_insert_eq in Hd).
      by rewrite lookup_insert_ne, lookup_insert_eq.
    - intros name Hn. rewrite lookup_insert_ne; [done|].
      intros <-. revert Hn. compute_done. }
  assert (Hreplaced : ∀ c,
    resolve c "__init__" = Some ReplacedBox →
    resolve_super c ReplacedBox "__init__" = Some Box →
    resolve c "_init_style" = Some Box →
    "replacement" ∈ all_slots c →
    built_unresolved (style_for document element) c h
      (construct style_for computed_from_cascaded computed_styles
         c [document; element; extra] h)).
  { intros c Hinit Hsuper Hstyle Hslot.
    unfold construct. unfold bind at 1. rewrite alloc_ok.
    set (l := fresh (dom h)) in *. rewrite Hinit.
    destruct (Box_init_plain (<[l := OBox c ∅]> h) l c document element
                (lookup_insert_eq _ _ _) Hstyle) as (ls & Hls & Hne & Hrun).
    rewrite lookup_insert_ne in Hls by done.
    unfold bind at 1. unfold bind at 1.
    unfold super_init at 1. unfold bind at 1, read at 1, type_of.
    rewrite lookup_insert_eq, Hsuper, Hrun.
    rewrite (setattr_box _ _ _ _ _ _ (lookup_insert_eq _ _ _) Hslot).
    unfold ret.
    eapply plain_slots_unresolved;
      [apply lookup_insert_eq| |done|done|].
    - rewrite lookup_insert_ne by done.
      by rewrite lookup_insert_ne, lookup_insert_eq.
    - intros name Hn. rewrite lookup_insert_ne; [done|].
      intros <-. revert Hn. compute_done. }
  repeat split;
    first [apply Hparent; reflexivity
          |apply Hreplaced; [reflexivity..|compute_done]].
Qed.


Lemma page_type_key (n : Z) :
  (if bool_decide (n = 1)
   then "first_" +:+ (if bool_decide (n `mod` 2 = 1) then "right" else "left")
   else if bool_decide (n `mod` 2 = 1) then "right" else "left")
  = page_type_of n.
Proof.
  unfold page_type_of. case_bool_decide as H1; [|done].
  subst n. by rewrite bool_decide_eq_true_2.
Qed.

(** X15: the style of a new page box is the document's page style of the
    type its number selects: [first_right] for page 1, [right] for the other
    odd numbers and [left] for the even ones ([first_left] is never asked
    for); a missing page style makes the constructor raise [KeyError].  A
    new page has no outer size yet, so its own [containing_block_size]
    raises [AttributeError]. *)
Theorem page_box_construction (h : heap) document (n : Z) :
  (∀ style,
     computed_styles document (page_type_of n) = Some style →
     ∃ (l ls : loc) s h',
       construct style_for computed_from_cascaded computed_styles
         PageBox [document; VNum n] h = (Ok (VRef l), h')
       ∧ h !! l = None ∧ h !! ls = None
       ∧ h' !! l = Some (OBox PageBox s)
       ∧ s !! "page_number" = Some (VNum n)
       ∧ s !! "element" = Some VNone
       ∧ s !! "parent" = Some VNone
       ∧ s !! "style" = Some (VRef ls)
       ∧ h' !! ls = Some (OStyle style)
       ∧ s !! "width" = Some VNone ∧ s !! "height" = Some VNone
       ∧ s !! "outer_width" = None ∧ s !! "outer_height" = None
       ∧ ∀ get_single_keyword fuel,
           containing_block_size get_single_keyword fuel h' (VRef l)
           = Raise AttributeError)
  ∧ (computed_styles document (page_type_of n) = None →
     (construct style_for computed_from_cascaded computed_styles
        PageBox [document; VNum n] h).1 = Raise KeyError).
Proof.
  pose proof (fresh_lookup h) as Hfresh.
  set (l := fresh (dom h)) in *.
  set (s3 := <["parent" := VNone]> (<["element" := VNone]>
               (<["document" := document]>
                  (<["page_number" := VNum n]> (∅ : gmap string pyval))))).
  set (h3 := <[l := OBox PageBox s3]> h).
  assert (Hl3 : h3 !! l = Some (OBox PageBox s3)) by apply lookup_insert_eq.
  assert (Hstart : ∀ k : unit → M pyval,
    (_ <~ (_ <~ setattr (VRef l) "page_number" (VNum n) ;;
           super_init style_for computed_from_cascaded computed_styles
             PageBox (VRef l) document VNone) ;; k tt)
      (<[l := OBox PageBox ∅]> h)
    = (_ <~ (_ <~ init_style style_for computed_from_cascaded computed_styles
                    (VRef l) ;;
             _ <~ setattr (VRef l) "width" VNone ;;
             _ <~ setattr (VRef l) "height" VNone ;;
             _ <~ setattr (VRef l) "position_x" (VNum 0) ;;
             setattr (VRef l) "position_y" (VNum 0)) ;; k tt) h3).
  { intros k. unfold bind at 1. unfold bind at 1.
    erewrite setattr_box; [|apply lookup_insert_eq|compute_done].
    unfold super_init at 1. unfold bind at 1, read at 1, type_of.
    rewrite lookup_insert_eq.
    change (resolve_super PageBox PageBox "__init__") with (Some Box).
    cbv iota. unfold Box_init.
    unfold bind at 1.
    erewrite setattr_box; [|apply lookup_insert_eq|compute_done].
    unfold bind at 1.
    erewrite setattr_box; [|apply lookup_insert_eq|compute_done].
    unfold bind at 1.
    erewrite setattr_box; [|apply lookup_insert_eq|compute_done].
    rewrite !insert_insert_eq. fold s3 h3. reflexivity. }
  assert (Hstyle : init_style style_for computed_from_cascaded computed_styles
                     (VRef l) h3
    = match computed_styles document (page_type_of n) with
      | Some style =>
          (Ok tt, <[l := OBox PageBox (<["style" := VRef (fresh (dom h3))]> s3)]>
                    (<[fresh (dom h3) := OStyle style]> h3))
      | None => (Raise KeyError, h3)
      end).
  { unfold init_style. unfold bind at 1, read at 1, lookup_method.
    rewrite Hl3. change (resolve PageBox "_init_style") with (Some PageBox).
    cbv iota. unfold PageBox_init_style.
    unfold bind at 1, read at 1.
    erewrite getattr_set; [|exact Hl3|by subst s3; simplify_map_eq].
    cbv beta iota zeta.
    unfold bind at 1, read at 1.
    erewrite getattr_set; [|exact Hl3|by subst s3; simplify_map_eq].
    rewrite page_type_key.
    destruct (computed_styles document (page_type_of n)) as [style|]; [|done].
    unfold bind at 1. rewrite alloc_ok.
    pose proof (fresh_ne h3 l _ Hl3) as Hne.
    by erewrite setattr_box; [|by rewrite lookup_insert_ne|compute_done]. }
  split.
  - intros style Hsome. rewrite Hsome in Hstyle.
    pose proof (fresh_lookup h3) as Hfresh3.
    pose proof (fresh_ne h3 l _ Hl3) as Hne.
    set (ls := fresh (dom h3)) in *.
    exists l, ls. do 2 eexists.
    split.
    { unfold construct. unfold bind at 1. rewrite alloc_ok. fold l.
      change (resolve PageBox "__init__") with (Some PageBox). cbv iota.
      rewrite (Hstart (fun _ => ret (VRef l))).
      unfold bind at 1. erewrite bind_ok; [|exact Hstyle].
      do 3 (erewrite bind_ok;
        [|apply setattr_box; [apply lookup_insert_eq|compute_done]]).
      erewrite setattr_box; [|apply lookup_insert_eq|compute_done].
      reflexivity. }
    split; [done|].
    split; [by unfold h3 in Hfresh3; rewrite lookup_insert_ne in Hfresh3|].
    split; [apply lookup_insert_eq|].
    assert (Hls : ∀ x y z w : obj,
      <[l := x]> (<[l := y]> (<[l := z]> (<[l := w]>
        (<[ls := OStyle style]> h3)))) !! ls = Some (OStyle style))
      by (intros; by rewrite !lookup_insert_ne, lookup_insert_eq by done).
    subst s3.
    repeat (split; [first [by simplify_map_eq | apply Hls]|]).
    intros gsk fuel. unfold containing_block_size, lookup_method.
    rewrite lookup_insert_eq.
    change (resolve PageBox "containing_block_size") with (Some PageBox).
    cbn [obind]. unfold PageBox_containing_block_size.
    erewrite getattr_box by apply lookup_insert_eq.
    by simplify_map_eq.
  - intros Hnone. rewrite Hnone in Hstyle.
    unfold construct. unfold bind at 1. rewrite alloc_ok. fold l.
    change (resolve PageBox "__init__") with (Some PageBox). cbv iota.
    rewrite (Hstart (fun _ => ret (VRef l))).
    unfold bind at 1. unfold bind at 1. by rewrite Hstyle.
Qed.

End ElementBoxes.

(** ** Containing blocks that are not found *)

Lemma walks_to_weaken h (skip skip' : loc → Prop) n l a :
  (∀ p, skip p → skip' p) → walks_to h skip n l a → walks_to h skip' n l a.
Proof.
  intros Himp. induction 1 as [l a Hp|n l p a Hp Hs _ IH].
  - by apply walk_here.
  - eapply walk_step; eauto.
Qed.

Section Failures.

Variable get_single_keyword : pyval → outcome (option string).

(** X16: a box without parent that is not a page has no containing block:
    the call raises [AttributeError] when its position is static or
    relative, the assertion "Page not found" when it is fixed, and the
    assertion "Containing block not found" otherwise. *)
Theorem parentless_box_has_no_containing_block (h : heap) (l : loc) c s k fuel :
  h !! l = Some (OBox c s) →
  issubclass c PageBox = false →
  s !! "parent" = Some VNone →
  keyword_of get_single_keyword h (VRef l) "position" = Ok k →
  containing_block_size get_single_keyword (S fuel) h (VRef l)
  = Raise (if bool_decide (k ∈ [Some "relative"; Some "static"])
           then AttributeError
           else if bool_decide (k = Some "fixed")
                then AssertionError "Page not found"
                else AssertionError "Containing block not found").
Proof.
  intros H Hc Hp Hk.
  rewrite (containing_block_size_box _ _ _ _ _ _ H Hc).
  unfold Box_containing_block_size.
  rewrite (getattr_set _ _ _ _ _ _ H Hp). cbn [obind isinstance]. rewrite Hk.
  cbn [obind].
  destruct (bool_decide (k ∈ [Some "relative"; Some "static"])); [done|].
  destruct (bool_decide (k = Some "fixed")).
  - cbn [for_ancestors]. by rewrite (getattr_set _ _ _ _ _ _ H Hp).
  - destruct (bool_decide (k = Some "absolute")); [|done].
    cbn [for_ancestors]. by rewrite (getattr_set _ _ _ _ _ _ H Hp).
Qed.

(** X17: below a parent that is not a page, a position keyword other than
    static, relative, fixed and absolute, and an absolute box whose
    ancestors are neither positioned nor pages up to a box without parent,
    both end in the assertion "Containing block not found". *)
Theorem containing_block_not_found (h : heap) (l p : loc) c s :
  h !! l = Some (OBox c s) →
  issubclass c PageBox = false →
  s !! "parent" = Some (VRef p) →
  not_page h p →
  (∀ k fuel,
     keyword_of get_single_keyword h (VRef l) "position" = Ok k →
     k ∉ [Some "relative"; Some "static"; Some "fixed"; Some "absolute"] →
     containing_block_size get_single_keyword fuel h (VRef l)
     = Raise (AssertionError "Containing block not found"))
  ∧ (∀ n fuel,
       keyword_of get_single_keyword h (VRef l) "position"
         = Ok (Some "absolute") →
       walks_off h (passed_over get_single_keyword h) n l →
       (n ≤ fuel)%nat →
       containing_block_size get_single_keyword fuel h (VRef l)
       = Raise (AssertionError "Containing block not found")).
Proof.
  intros H Hc Hp Hpage. split.
  - intros k fuel Hk Hnot.
    rewrite (containing_block_size_box _ _ _ _ _ _ H Hc).
    unfold Box_containing_block_size.
    rewrite (getattr_set _ _ _ _ _ _ H Hp). cbn [obind].
    rewrite (isinstance_not_page _ _ Hpage). cbn [obind].
    rewrite Hk. cbn [obind].
    rewrite !not_elem_of_cons in Hnot. destruct Hnot as (?&?&?&?&_).
    rewrite bool_decide_eq_false_2
      by (rewrite !elem_of_cons, elem_of_nil; intros [|[|]]; done).
    by rewrite !bool_decide_eq_false_2 by done.
  - intros n fuel Hk Hwalk Hfuel.
    rewrite (containing_block_size_box _ _ _ _ _ _ H Hc).
    unfold Box_containing_block_size.
    rewrite (getattr_set _ _ _ _ _ _ H Hp). cbn [obind].
    rewrite (isinstance_not_page _ _ Hpage). cbn [obind].
    rewrite Hk. cbn [obind].
    rewrite bool_decide_eq_false_2
      by (rewrite !elem_of_cons, !elem_of_nil; intros [|[|]]; done).
    rewrite bool_decide_eq_false_2 by done.
    rewrite bool_decide_eq_true_2 by done.
    erewrite (for_ancestors_off h _ n l _ Hwalk); [done| |done].
    intros q (Hq & k & Hkq & Hnot). cbn beta. rewrite Hkq. cbn [obind].
    rewrite bool_decide_eq_false_2 by done.
    by rewrite (isinstance_not_page _ _ Hq).
Qed.

(** X18: when no ancestor below the page is positioned, a fixed box and an
    absolute box resolve to the same containing block, the content size of
    the first page box above them. *)
Theorem fixed_and_absolute_agree (h : heap) (l p a : loc) c s k n w x fuel :
  h !! l = Some (OBox c s) →
  issubclass c PageBox = false →
  s !! "parent" = Some (VRef p) →
  not_page h p →
  keyword_of get_single_keyword h (VRef l) "position" = Ok k →
  k ∈ [Some "fixed"; Some "absolute"] →
  walks_to h (passed_over get_single_keyword h) n l a →
  page_stop get_single_keyword h a →
  has_size h a w x →
  (n ≤ fuel)%nat →
  containing_block_size get_single_keyword fuel h (VRef l) = Ok (w, x).
Proof.
  intros H Hc Hp Hpage Hk Hin Hwalk (Ha & ka & Hka & Hnot) Hsize Hfuel.
  rewrite (containing_block_size_box _ _ _ _ _ _ H Hc).
  unfold Box_containing_block_size.
  rewrite (getattr_set _ _ _ _ _ _ H Hp). cbn [obind].
  rewrite (isinstance_not_page _ _ Hpage). cbn [obind].
  rewrite Hk. cbn [obind].
  rewrite !elem_of_cons, elem_of_nil in Hin. destruct Hin as [->|[->|[]]].
  - rewrite bool_decide_eq_false_2
      by (rewrite !elem_of_cons, !elem_of_nil; intros [|[|]]; done).
    rewrite bool_decide_eq_true_2 by done.
    erewrite (for_ancestors_walk h (not_page h) n l a _ (w, x));
      [done| | | |done].
    + eapply walks_to_weaken; [|exact Hwalk]. by intros q [Hq _].
    + intros q Hq. by rewrite (isinstance_not_page _ _ Hq).
    + rewrite (isinstance_page _ _ Ha). cbn [obind].
      by rewrite (size_of_box _ _ _ _ Hsize).
  - rewrite bool_decide_eq_false_2
      by (rewrite !elem_of_cons, !elem_of_nil; intros [|[|]]; done).
    rewrite bool_decide_eq_false_2 by done.
    rewrite bool_decide_eq_true_2 by done.
    erewrite (for_ancestors_walk h _ n l a _ (w, x) Hwalk); [done| | |done].
    + intros q (Hq & kq & Hkq & Hnq). cbn beta. rewrite Hkq. cbn [obind].
      rewrite bool_decide_eq_false_2 by done.
      by rewrite (isinstance_not_page _ _ Hq).
    + cbn beta. rewrite Hka. cbn [obind].
      rewrite bool_decide_eq_false_2 by done.
      rewrite (isinstance_page _ _ Ha). cbn [obind].
      by rewrite (size_of_box _ _ _ _ Hsize).
Qed.

(** X19: [is_in_normal_flow] reads the position only of a box that is not
    floated: on a floated box it returns false without reading
    [style.position], so whatever that entry holds, and whether or not the
    style has one. *)
Theorem floated_box_skips_position (h : heap) self st fv fk :
  getattr h self "style" = Ok st →
  getattr h st "float" = Ok fv →
  get_single_keyword fv = Ok fk →
  fk ≠ Some "none" →
  is_floated get_single_keyword h self = Ok true
  ∧ is_in_normal_flow get_single_keyword h self = Ok false.
Proof.
  intros Hst Hf Hfk Hne.
  unfold is_in_normal_flow, is_floated, keyword_of.
  rewrite Hst. cbn [obind]. rewrite Hf. cbn [obind]. rewrite Hfk.
  cbn [obind]. by rewrite bool_decide_eq_false_2.
Qed.

End Failures.

(** ** Attaching, then resolving *)

Section Attached.

Variable get_single_keyword : pyval → outcome (option string).

(** X20: once a static or relative box has been added to a parent that is
    not a page, its containing block is the content box of that parent. *)
Theorem add_child_containing_block (h : heap) (lp lc d ls : loc)
    cp sp cc sc items e pv k w x fuel :
  h !! lp = Some (OBox cp sp) →
  issubclass cp PageBox = false →
  sp !! "children" = Some (VRef d) →
  h !! d = Some (ODeque items) →
  sp !! "width" = Some w → sp !! "height" = Some x →
  h !! lc = Some (OBox cc sc) →
  issubclass cc PageBox = false →
  lc ≠ lp →
  sc !! "style" = Some (VRef ls) →
  h !! ls = Some (OStyle e) →
  e !! "position" = Some pv →
  get_single_keyword pv = Ok k →
  k ∈ [Some "static"; Some "relative"] →
  ∃ h', add_child (VRef lp) (VRef lc) h = (Ok tt, h')
    ∧ containing_block_size get_single_keyword fuel h' (VRef lc) = Ok (w, x).
Proof.
  intros Hp Hcp Hch Hd Hw Hx Hc Hcc Hne Hs Hls Hpos Hk Hin.
  destruct (add_child_run h lp lc d cp sp cc sc items Hp Hch Hd Hc)
    as (h' & Hrun & Hc' & Hd' & _ & Hframe).
  exists h'. split; [done|].
  assert (Hdp : d ≠ lp) by (intros ->; congruence).
  assert (Hp' : h' !! lp = Some (OBox cp sp))
    by (rewrite Hframe; [done|done|by apply not_eq_sym]).
  assert (Hls' : h' !! ls = Some (OStyle e)).
  { rewrite Hframe; [done|intros ->; congruence..]. }
  rewrite (containing_block_size_box _ _ _ _ _ _ Hc' Hcc).
  unfold Box_containing_block_size.
  erewrite getattr_set; [|exact Hc'|apply lookup_insert_eq]. cbn [obind].
  rewrite (isinstance_box _ _ _ _ _ Hp'), Hcp. cbn [obind].
  unfold keyword_of.
  erewrite getattr_set; [|exact Hc'|by rewrite lookup_insert_ne].
  cbn [obind]. unfold getattr at 1. rewrite Hls'. unfold style_getattr.
  rewrite Hpos. cbn [obind]. rewrite Hk. cbn [obind].
  rewrite bool_decide_eq_true_2
    by (revert Hin; rewrite !elem_of_cons, !elem_of_nil; tauto).
  unfold size_of.
  by rewrite (getattr_set _ _ _ _ _ _ Hp' Hw), (getattr_set _ _ _ _ _ _ Hp' Hx).
Qed.

End Attached.

(** ** The slots of a class *)

(** X21: the metaclass gives every class the slots of all the classes of
    its method resolution order, and no others; in particular every class
    has the slots of [Box], so that [copy] carries the attributes declared
    anywhere above the class. *)
Theorem all_slots_are_mro_slots c name :
  name ∈ all_slots c ↔ ∃ k, k ∈ mro c ∧ name ∈ own_slots k.
Proof.
  assert (Hsub : forallb (fun n => bool_decide (n ∈ mro c ≫= own_slots))
                   (all_slots c) = true
                 ∧ forallb (fun n => bool_decide (n ∈ all_slots c))
                     (mro c ≫= own_slots) = true)
    by (destruct c; vm_compute; split; reflexivity).
  destruct Hsub as [Hto Hfrom]. rewrite forallb_forall in Hto, Hfrom.
  assert (Hbind : name ∈ mro c ≫= own_slots
                  ↔ ∃ k, k ∈ mro c ∧ name ∈ own_slots k)
    by (rewrite list_elem_of_bind; split; intros (k & ? & ?); eauto).
  rewrite <- Hbind. split; intros Hin.
  - apply list_elem_of_In, Hto in Hin. by apply bool_decide_eq_true_1 in Hin.
  - apply list_elem_of_In, Hfrom in Hin. by apply bool_decide_eq_true_1 in Hin.
Qed.

(** ** New anonymous boxes *)


Section Anonymous.

Variable style_for : pyval → pyval → gmap string pyval.
Variable computed_from_cascaded :
  pyval → gmap string pyval → gmap string pyval → gmap string pyval.
Variable computed_styles : pyval → string → option (gmap string pyval).

Lemma Box_init_inherited (h : heap) (l : loc) c document element :
  h !! l = Some (OBox c ∅) →
  resolve c "_init_style" = Some AnonymousBox →
  ∃ (ls : loc) h' s,
    h !! ls = None ∧ ls ≠ l
    ∧ Box_init style_for computed_from_cascaded computed_styles
        (VRef l) document element h = (Ok tt, h')
    ∧ h' !! l = Some (OBox c s)
    ∧ h' !! ls
      = Some (OStyle (computed_from_cascaded element ∅
                        (style_for document element)))
    ∧ (∀ k o, h !! k = Some o → k ≠ l → h' !! k = Some o)
    ∧ (∀ k, k ≠ l → k ≠ ls → h' !! k = h !! k)
    ∧ zero_edges s
    ∧ s !! "style" = Some (VRef ls)
    ∧ s !! "width" = Some VNone ∧ s !! "height" = Some VNone
    ∧ s !! "position_x" = Some (VNum 0) ∧ s !! "position_y" = Some (VNum 0).
Proof.
  intros H Hres. unfold Box_init.
  erewrite bind_ok;
    [|apply (setattr_box _ _ _ _ _ _ H), Box_slots_all; compute_done].
  do 2 (erewrite bind_ok;
    [|apply setattr_box; [apply lookup_insert_eq
                         |apply Box_slots_all; compute_done]]).
  rewrite !insert_insert_eq.
  set (s3 := <["parent" := VNone]> (<["element" := element]>
               (<["document" := document]> (∅ : gmap string pyval)))).
  set (h3 := <[l := OBox c s3]> h).
  assert (Hl3 : h3 !! l = Some (OBox c s3)) by apply lookup_insert_eq.
  pose proof (fresh_lookup h3) as Hfresh.
  pose proof (fresh_ne h3 l _ Hl3) as Hne.
  set (ls := fresh (dom h3)) in *.
  exists ls. do 2 eexists.
  split; [unfold h3 in Hfresh; by rewrite lookup_insert_ne in Hfresh|].
  split; [done|].
  split.
  { unfold bind at 1, init_style at 1.
    unfold bind at 1, read at 1, lookup_method. rewrite Hl3, Hres.
    unfold AnonymousBox_init_style.
    unfold bind at 1, read at 1.
    erewrite getattr_set; [|exact Hl3|by subst s3; simplify_map_eq].
    unfold bind at 1, read at 1.
    erewrite getattr_set; [|exact Hl3|by subst s3; simplify_map_eq].
    unfold bind at 1. rewrite alloc_ok. fold ls.
    erewrite bind_ok;
      [|apply setattr_box;
        [by rewrite lookup_insert_ne|apply Box_slots_all; compute_done]].
    do 11 (erewrite bind_ok;
      [|apply setattr_box;
        [apply lookup_insert_eq|apply Box_slots_all; compute_done]]).
    erewrite setattr_box;
      [|apply lookup_insert_eq|apply Box_slots_all; compute_done].
    do 3 (erewrite bind_ok;
      [|apply setattr_box; [apply lookup_insert_eq
                           |apply Box_slots_all; compute_done]]).
    erewrite setattr_box;
      [|apply lookup_insert_eq|apply Box_slots_all; compute_done].
    rewrite !insert_insert_eq. reflexivity. }
  split; [apply lookup_insert_eq|].
  split; [by rewrite lookup_insert_ne, lookup_insert_eq by done|].
  split.
  { intros k o Hk Hkl. rewrite lookup_insert_ne by done.
    rewrite lookup_insert_ne by (intros ->; unfold h3 in Hfresh;
      rewrite lookup_insert_ne in Hfresh by done; congruence).
    unfold h3. by rewrite lookup_insert_ne. }
  split.
  { intros k Hkl Hkls. unfold h3. by rewrite !lookup_insert_ne. }
  split.
  { unfold zero_edges. vm_compute edge_fields.
    repeat (apply Forall_cons; split; [by simplify_map_eq|]).
    by apply Forall_nil. }
  repeat split; by simplify_map_eq.
Qed.



End Anonymous.

(** ** New containers *)

Section Containers.

Variable style_for : pyval → pyval → gmap string pyval.
Variable computed_from_cascaded :
  pyval → gmap string pyval → gmap string pyval → gmap string pyval.
Variable computed_styles : pyval → string → option (gmap string pyval).

Lemma construct_container (h : heap) c document element :
  resolve c "__init__" = Some ParentBox →
  resolve_super c ParentBox "__init__" = Some Box →
  issubclass c ParentBox = true →
  (∃ h1 s1,
     Box_init style_for computed_from_cascaded computed_styles
       (VRef (fresh (dom h))) document element
       (<[fresh (dom h) := OBox c ∅]> h) = (Ok tt, h1)
     ∧ h1 !! fresh (dom h) = Some (OBox c s1)
     ∧ ∀ k o, h !! k = Some o → h1 !! k = Some o) →
  built_container c h
    (construct style_for computed_from_cascaded computed_styles
       c [document; element] h).
Proof.
  intros Hinit Hsuper Hc (h1 & s1 & Hrun & Hl1 & Hold).
  pose proof (fresh_lookup h) as Hfresh.
  unfold construct. unfold bind at 1. rewrite alloc_ok.
  set (l := fresh (dom h)) in *. rewrite Hinit.
  unfold bind at 1. unfold bind at 1.
  unfold super_init at 1. unfold bind at 1, read at 1, type_of.
  rewrite lookup_insert_eq, Hsuper, Hrun.
  destruct (empty_run h1 l c s1 Hl1) as (d & Hd & Hempty).
  rewrite Hempty. unfold ret.
  assert (Hld : l ≠ d) by (intros ->; congruence).
  exists l, d, (<["children" := VRef d]> s1). cbn [fst snd].
  split; [done|]. split; [done|].
  split.
  { destruct (h !! d) as [o|] eqn:E; [|done].
    apply Hold in E. congruence. }
  split; [done|].
  split; [apply lookup_insert_eq|].
  split; [apply lookup_insert_eq|].
  split; [by rewrite lookup_insert_ne, lookup_insert_eq by done|].
  split.
  { intros k o Hk. rewrite !lookup_insert_ne; [by apply Hold|..];
      intros ->; [|congruence]. apply Hold in Hk. congruence. }
  intros fuel. cbn [descendants]. unfold lookup_method.
  rewrite lookup_insert_eq, resolve_descendants, Hc. cbn [obind].
  erewrite getattr_set; [|apply lookup_insert_eq|apply lookup_insert_eq].
  cbn [obind]. unfold truthy.
  by rewrite lookup_insert_ne, lookup_insert_eq by done.
Qed.

(** X23: every new container gets an empty deque of children of its own,
    at a reference nothing in the store held before, so that no two
    containers built by their constructors share children; its traversal
    yields the container alone, and the objects the store held before are
    as they were. *)
Theorem containers_start_empty (h : heap) document element :
  built_container BlockBox h
    (construct style_for computed_from_cascaded computed_styles
       BlockBox [document; element] h)
  ∧ built_container InlineBox h
      (construct style_for computed_from_cascaded computed_styles
         InlineBox [document; element] h)
  ∧ built_container InlineBlockBox h
      (construct style_for computed_from_cascaded computed_styles
         InlineBlockBox [document; element] h)
  ∧ built_container AnonymousBlockBox h
      (construct style_for computed_from_cascaded computed_styles
         AnonymousBlockBox [document; element] h)
  ∧ built_container LineBox h
      (construct style_for computed_from_cascaded computed_styles
         LineBox [document; element] h).
Proof.
  pose proof (fresh_lookup h) as Hfresh.
  assert (Hplain : ∀ c, resolve c "_init_style" = Some Box →
    ∃ h1 s1,
      Box_init style_for computed_from_cascaded computed_styles
        (VRef (fresh (dom h))) document element
        (<[fresh (dom h) := OBox c ∅]> h) = (Ok tt, h1)
      ∧ h1 !! fresh (dom h) = Some (OBox c s1)
      ∧ ∀ k o, h !! k = Some o → h1 !! k = Some o).
  { intros c Hstyle.
    destruct (Box_init_plain style_for computed_from_cascaded computed_styles
                (<[fresh (dom h) := OBox c ∅]> h) (fresh (dom h)) c
                document element (lookup_insert_eq _ _ _) Hstyle)
      as (ls & Hls & Hne & Hrun).
    do 2 eexists. split; [exact Hrun|]. split; [apply lookup_insert_eq|].
    intros k o Hk.
    assert (fresh (dom h) ≠ k) by (intros Heq; rewrite Heq in Hfresh; congruence).
    assert (ls ≠ k).
    { intros Heq. rewrite Heq, lookup_insert_ne in Hls by done. congruence. }
    by rewrite !lookup_insert_ne. }
  assert (Hanon : ∀ c, resolve c "_init_style" = Some AnonymousBox →
    ∃ h1 s1,
      Box_init style_for computed_from_cascaded computed_styles
        (VRef (fresh (dom h))) document element
        (<[fresh (dom h) := OBox c ∅]> h) = (Ok tt, h1)
      ∧ h1 !! fresh (dom h) = Some (OBox c s1)
      ∧ ∀ k o, h !! k = Some o → h1 !! k = Some o).
  { intros c Hstyle.
    destruct (Box_init_inherited style_for computed_from_cascaded
                computed_styles
                (<[fresh (dom h) := OBox c ∅]> h) (fresh (dom h)) c
                document element (lookup_insert_eq _ _ _) Hstyle)
      as (ls & h1 & s1 & Hls & Hne & Hrun & Hl1 & _ & Hold & _).
    exists h1, s1. split; [exact Hrun|]. split; [exact Hl1|].
    intros k o Hk.
    assert (fresh (dom h) ≠ k) by (intros Heq; rewrite Heq in Hfresh; congruence).
    apply Hold; [by rewrite lookup_insert_ne|done]. }
  repeat split;
    (apply construct_container; [reflexivity..|]);
    first [apply Hplain; reflexivity | apply Hanon; reflexivity].
Qed.

End Containers.

(** ** Image loading *)

Section ImageLoading.

Variable num : Type.
Variable mul : num → num → num.
Variable reciprocal : num → option num.
Variable urlopen : string → Images.opened.
Variable FORMAT_HANDLERS : gmap string (Images.handler num).
Variable fallback_handler : Images.handler num.
Variable INTERNAL_UNITS_PER : gmap string num.

(** X24: whatever the handler does (return an image, return or raise an
    exception, caught or not, name a unit that is not in the table or one
    whose factor is zero), a file that [urlopen] returned is closed exactly
    once, before any warning is logged or any matrix set; when [urlopen]
    raises nothing is closed. *)
Theorem image_file_closed_once (uri : string) :
  let run :=
    Images.get_image_from_uri num mul reciprocal urlopen FORMAT_HANDLERS
      fallback_handler INTERNAL_UNITS_PER uri in
  match urlopen uri with
  | Images.Opens file_like _ =>
      Images.closed num run.1 = [file_like]
      ∧ ∃ rest, run.1 = Images.Close num file_like :: rest
  | Images.Open_raises _ => Images.closed num run.1 = []
  end.
Proof.
  cbv zeta. unfold Images.get_image_from_uri.
  destruct (urlopen uri) as [f mime|e]; [|by case_bool_decide].
  destruct (default fallback_handler (FORMAT_HANDLERS !! mime) f uri)
    as [p w hh u|e|e].
  - destruct (INTERNAL_UNITS_PER !! u) as [factor|]; [|split; eauto].
    destruct (reciprocal factor); split; eauto.
  - split; eauto.
  - destruct (Images.caught e); split; eauto.
Qed.

(** X25: the call returns [None] exactly when it logged one warning, and
    it logs no warning otherwise: a failure that gives [None] is never
    silent, and a returned image or a propagated exception is never
    accompanied by a warning. *)
Theorem image_none_iff_warned (uri : string) :
  let run :=
    Images.get_image_from_uri num mul reciprocal urlopen FORMAT_HANDLERS
      fallback_handler INTERNAL_UNITS_PER uri in
  (run.2 = Images.Return None
   ↔ length (Images.warnings num run.1) = 1%nat)
  ∧ (run.2 ≠ Images.Return None ↔ Images.warnings num run.1 = []).
Proof.
  cbv zeta. unfold Images.get_image_from_uri.
  destruct (urlopen uri) as [f mime|e].
  - destruct (default fallback_handler (FORMAT_HANDLERS !! mime) f uri)
      as [p w hh u|e|e].
    + destruct (INTERNAL_UNITS_PER !! u) as [factor|];
        [destruct (reciprocal factor)|]; cbn; split; split; done.
    + cbn; split; split; done.
    + destruct (Images.caught e); cbn; split; split; done.
  - case_bool_decide; cbn; split; split; done.
Qed.

(** X26: when the call returns an image, the size it returns is the
    handler's size multiplied by the factor of the handler's unit, and the
    matrix set on the returned pattern scales by the reciprocal of that same
    factor on both axes; nothing else is done to the pattern. *)
Theorem image_scaled_by_unit (uri : string) (p : positive) (w h : num) :
  let run :=
    Images.get_image_from_uri num mul reciprocal urlopen FORMAT_HANDLERS
      fallback_handler INTERNAL_UNITS_PER uri in
  run.2 = Images.Return (Some (p, w, h)) →
  ∃ file_like mime_type width height unit factor scale,
    urlopen uri = Images.Opens file_like mime_type
    ∧ default fallback_handler (FORMAT_HANDLERS !! mime_type) file_like uri
      = Images.Returns_image num p width height unit
    ∧ INTERNAL_UNITS_PER !! unit = Some factor
    ∧ reciprocal factor = Some scale
    ∧ w = mul width factor ∧ h = mul height factor
    ∧ run.1 = [Images.Close num file_like; Images.Set_matrix num p scale scale].
Proof.
  cbv zeta. unfold Images.get_image_from_uri.
  destruct (urlopen uri) as [f mime|e] eqn:Hopen.
  - destruct (default fallback_handler (FORMAT_HANDLERS !! mime) f uri)
      as [q w0 h0 u|e|e] eqn:Hhandler.
    + destruct (INTERNAL_UNITS_PER !! u) as [factor|] eqn:Hunit; [|done].
      destruct (reciprocal factor) as [scale|] eqn:Hscale; [|done].
      cbn. intros [= <- <- <-]. by exists f, mime, w0, h0, u, factor, scale.
    + done.
    + by destruct (Images.caught e).
  - by case_bool_decide.
Qed.

(** X27: with the table the module builds by its two decorators, the PNG
    type selects the PNG handler, the SVG type the SVG handler and every
    other type the fallback handler; registering a type returns the function
    registered, replaces the handler of that type and leaves every other
    type's handler as it was. *)
Theorem image_handler_selection
    (png_handler cairosvg_handler : Images.handler num) (mime_type : string) :
  default fallback_handler
    (Images.module_handlers num png_handler cairosvg_handler !! mime_type)
  = (if bool_decide (mime_type = "image/svg+xml") then cairosvg_handler
     else if bool_decide (mime_type = "image/png") then png_handler
     else fallback_handler)
  ∧ ∀ other function,
      (Images.register_format num other function FORMAT_HANDLERS).1 = function
      ∧ (Images.register_format num other function FORMAT_HANDLERS).2
        !! mime_type
        = (if bool_decide (mime_type = other) then Some function
           else FORMAT_HANDLERS !! mime_type).
Proof.
  split.
  - unfold Images.module_handlers, Images.register_format. cbn [snd].
    repeat case_bool_decide; subst; try done.
    by rewrite !lookup_insert_ne by done.
  - intros other function. unfold Images.register_format. cbn [fst snd].
    split; [done|]. case_bool_decide; subst.
    + by rewrite lookup_insert_eq.
    + by rewrite lookup_insert_ne by done.
Qed.

End ImageLoading.

(** ** Queries on floats *)

(** X28: a geometry query on a box whose slots are assigned adds the values
    it reads, in the order it reads them, by Python's addition; it fails
    only when one of these additions fails.  When the slots it reads hold
    floats no addition fails, and the query returns their float sum, each
    addition rounded. *)
Theorem queries_add_left_to_right q (h : heap) (l : loc) c s :
  h !! l = Some (OBox c s) →
  (∀ v vs,
     Forall2 (fun n v => s !! n = Some v) (reads q) (v :: vs) →
     run_query q h (VRef l) = sum_values v vs)
  ∧ (∀ f fs,
       Forall2 (fun n f => s !! n = Some (VFloat f)) (reads q) (f :: fs) →
       run_query q h (VRef l) = Ok (VFloat (float_sum f fs))).
Proof.
  intros H.
  assert (Hany : ∀ v vs,
            Forall2 (fun n v => s !! n = Some v) (reads q) (v :: vs) →
            run_query q h (VRef l) = sum_values v vs).
  { intros v vs Hall. rewrite run_query_reads.
    destruct (reads q) as [|n names]; [by apply Forall2_nil_cons_inv in Hall|].
    apply Forall2_cons in Hall as [Hn Hall]. cbn [sum_fields].
    rewrite (getattr_set _ _ _ _ _ _ H Hn). cbn [obind].
    by apply (add_attrs_values h l c s). }
  split; [exact Hany|].
  intros f fs Hall. rewrite <- sum_values_floats.
  apply (Hany (VFloat f) (map VFloat fs)).
  change (VFloat f :: map VFloat fs) with (map VFloat (f :: fs)).
  apply Forall2_fmap_r. exact Hall.
Qed.

Lemma float_add_zero f :
  float_add f (nearest_float 0) = if is_zero f then S754_zero false else f.
Proof. by destruct f as [[]|[]| |]. Qed.

Lemma add_zero_edges (h : heap) (l : loc) c s names f :
  h !! l = Some (OBox c s) →
  Forall (fun n => s !! n = Some (VNum 0)) names →
  add_attrs h (VRef l) (VFloat (if is_zero f then S754_zero false else f)) names
  = Ok (VFloat (if is_zero f then S754_zero false else f)).
Proof.
  intros H Hall. induction Hall as [|n names Hn _ IH]; [reflexivity|].
  cbn [add_attrs]. rewrite (getattr_set _ _ _ _ _ _ H Hn).
  cbn [obind py_add]. change (float_of_int 0) with (Ok (nearest_float 0)).
  cbn [obind]. rewrite float_add_zero.
  replace (if is_zero (if is_zero f then S754_zero false else f)
           then S754_zero false else if is_zero f then S754_zero false else f)
    with (if is_zero f then S754_zero false else f)
    by (by destruct f as [[]|[]| |]).
  exact IH.
Qed.

(** X29: on a box whose twelve edges are the integer 0, as the constructor
    of an anonymous box leaves them, and whose width and height are floats,
    the padding, border and margin sizes are the width and the height
    themselves: the integer edges are converted and added without changing
    the float (a zero size comes out as +0.0), and the surroundings are the
    integer 0. *)
Theorem zero_edges_keep_float_size (h : heap) (l : loc) c s w x :
  h !! l = Some (OBox c s) →
  zero_edges s →
  s !! "width" = Some (VFloat w) → s !! "height" = Some (VFloat x) →
  Forall (fun q => run_query q h (VRef l)
                   = Ok (VFloat (if is_zero w then S754_zero false else w)))
    [Qpadding_width; Qborder_width; Qmargin_width]
  ∧ Forall (fun q => run_query q h (VRef l)
                     = Ok (VFloat (if is_zero x then S754_zero false else x)))
      [Qpadding_height; Qborder_height; Qmargin_height]
  ∧ horizontal_surroundings h (VRef l) = Ok (VNum 0)
  ∧ vertical_surroundings h (VRef l) = Ok (VNum 0).
Proof.
  intros H Hzero Hw Hx. unfold zero_edges in Hzero.
  rewrite Forall_forall in Hzero.
  assert (Hedge : ∀ names, names ⊆ edge_fields →
            Forall (fun n => s !! n = Some (VNum 0)) names).
  { intros names Hsub. apply Forall_forall. intros n Hn. apply Hzero, Hsub, Hn. }
  assert (Hfirst : ∀ f n names,
            n ∈ edge_fields → names ⊆ edge_fields →
            add_attrs h (VRef l) (VFloat f) (n :: names)
            = Ok (VFloat (if is_zero f then S754_zero false else f))).
  { intros f n names Hn Hsub. cbn [add_attrs].
    rewrite (getattr_set _ _ _ _ _ _ H (Hzero n Hn)).
    cbn [obind py_add]. change (float_of_int 0) with (Ok (nearest_float 0)).
    cbn [obind]. rewrite float_add_zero.
    by apply (add_zero_edges h l c s), Hedge. }
  split; [|split; [|split]].
  - repeat (apply Forall_cons; split); [..|by apply Forall_nil];
      rewrite run_query_reads; cbn [reads sum_fields];
      rewrite (getattr_set _ _ _ _ _ _ H Hw); cbn [obind];
      apply Hfirst; compute_done.
  - repeat (apply Forall_cons; split); [..|by apply Forall_nil];
      rewrite run_query_reads; cbn [reads sum_fields];
      rewrite (getattr_set _ _ _ _ _ _ H Hx); cbn [obind];
      apply Hfirst; compute_done.
  - rewrite (run_query_reads Qhorizontal_surroundings).
    cbn [reads sum_fields].
    rewrite (getattr_set _ _ _ _ _ _ H (Hzero "margin_left" ltac:(compute_done))).
    cbn [obind]. rewrite (add_attrs_nums h l c s _ 0 H).
    + cbn [foldl]. unfold num. by rewrite !Hzero by compute_done.
    + eapply Forall_impl; [apply Hedge; compute_done|].
      intros n Hn. by exists 0.
  - rewrite (run_query_reads Qvertical_surroundings).
    cbn [reads sum_fields].
    rewrite (getattr_set _ _ _ _ _ _ H (Hzero "margin_top" ltac:(compute_done))).
    cbn [obind]. rewrite (add_attrs_nums h l c s _ 0 H).
    + cbn [foldl]. unfold num. by rewrite !Hzero by compute_done.
    + eapply Forall_impl; [apply Hedge; compute_done|].
      intros n Hn. by exists 0.
Qed.

(** ** The further properties at sample stores *)

(** Resetting the left side of the box of [resolved_store], whose left
    margin, padding and border are 4, 8 and 12: the horizontal surroundings
    go from 42 to 18, the vertical ones stay 36; and on the box of
    [float_store] the margin height is after the reset what it was
    before. *)
Lemma reset_spacing_shrinks_witness :
  (∃ h', reset_spacing (VRef 1) "left" resolved_store = (Ok tt, h')
     ∧ horizontal_surroundings h' (VRef 1) = Ok (VNum (42 - 24))
     ∧ vertical_surroundings h' (VRef 1) = Ok (VNum 36))
  ∧ ∃ h', reset_spacing (VRef 1) "left" float_store = (Ok tt, h')
          ∧ margin_height h' (VRef 1) = margin_height float_store (VRef 1).
Proof.
  split.
  - destruct (reset_spacing_shrinks resolved_store 1 2 BlockBox resolved_slots
                resolved_style "left") as (_ & Hint);
      [by_computation|by_computation|by_computation|compute_done|].
    destruct Hint
      as (h' & hs & mw & vs & mh & Hrun & Hhs & _ & Hvs & _ & Hleft & _).
    { cbn [reads app].
      repeat (apply Forall_cons; split; [eexists; by_computation|]).
      by apply Forall_nil. }
    destruct Hleft as (-> & _ & -> & _); [compute_done|].
    exists h'. split; [exact Hrun|]. split; [exact Hhs|exact Hvs].
  - destruct (reset_spacing_shrinks float_store 1 2 BlockBox float_slots
                (entries_at float_store 2) "left") as (Hany & _);
      [by_computation|by_computation|by_computation|compute_done|].
    apply (Hany Qmargin_height). intros n Hn. cbn [reads] in Hn.
    repeat (apply elem_of_cons in Hn as [->|Hn]); [compute_done..|].
    by apply elem_of_nil in Hn.
Defined.

(** Resetting the left side of that box twice. *)
Lemma reset_spacing_idempotent_witness :
  ∃ h', reset_spacing (VRef 1) "left" resolved_store = (Ok tt, h')
        ∧ reset_spacing (VRef 1) "left" h' = (Ok tt, h').
Proof.
  apply (reset_spacing_idempotent resolved_store 1 2 BlockBox resolved_slots
           resolved_style "left"); [by_computation..|compute_done].
Defined.

(** There is no side "middle". *)
Lemma reset_spacing_unknown_side_witness :
  reset_spacing (VRef 1) "middle" resolved_store
  = (Raise AttributeError, resolved_store).
Proof.
  apply (reset_spacing_unknown_side resolved_store 1 BlockBox resolved_slots);
    [by_computation|compute_done].
Defined.

Ltac placed_in_store :=
  repeat (apply Forall_cons; split; [apply placed_check; by_computation|]);
  by apply Forall_nil.

(** Translating the root block of [page_store] and back. *)
Lemma translate_round_trip_witness :
  ∃ h1,
    translate 4 (VRef 2) (VNum 1) (VNum 2) page_store = (Ok tt, h1)
    ∧ translate 4 (VRef 2) (VNum (- 1)) (VNum (- 2)) h1 = (Ok tt, page_store).
Proof.
  apply (translate_round_trip page_store page_tree 1 2 4).
  - apply shape_check. by_computation.
  - change (preorder page_tree) with [2; 3; 4; 6; 5]%positive.
    placed_in_store.
  - vm_compute. lia.
Defined.

(** In [twice_store] the text box listed twice is yielded twice and moved
    twice. *)
Lemma translate_follows_descendants_witness :
  ∃ h1,
    descendants 2 twice_store (VRef 3) = Ok [VRef 3; VRef 5; VRef 5]
    ∧ translate 2 (VRef 3) (VNum 1) (VNum 2) twice_store = (Ok tt, h1)
    ∧ h1 !! 5%positive
      = Nat.iter 2 (shifted (VNum 1) (VNum 2)) <$> twice_store !! 5%positive.
Proof.
  destruct (translate_follows_descendants twice_store twice_tree BlockBox
              (slots_at twice_store 3) (VNum 1) (VNum 2) 2)
    as (ls & h1 & Hdesc & Hrun & Hmoved).
  - apply shape_check. by_computation.
  - by_computation.
  - by_computation.
  - change (preorder twice_tree) with [3; 5; 5]%positive.
    repeat (apply Forall_cons; split;
            [do 6 eexists; repeat split; by_computation|]).
    by apply Forall_nil.
  - vm_compute. lia.
  - exists h1.
    change (root twice_tree) with 3%positive in Hdesc, Hrun.
    assert (ls = [3; 5; 5]%positive) as ->.
    { assert (descendants 2 twice_store (VRef 3)
              = Ok [VRef 3; VRef 5; VRef 5]) as Heq by by_computation.
      rewrite Heq in Hdesc. clear -Hdesc.
      destruct ls as [|a [|b [|c [|]]]]; simplify_eq/=. done. }
    split; [exact Hdesc|]. split; [exact Hrun|]. apply Hmoved.
Defined.

(** Translating the root block of [page_store] by (1, 2) moves the left
    edge of the content box of the text box at the bottom of the tree from
    65 to 66; translating the block of [float_store] by 0.1 leaves its
    margin width as it was. *)
Lemma translate_shifts_corners_witness :
  (∃ h1,
     translate 4 (VRef 2) (VNum 1) (VNum 2) page_store = (Ok tt, h1)
     ∧ content_box_x page_store (VRef 6) = Ok (VNum 65)
     ∧ content_box_x h1 (VRef 6) = Ok (VNum (65 + 1)))
  ∧ ∃ h1,
      translate 2 (VRef 1) (VFloat (float_ratio 1 10))
        (VFloat (float_ratio 1 10)) float_store = (Ok tt, h1)
      ∧ margin_width h1 (VRef 1) = margin_width float_store (VRef 1).
Proof.
  split.
  - destruct (translate_shifts_corners page_store page_tree 4 6 TextBox
                (slots_at page_store 6)) as (_ & Hint).
    { apply shape_check. by_computation. }
    { vm_compute. lia. }
    { by_computation. }
    apply (Hint 1 2 Qcontent_box_x).
    + compute_done.
    + change (preorder page_tree) with [2; 3; 4; 6; 5]%positive.
      placed_in_store.
    + compute_done.
    + cbn [reads].
      repeat (apply Forall_cons; split; [eexists; by_computation|]).
      by apply Forall_nil.
  - destruct (translate_shifts_corners float_store float_tree 2 1 BlockBox
                float_slots) as (Hany & _).
    { apply shape_check. by_computation. }
    { vm_compute. lia. }
    { by_computation. }
    apply (Hany (VFloat (float_ratio 1 10)) (VFloat (float_ratio 1 10))
             Qmargin_width); [|compute_done|compute_done].
    change (preorder float_tree) with [1; 4]%positive.
    repeat (apply Forall_cons; split;
            [do 6 eexists; repeat split; by_computation|]).
    by apply Forall_nil.
Defined.

(** A container whose children are [None]: the traversal yields it alone,
    the translation moves it and then fails on the loop. *)
Lemma children_none_witness :
  descendants 1 childless_store (VRef 1) = Ok [VRef 1]
  ∧ translate 1 (VRef 1) (VNum 1) (VNum 2) childless_store
    = (Raise TypeError, alter (moved 1 2) 1%positive childless_store).
Proof.
  apply (children_none childless_store 1 BlockBox
           (slots_at childless_store 1) 10 20 1 2 0); by_computation.
Defined.

(** In [page_store], adding the text box of the inline box to the static
    block: it ends the block's children and is still listed by the inline
    box. *)
Lemma add_child_appends_witness :
  ∃ h', add_child (VRef 3) (VRef 6) page_store = (Ok tt, h')
    ∧ getattr h' (VRef 6) "parent" = Ok (VRef 3)
    ∧ h' !! 13%positive = Some (ODeque [VRef 4; VRef 5; VRef 6])
    ∧ h' !! 14%positive = Some (ODeque [VRef 6]).
Proof.
  destruct (add_child_appends page_store 3 6 13 BlockBox
              (slots_at page_store 3) TextBox (slots_at page_store 6)
              [VRef 4; VRef 5])
    as (h' & Hrun & Hchild & Hdeque & _ & Hrest); [by_computation..|].
  exists h'. split; [exact Hrun|].
  unfold getattr. rewrite Hchild, Hdeque, Hrest by done.
  repeat split; by_computation.
Defined.

(** Copying the static block of [page_store] and adding a text box to the
    copy: the block lists it too. *)
Lemma copy_shares_children_witness :
  ∃ l' h1 h2 ch,
    copy (VRef 3) page_store = (Ok (VRef l'), h1)
    ∧ add_child (VRef l') (VRef 6) h1 = (Ok tt, h2)
    ∧ getattr h2 (VRef 3) "children" = Ok ch
    ∧ getattr h2 (VRef l') "children" = Ok ch
    ∧ iter h2 ch = Ok [VRef 4; VRef 5; VRef 6]
    ∧ getattr h2 (VRef 6) "parent" = Ok (VRef l').
Proof.
  apply (copy_shares_children page_store 3 23 13 6 BlockBox
           (slots_at page_store 3) (entries_at page_store 23) [VRef 4; VRef 5]
           TextBox (slots_at page_store 6));
    try by_computation.
  apply slots_declared_check. by_computation.
Defined.

(** Emptying that block after copying it: the copy still lists the two
    children. *)
Lemma empty_after_copy_witness :
  ∃ l' h1 h2 ch ch',
    copy (VRef 3) page_store = (Ok (VRef l'), h1)
    ∧ empty (VRef 3) h1 = (Ok tt, h2)
    ∧ getattr h2 (VRef 3) "children" = Ok ch ∧ iter h2 ch = Ok []
    ∧ getattr h2 (VRef l') "children" = Ok ch'
    ∧ iter h2 ch' = Ok [VRef 4; VRef 5].
Proof.
  apply (empty_after_copy page_store 3 23 13 BlockBox
           (slots_at page_store 3) (entries_at page_store 23) [VRef 4; VRef 5]);
    try by_computation.
  apply slots_declared_check. by_computation.
Defined.

(** Resetting the left side of a copy of the box of [resolved_store]: the
    box keeps its left margin of 4. *)
Lemma reset_spacing_on_copy_witness :
  ∃ l' h1 h2,
    copy (VRef 1) resolved_store = (Ok (VRef l'), h1)
    ∧ reset_spacing (VRef l') "left" h1 = (Ok tt, h2)
    ∧ getattr h2 (VRef 1) "margin_left" = Ok (VNum 4)
    ∧ getattr h2 (VRef l') "margin_left" = Ok (VNum 0)
    ∧ h2 !! 2%positive = Some (OStyle resolved_style).
Proof.
  destruct (reset_spacing_on_copy resolved_store 1 2 BlockBox resolved_slots
              resolved_style "left")
    as (l' & ls' & h1 & h2 & Hcopy & Hrun & Hold & Hstyle & Hnew & _).
  - by_computation.
  - by_computation.
  - by_computation.
  - apply slots_declared_check. by_computation.
  - compute_done.
  - exists l', h1, h2. split; [exact Hcopy|]. split; [exact Hrun|].
    unfold getattr. rewrite Hold, Hnew.
    split; [by_computation|]. split; [|exact Hstyle].
    unfold spacing_reset.
    change (fmt border__width "left") with "border_left_width".
    change (fmt padding_ "left") with "padding_left".
    change (fmt margin_ "left") with "margin_left".
    cbn [bool_decide]. by_computation.
Defined.

(** The traversal of a copy of the static block of [page_store]. *)
Lemma descendants_of_copy_witness :
  ∃ l' h1,
    copy (VRef 3) page_store = (Ok (VRef l'), h1)
    ∧ descendants 3 page_store (VRef 3) = Ok [VRef 3; VRef 4; VRef 6; VRef 5]
    ∧ descendants 3 h1 (VRef l') = Ok [VRef l'; VRef 4; VRef 6; VRef 5].
Proof.
  destruct (descendants_of_copy page_store 3 23
              [Node 4 [Node 6 []]; Node 5 []] BlockBox
              (slots_at page_store 3) (entries_at page_store 23) 3)
    as (l' & h1 & rest & Hcopy & Hold & Hnew).
  - apply shape_check. by_computation.
  - by_computation.
  - by_computation.
  - by_computation.
  - by_computation.
  - apply slots_declared_check. by_computation.
  - vm_compute. lia.
  - exists l', h1. split; [exact Hcopy|].
    assert (descendants 3 page_store (VRef 3)
            = Ok [VRef 3; VRef 4; VRef 6; VRef 5]) as Heq by by_computation.
    rewrite Heq in Hold. injection Hold as <-.
    split; [exact Heq|exact Hnew].
Defined.

(** With [sample_page_styles], page 1 is built with the first-right style
    and page 2, whose style is missing, is not built. *)
Lemma page_box_construction_witness :
  (∃ l ls s h',
     construct (fun _ _ => ∅) (fun _ _ parent_style => parent_style)
       sample_page_styles PageBox [VExt 1; VNum 1] ∅ = (Ok (VRef l), h')
     ∧ h' !! l = Some (OBox PageBox s)
     ∧ s !! "style" = Some (VRef ls)
     ∧ h' !! ls = Some (OStyle (list_to_map [("size", VExt 3)])))
  ∧ (construct (fun _ _ => ∅) (fun _ _ parent_style => parent_style)
       sample_page_styles PageBox [VExt 1; VNum 2] ∅).1 = Raise KeyError.
Proof.
  split.
  - destruct (page_box_construction (fun _ _ => ∅)
                (fun _ _ parent_style => parent_style) sample_page_styles
                ∅ (VExt 1) 1) as (Hbuilt & _).
    destruct (Hbuilt (list_to_map [("size", VExt 3)]))
      as (l & ls & s & h' & Hrun & _ & _ & Hbox & _ & _ & _ & Hstyle & Hbag
          & _); [by_computation|].
    by exists l, ls, s, h'.
  - destruct (page_box_construction (fun _ _ => ∅)
                (fun _ _ parent_style => parent_style) sample_page_styles
                ∅ (VExt 1) 2) as (_ & Hmissing).
    apply Hmissing. by_computation.
Defined.

(** The root block of [orphan_store] is static and has no parent. *)
Lemma parentless_box_has_no_containing_block_witness :
  containing_block_size sample_keyword 1 orphan_store (VRef 2)
  = Raise AttributeError.
Proof.
  apply (parentless_box_has_no_containing_block sample_keyword orphan_store 2
           BlockBox (slots_at orphan_store 2) (Some "static") 0);
    by_computation.
Defined.

(** In [orphan_store] the absolute text box has two static ancestors and
    then none. *)
Lemma containing_block_not_found_witness :
  containing_block_size sample_keyword 3 orphan_store (VRef 5)
  = Raise (AssertionError "Containing block not found").
Proof.
  destruct (containing_block_not_found sample_keyword orphan_store 5 3
              TextBox (slots_at orphan_store 5)) as (_ & Hwalk).
  - by_computation.
  - by_computation.
  - by_computation.
  - apply not_page_check. by_computation.
  - apply (Hwalk 3%nat); [by_computation| |lia].
    apply off_step with (p := 3%positive);
      [apply parent_of_check; by_computation| |].
    { split; [apply not_page_check; by_computation|].
      exists (Some "static"). split; [by_computation|compute_done]. }
    apply off_step with (p := 2%positive);
      [apply parent_of_check; by_computation| |].
    { split; [apply not_page_check; by_computation|].
      exists (Some "static"). split; [by_computation|compute_done]. }
    apply off_here with (c := BlockBox) (s := slots_at orphan_store 2);
      by_computation.
Defined.

Ltac static_ancestor :=
  split; [apply not_page_check; by_computation|];
  exists (Some "static"); split; [by_computation|compute_done].

(** In [static_page_store] the fixed inline box and the absolute text box
    both take the content size of the page. *)
Lemma fixed_and_absolute_agree_witness :
  containing_block_size sample_keyword 3 static_page_store (VRef 4)
  = Ok (VNum 500, VNum 700)
  ∧ containing_block_size sample_keyword 3 static_page_store (VRef 5)
    = Ok (VNum 500, VNum 700).
Proof.
  assert (walks_to static_page_store
            (passed_over sample_keyword static_page_store) 3 4 1) as Hfour.
  { apply walk_step with (p := 3%positive);
      [apply parent_of_check; by_computation|static_ancestor|].
    apply walk_step with (p := 2%positive);
      [apply parent_of_check; by_computation|static_ancestor|].
    apply walk_here. apply parent_of_check; by_computation. }
  assert (walks_to static_page_store
            (passed_over sample_keyword static_page_store) 3 5 1) as Hfive.
  { apply walk_step with (p := 3%positive);
      [apply parent_of_check; by_computation|static_ancestor|].
    apply walk_step with (p := 2%positive);
      [apply parent_of_check; by_computation|static_ancestor|].
    apply walk_here. apply parent_of_check; by_computation. }
  assert (page_stop sample_keyword static_page_store 1) as Hpage.
  { split; [apply is_page_check; by_computation|].
    exists (Some "static"). split; [by_computation|compute_done]. }
  split.
  - apply (fixed_and_absolute_agree sample_keyword static_page_store 4 3 1
             InlineBox (slots_at static_page_store 4) (Some "fixed") 3);
      [by_computation|by_computation|by_computation
      |apply not_page_check; by_computation|by_computation|compute_done
      |exact Hfour|exact Hpage|apply has_size_check; by_computation|lia].
  - apply (fixed_and_absolute_agree sample_keyword static_page_store 5 3 1
             TextBox (slots_at static_page_store 5) (Some "absolute") 3);
      [by_computation|by_computation|by_computation
      |apply not_page_check; by_computation|by_computation|compute_done
      |exact Hfive|exact Hpage|apply has_size_check; by_computation|lia].
Defined.

(** The box of [floated_store] floats left and its style has no position
    entry. *)
Lemma floated_box_skips_position_witness :
  is_floated sample_keyword floated_store (VRef 1) = Ok true
  ∧ is_in_normal_flow sample_keyword floated_store (VRef 1) = Ok false.
Proof.
  apply (floated_box_skips_position sample_keyword floated_store (VRef 1)
           (VRef 2) (VStr "left") (Some "left"));
    [by_computation|by_computation|by_computation|discriminate].
Defined.

(** In [page_store], the text box of the inline box, once added to the
    static block, has the content box of that block, 300 by 900, as its
    containing block. *)
Lemma add_child_containing_block_witness :
  ∃ h', add_child (VRef 3) (VRef 6) page_store = (Ok tt, h')
    ∧ containing_block_size sample_keyword 0 h' (VRef 6)
      = Ok (VNum 300, VNum 900).
Proof.
  apply (add_child_containing_block sample_keyword page_store 3 6 13 26
           BlockBox (slots_at page_store 3) TextBox (slots_at page_store 6)
           [VRef 4; VRef 5] (entries_at page_store 26) (VStr "static")
           (Some "static"));
    try by_computation; [discriminate|compute_done].
Defined.

(** With the sample collaborators, the 10 by 20 pixels of the PNG handler
    are the size returned. *)
Lemma image_scaled_by_unit_witness :
  ∃ file_like mime_type width height unit factor scale,
    sample_urlopen "a.png" = Images.Opens file_like mime_type
    ∧ default sample_failing_handler
        (Images.module_handlers Z sample_png_handler sample_failing_handler
         !! mime_type) file_like "a.png"
      = Images.Returns_image Z 7 width height unit
    ∧ sample_units !! unit = Some factor
    ∧ sample_reciprocal factor = Some scale
    ∧ 10 = width * factor ∧ 20 = height * factor
    ∧ (sample_get_image "a.png").1
      = [Images.Close Z file_like; Images.Set_matrix Z 7 scale scale].
Proof.
  apply (image_scaled_by_unit Z Z.mul sample_reciprocal sample_urlopen
           (Images.module_handlers Z sample_png_handler
              sample_failing_handler)
           sample_failing_handler sample_units "a.png" 7 10 20).
  by_computation.
Defined.

(** The margin width of the box of [float_store]: 0.1, 0.2, 0.3 and four
    times 0.0, added in this order. *)
Lemma queries_add_left_to_right_witness :
  margin_width float_store (VRef 1)
  = Ok (VFloat (float_sum (float_ratio 1 10)
                  [float_ratio 2 10; float_ratio 3 10; float_ratio 0 1;
                   float_ratio 0 1; float_ratio 0 1; float_ratio 0 1])).
Proof.
  destruct (queries_add_left_to_right Qmargin_width float_store 1 BlockBox
              float_slots) as (_ & Hfloat); [by_computation|].
  apply Hfloat. cbn [reads].
  repeat (apply Forall2_cons; split; [by_computation|]).
  apply Forall2_nil_2.
Defined.

(** On [sized_anonymous] the margin width is the width, 0.1. *)
Lemma zero_edges_keep_float_size_witness :
  margin_width sized_anonymous (VRef 1) = Ok (VFloat (float_ratio 1 10))
  ∧ horizontal_surroundings sized_anonymous (VRef 1) = Ok (VNum 0).
Proof.
  destruct (zero_edges_keep_float_size sized_anonymous 1 AnonymousBlockBox
              (slots_at sized_anonymous 1) (float_ratio 1 10)
              (float_ratio 2 10)) as (Hw & _ & Hhs & _).
  - by_computation.
  - unfold zero_edges, edge_fields.
    repeat (apply Forall_cons; split; [by_computation|]).
    by apply Forall_nil.
  - by_computation.
  - by_computation.
  - split; [|exact Hhs].
    apply Forall_cons in Hw as [_ Hw]. apply Forall_cons in Hw as [_ Hw].
    apply Forall_cons in Hw as [Hw _]. exact Hw.
Defined.
